(* ===== verification/_CoqProject ===== *)
-Q . S2P
Prelude.v
PyStr.v
Loader.v
Session.v
Docx.v
Render.v
Report.v
CLI.v
CLISpell.v
CLILaws.v
