(* ===== verification/Prelude.v ===== *)
(** * Crop-FASAL report generator: a verification development

    ** The program

    src/gen_report.py is a one-shot report generator.  [fetch_data] runs one
    SQL query (the inner join of [crop_yields], [crops] and [states],
    ordered by crop name, state name, year and method) and pivots the rows
    into a four-level [defaultdict]: crop -> state -> year -> method ->
    yield value.  [create_report] then builds a python-docx [Document]: page
    setup of every section from the orientation flag, a fixed header block
    (logo, title, contact line, spacer, horizontal rule, heading), per crop
    in the pivot's order an upper-case heading, a 9-column table with two
    header rows and one row per state, and a spacer; [add_footer] writes the
    footer of section 0 (copyright, [datetime.now()] as DD-MM-YYYY, a PAGE
    field); the document is saved and a confirmation printed.  The two parts
    interact only through the pivoted mapping.  The [__main__] block parses
    the command line with argparse (four options) and calls
    [create_report] with the parsed values.

    ** The files

    - [Prelude] (this file): Python dictionaries as insertion-ordered
      association lists ([dict_get], [dict_set], and [dict_upd] for
      [defaultdict.__getitem__] followed by an in-place update), their
      invariant [dict_wf] and lemmas (hint databases [pydict], [pydict_rw],
      tactic [dict_simpl]); the [result] type, the exceptions [py_exc]
      that end a run, and the state-and-error monad [SE] the stateful
      components share; the [Comparison] class (laws of a total order whose
      [Eq] is equality) with instances for [Z.compare], [Ascii.compare],
      [String.compare] and the lexicographic [lex_cmp]; list and string
      lemmas; the tactic [decide_by_eval] that closes decidable goals on
      concrete data by evaluation.
    - [PyStr]: the library semantics the code relies on: [str()] as the
      [PyStr] class (instances for [int], [None]/optional values and
      [decimal.Decimal], whose [__str__] follows CPython's [_pydecimal]),
      [str.upper()] on ASCII ([py_upper]), [strftime('%d-%m-%Y')]
      ([strftime_dmy]) and their parsers.
    - [Loader]: [fetch_data].  Schema records, the join ([join]), the
      [ORDER BY] comparison ([qrow_cmp], [qrow_le]) under a database
      collation, what the database may answer ([query_result]) and what the
      model runs ([run_query], a stable merge sort), the loop body
      ([store_row]) and the loop ([pivot]), and [fetch_result], what
      [fetch_data] returns (a connection that cannot be made raises
      [OperationalError]).
    - [Session]: [fetch_data] with its psycopg2 calls ([connect],
      [cursor], [execute], [fetchall], [close_cursor], [close_conn]) on the
      driver's state (open handles, next id, result sets), in [SE], and
      the well-formedness of its handle table ([dwf]); [DB_CONFIG] and the
      server as the parameters it accepts ([sv_up]).
    - [Docx]: the python-docx objects and calls the code uses: sections,
      paragraphs, runs, fields, tables, [Document()]'s default template,
      [add_paragraph], [add_run], [add_text], [add_picture] (raises on an
      unreadable image), [add_table], [add_row], and cell assignment (raises
      [IndexError] out of range).
    - [Render]: the statements of [create_report] from [Document()] to
      [add_footer(doc)], one definition per statement group
      ([setup_section], [add_logo], [title_paragraph], ..., [crop_table],
      [fill_state_row], [add_footer], [build_document]), and a declarative
      description of the intended document ([report_spec]).
    - [Report]: the run with its effects.  A [world] holds the database (or
      none), its collation, the readable images, the unwritable paths, the
      written files (a [gmap]), the clock, stdout, and the help text
      argparse formats in this environment ([w_help]); [M] is [SE] over it
      and [create_report] is the source's sequence
      [fetch_data]; render; [doc.save]; [print].
    - [CLI]: the [__main__] block.  The parser of lines 142-146 as argparse
      actions ([template_action], ..., [parser_actions]), [parse_args] as
      CPython 3.11's [Lib/argparse.py] runs it for this parser
      ([parse_optional], [get_option_tuples], [classify], [consume],
      [consume_explicit], [take_action], [get_values], [check_value],
      [parse_known_args]), the parsed values as Python objects ([py_val]:
      [str], [None] or a list), and [main]: for [-h] the help text written
      to stdout ([print_help]) then [SystemExit] with status 0, for a usage
      error [SystemExit] with status 2, otherwise [create_report] on the
      objects ([create_report_py] spells out where a non-[str] object
      fails).  The model was compared
      with CPython's argparse on thousands of random command lines; a
      selection is the example [parse_args_cpython].
    - [CLISpell]: the spellings argparse accepts for an option with its
      value ([opt_arg]: joined by [=], separate, attached to a short
      option; long options abbreviated to three characters or more) and
      how [parse_optional] reads each ([opt_form], [opt_ok_parse],
      [classify_opt]); consuming it stores the value ([consume_opt]) or,
      for a format outside the choices, ends the parse with argparse's
      error ([consume_opt_invalid]).
    - [CLILaws]: laws of [parse_args] over families of command lines: a
      command line of such options and of arguments left to the extras
      (plain arguments and unknown options such as [--bogus], [extra_arg])
      is consumed as a fold, [store] for an option and the extras for the
      others ([item_store], [parse_args_items]); composed with Report.v
      it gives the run of the whole program ([main_items_report]).

    ** What is proved

    - The pivot (Loader): last write wins ([pivot_lookup]); with distinct
      keys every row is retrievable unchanged and nothing else is
      ([pivot_lookup_unique]); it is well formed ([pivot_wf], preserved by
      every [store_row]); rows in [ORDER BY] order give crops and, per
      crop, states in strictly increasing order ([pivot_crops_sorted],
      [pivot_states_sorted], through Python's dict insertion order).
    - The query (Loader): with distinct keys the [ORDER BY] answer is
      unique ([query_result_unique]); for every database with two joined
      rows sharing a key but not a value, two valid answers (the tied rows
      in either order, built from the model's own sorted answer) give
      different pivots ([query_duplicate_keys_ambiguous]).
    - The session (Session): [fetch_data] refines [fetch_result], so the
      run of Report.v reads what the driver calls return
      ([fetch_data_refines]); a run that returns closes exactly the
      handles it opened ([fetch_data_releases]); a failing query leaves
      the connection and cursor open ([fetch_data_leaks_on_error]).  The
      server is modelled by the [DB_CONFIG] parameters it accepts.
    - The document (Render): [build_document] equals [report_spec] or raises
      [ImageError] for the logo, never [IndexError]
      ([build_document_spec]); page setup per orientation
      ([build_document_orientation]); the footer
      ([build_document_footer]); [fill_state_row] appends one row whose
      cells are the state and the stored values in the columns of their
      year and method ([fill_state_row_cells]); the crop sections read back
      from the body [build_document] returns follow the data's crop and
      state order ([report_sections]); two yield cells show the same text
      only when they hold the same [Decimal], both [NULL] or both nothing
      ([cell_text_injective], from the round trip of [Decimal.__str__],
      [dec_str_roundtrip]).
    - The run (Report): success writes exactly the expected document and
      prints ([create_report_ok]); any exception leaves the world unchanged
      ([create_report_error], [create_report_missing_logo]); end to end,
      every joined row shows in the saved report, in the table after its
      crop's heading, in its state's row and its year and method's column
      ([rendered_cell_value]).
    - The command line (CLI): a successful parse yields the four attributes,
      each a [str] or an empty list, the format one of the two choices or
      an empty list ([parse_args_namespace], by an invariant of the parse
      state preserved by every step); [--opt=value] command lines parse
      back to their values ([parse_args_long_roundtrip]); [main] on
      [-t -o [-f] -l] is [create_report] on the values ([main_cli]);
      [-f--] gets past [choices] and crashes at [orientation.upper()]
      ([format_dashdash_crash]); a lower-case format is a usage error
      ([format_case_sensitive]); a missing [--logo] is a usage error with
      the world unchanged ([missing_logo_usage_error]).
    - Command-line laws (CLILaws), over command lines of options in any
      spelling and order and of left-over arguments: lines that give each
      [dest] the same last value and have the same extras parse alike,
      namespace or error ([parse_args_items_equiv]); a repeated option
      keeps its last value ([parse_args_items_last]); the usage errors
      list every missing required option, or else every left-over
      argument, with the world unchanged ([main_items_usage_error]); a
      [-f] value outside the choices is refused wherever it comes
      ([main_invalid_format]); [-h] prints the help and ends [main] before
      any other effect ([main_help]); end to end, [main] on any such
      command line giving the three required options and no extras
      writes the report of the database with the last values given and
      prints the confirmation, the format defaulting to ["PORTRAIT"]
      ([main_items_report], from [parse_args_items] and
      [create_report_success]).
    - Text (PyStr): the footer date reads back ([strftime_dmy_roundtrip]),
      decimal digits read back ([n_to_dec_roundtrip]), [upper()] is
      length-preserving and idempotent ([py_upper_spec]), and the text
      [Decimal.__str__] writes reads back through the [Decimal()]
      constructor's grammar as the same decimal, plain, with a point, with
      leading zeros or in scientific notation ([dec_str_roundtrip]); the
      footer date has 7 to 10 characters, 10 only for years from 1000
      ([strftime_dmy_length]).

    ** Bounds and fuel

    [n_digits] takes one step per decimal digit; [n_to_dec] gives it one
    more than the bit size of the number, which bounds its digit count
    ([n_to_dec_fuel]), so the printed text is complete and reads back
    ([n_to_dec_roundtrip]).
    Dates are [datetime] values: years 1 to 9999, valid days.  Lengths are
    EMU integers as python-docx stores them.

    ** Not modelled, and why

    The layout of the help text argparse prints for [-h] is not computed:
    it depends on [sys.argv[0]] and the terminal width, so the world
    holds it ([w_help]) and [main] writes it to stdout.  Standard error,
    where a usage error's message goes, is not part of the world.  The
    PostgreSQL server is modelled by the [DB_CONFIG] parameters it accepts,
    whether its schema has the tables, and its data; its authentication
    protocol and network are not modelled.  Report.v reads the database through
    [fetch_result] (a schema error is not part of its world); Session.v
    relates the two.  The DOCX serialisation of
    [doc.save], picture sizing and styles are library internals: a saved
    file is the document value.  Python [float] printing and non-ASCII
    [upper()] are outside the model (values are [Decimal], as psycopg2
    returns for [numeric]).  The [template_path] argument is never read by
    the source.  Of argparse's remaining paths, [-h] combined with other
    letters ([-hx], [-ht]) and the one ambiguous prefix of this parser
    ([--=x], every long option starts with [--]) are checked on concrete
    command lines against CPython ([parse_args_cpython]) rather than as
    laws over families of command lines. *)

From stdpp Require Export base list strings gmap sorting.
From Stdlib Require Export ZArith.

(** ** Python dictionaries

    A Python [dict] iterates in insertion order, keeps the position of a key
    whose value is overwritten, and appends a key that is new.  It is
    modelled as an association list without duplicate keys, in iteration
    order.  [collections.defaultdict] differs only in [__getitem__], which
    inserts [default_factory()] for a missing key before returning it: the
    source then mutates that returned object in place, which is [dict_upd]
    below (the value is only reachable through its key, so updating it in
    place and storing the updated value are the same). *)

Declare Scope py_scope.
Delimit Scope py_scope with py.

Abbreviation pydict K V := (list (K * V)) (only parsing).

Section PyDict.
Context {K : Type} `{EqDecision K} {V : Type}.
Implicit Types (k : K) (v dflt : V) (d : list (K * V)).

(** [d.get(k)], with [None] for a missing key. *)
Fixpoint dict_get k d : option V :=
  match d with
  | [] => None
  | (k', v) :: d' => if decide (k = k') then Some v else dict_get k d'
  end.

(** [d.get(k, dflt)] *)
Definition dict_get_or k dflt d : V := default dflt (dict_get k d).

(** [d.keys()], in iteration order. *)
Definition dict_keys d : list K := fst <$> d.

(** [d[k]] on a [defaultdict] whose factory makes [dflt], followed by the
    in-place update [f] of the returned value. *)
Fixpoint dict_upd dflt (f : V -> V) k d : list (K * V) :=
  match d with
  | [] => [(k, f dflt)]
  | (k', v) :: d' =>
      if decide (k = k') then (k', f v) :: d' else (k', v) :: dict_upd dflt f k d'
  end.

(** [d[k] = v] *)
Fixpoint dict_set k v d : list (K * V) :=
  match d with
  | [] => [(k, v)]
  | (k', v') :: d' =>
      if decide (k = k') then (k', v) :: d' else (k', v') :: dict_set k v d'
  end.

(** The representation invariant of a dictionary: no key twice. *)
Definition dict_wf d : Prop := NoDup (dict_keys d).

(** *** Lemmas *)

Local Ltac dcbn := cbn [dict_get dict_upd dict_set dict_keys fmap list_fmap fst default].
Local Ltac dcases := repeat (case_decide; simplify_eq; dcbn); try done.

Lemma dict_get_upd_eq dflt f k d :
  dict_get k (dict_upd dflt f k d) = Some (f (default dflt (dict_get k d))).
Proof. induction d as [|[k' v] d IH]; dcbn; dcases. Qed.

Lemma dict_get_upd_ne dflt f k k' d :
  k <> k' -> dict_get k' (dict_upd dflt f k d) = dict_get k' d.
Proof.
  intros Hne. induction d as [|[k'' v] d IH]; dcbn; dcases.
Qed.

Lemma dict_get_upd dflt f k k' d :
  dict_get k' (dict_upd dflt f k d)
  = if decide (k = k') then Some (f (default dflt (dict_get k d))) else dict_get k' d.
Proof. case_decide; subst; [apply dict_get_upd_eq | by apply dict_get_upd_ne]. Qed.

(** Reading through an updated level of nested dictionaries: if the inner
    read [g] sees the update [f] as "[w] when [P], unchanged otherwise",
    and finds nothing in a fresh default, then the outer read does too. *)
Lemma dict_upd_bind {W} dflt (f : V -> V) (g : V -> option W) k k' d w
    (P : Prop) `{Decision P} :
  (forall x, g (f x) = if decide P then Some w else g x) ->
  g dflt = None ->
  dict_get k' (dict_upd dflt f k d) ≫= g
  = if decide (k = k' /\ P) then Some w else dict_get k' d ≫= g.
Proof.
  intros Hf Hd. rewrite dict_get_upd.
  destruct (decide (k = k')) as [<-|Hk]; cbn [mbind option_bind].
  - rewrite Hf. destruct (decide P), (dict_get k d); cbn [default mbind option_bind]; rewrite ?Hd;
      (rewrite decide_True by done) || (rewrite decide_False by tauto); done.
  - rewrite decide_False by tauto. done.
Qed.

Lemma dict_set_as_upd dflt k v d : dict_set k v d = dict_upd dflt (fun _ => v) k d.
Proof. induction d as [|[k' v'] d IH]; dcbn; [done|]. case_decide; by f_equal. Qed.

Lemma dict_get_set k k' v d :
  dict_get k' (dict_set k v d) = if decide (k = k') then Some v else dict_get k' d.
Proof. rewrite (dict_set_as_upd v). apply dict_get_upd. Qed.

Lemma dict_get_None k d : dict_get k d = None <-> k ∉ dict_keys d.
Proof.
  induction d as [|[k' v] d IH]; dcbn; [set_solver|].
  case_decide; subst; [split; [done|set_solver]|]. rewrite IH. set_solver.
Qed.

Lemma dict_get_Some k v d : dict_get k d = Some v -> (k, v) ∈ d.
Proof.
  induction d as [|[k' v'] d IH]; dcbn; [done|].
  case_decide; intros; simplify_eq; set_solver.
Qed.

Lemma dict_get_elem_of k v d : dict_wf d -> (k, v) ∈ d -> dict_get k d = Some v.
Proof.
  unfold dict_wf, dict_keys. induction d as [|[k' v'] d IH]; dcbn; [set_solver|].
  intros Hnd Hin. apply NoDup_cons in Hnd as [Hk Hnd].
  apply elem_of_cons in Hin as [Heq|Hin]; simplify_eq; [by rewrite decide_True|].
  rewrite decide_False; [by apply IH|].
  intros ?; subst. apply Hk, list_elem_of_fmap. by eexists (_, v).
Qed.

Lemma dict_keys_upd dflt f k d :
  dict_keys (dict_upd dflt f k d)
  = if decide (k ∈ dict_keys d) then dict_keys d else dict_keys d ++ [k].
Proof.
  unfold dict_keys. induction d as [|[k' v] d IH]; dcbn.
  - rewrite decide_False; [done|]. apply not_elem_of_nil.
  - destruct (decide (k = k')); subst; dcbn.
    + rewrite decide_True; [done|]. apply list_elem_of_here.
    + rewrite IH.
      destruct (decide (k ∈ fst <$> d)) as [Hin|Hin].
      * rewrite decide_True; [done|]. by apply elem_of_cons; right.
      * rewrite decide_False; [done|]. rewrite elem_of_cons. naive_solver.
Qed.

Lemma dict_keys_set k v d :
  dict_keys (dict_set k v d)
  = if decide (k ∈ dict_keys d) then dict_keys d else dict_keys d ++ [k].
Proof. rewrite (dict_set_as_upd v). apply dict_keys_upd. Qed.

Lemma dict_wf_upd dflt f k d : dict_wf d -> dict_wf (dict_upd dflt f k d).
Proof.
  unfold dict_wf. rewrite dict_keys_upd. case_decide; [done|].
  intros Hnd. apply NoDup_app. split_and!; [done| |by apply NoDup_singleton].
  set_solver.
Qed.

Lemma dict_wf_set k v d : dict_wf d -> dict_wf (dict_set k v d).
Proof. rewrite (dict_set_as_upd v). apply dict_wf_upd. Qed.

Lemma elem_of_dict_keys k d : k ∈ dict_keys d <-> is_Some (dict_get k d).
Proof.
  split; intros H.
  - destruct (dict_get k d) eqn:E; [done|]. by apply dict_get_None in E.
  - destruct (decide (k ∈ dict_keys d)) as [|Hn]; [done|].
    apply dict_get_None in Hn. rewrite Hn in H. by destruct H.
Qed.
Lemma dict_wf_nil : dict_wf [].
Proof. apply NoDup_nil_2. Qed.

Lemma dict_upd_nonempty dflt f k d : dict_upd dflt f k d <> [].
Proof. destruct d as [|[]]; dcbn; [done|]. by case_decide. Qed.

Lemma dict_set_nonempty k v d : dict_set k v d <> [].
Proof. rewrite (dict_set_as_upd v). apply dict_upd_nonempty. Qed.

(** Two dictionaries with the same keys in the same order and the same
    value at every key are the same dictionary. *)
Lemma dict_eq_ext d1 d2 :
  dict_wf d1 -> dict_keys d1 = dict_keys d2 -> (forall k, dict_get k d1 = dict_get k d2) -> d1 = d2.
Proof.
  unfold dict_wf, dict_keys. revert d2.
  induction d1 as [|[k v] d1 IH]; intros [|[k' v'] d2]; dcbn; intros Hnd Hk Hg; try done.
  injection Hk as <- Hk. apply NoDup_cons in Hnd as [Hn Hnd].
  pose proof (Hg k) as Hv. rewrite !decide_True in Hv by done. injection Hv as <-.
  f_equal. apply IH; [done|done|]. intros k'.
  specialize (Hg k'). case_decide; [subst|done].
  rewrite !(proj2 (dict_get_None _ _)); unfold dict_keys; [done|by rewrite <- Hk|done].
Qed.

(** A property of all values survives an update that establishes it from
    the old value or from the default. *)
Lemma Forall_dict_upd (Q : V -> Prop) dflt f k d :
  Forall (fun e => Q e.2) d -> (forall v, v = dflt \/ Q v -> Q (f v)) ->
  Forall (fun e => Q e.2) (dict_upd dflt f k d).
Proof.
  intros Hd Hf. induction Hd as [|[k' v] d Hv Hd IH]; dcbn.
  - constructor; [apply Hf; by left|constructor].
  - case_decide; constructor; simpl; auto.
Qed.

(** Keys stay strictly sorted when a new key is above the old ones. *)
Lemma dict_keys_upd_sorted (R : relation K) dflt f k d :
  StronglySorted R (dict_keys d) ->
  (k ∉ dict_keys d -> forall k', k' ∈ dict_keys d -> R k' k) ->
  StronglySorted R (dict_keys (dict_upd dflt f k d)).
Proof.
  intros Hs Hk. rewrite dict_keys_upd. case_decide as Hin; [done|].
  apply StronglySorted_app_2; [|done|repeat constructor].
  intros x1 x2 Hx1 ->%list_elem_of_singleton. by apply Hk.
Qed.
End PyDict.

(** ** Comparisons

    A three-way comparison ([collate], [Z.compare], [String.compare]) with
    the laws of a total order whose [Eq] is equality. *)
Class Comparison {A} (cmp : A -> A -> comparison) : Prop := {
  cmp_antisym a b : cmp b a = CompOpp (cmp a b);
  cmp_lt_trans a b c : cmp a b = Lt -> cmp b c = Lt -> cmp a c = Lt;
  cmp_eq a b : cmp a b = Eq -> a = b
}.
Arguments cmp_antisym {A} cmp {_} a b.
Arguments cmp_lt_trans {A} cmp {_} a b c.
Arguments cmp_eq {A} cmp {_} a b.

Section Comparison.
Context {A} (cmp : A -> A -> comparison) `{!Comparison cmp}.

Lemma cmp_refl a : cmp a a = Eq.
Proof. pose proof (cmp_antisym cmp a a) as H. by destruct (cmp a a). Qed.

Lemma cmp_le_trans a b c : cmp a b <> Gt -> cmp b c <> Gt -> cmp a c <> Gt.
Proof.
  destruct (cmp a b) eqn:E1; [apply (cmp_eq cmp) in E1 as ->; done| |done].
  destruct (cmp b c) eqn:E2; [apply (cmp_eq cmp) in E2 as ->; by rewrite E1| |done].
  intros _ _. by rewrite (cmp_lt_trans cmp a b c).
Qed.

Lemma cmp_le_total a b : cmp a b <> Gt \/ cmp b a <> Gt.
Proof. rewrite (cmp_antisym cmp a b). destruct (cmp a b); simpl; auto; discriminate. Qed.

Lemma cmp_le_ne_lt a b : cmp a b <> Gt -> a <> b -> cmp a b = Lt.
Proof. destruct (cmp a b) eqn:E; [intros _ []; by apply (cmp_eq cmp)|done|done]. Qed.
End Comparison.

(** The lexicographic comparison of pairs, as [ORDER BY a, b] compares. *)
Definition lex_cmp {A B} (ca : A -> A -> comparison) (cb : B -> B -> comparison)
    (x y : A * B) : comparison :=
  match ca x.1 y.1 with Eq => cb x.2 y.2 | o => o end.

#[export] Instance lex_cmp_comparison {A B} (ca : A -> A -> comparison)
  (cb : B -> B -> comparison) `{!Comparison ca, !Comparison cb} : Comparison (lex_cmp ca cb).
Proof.
  split.
  - intros [a1 b1] [a2 b2]; unfold lex_cmp; simpl.
    rewrite (cmp_antisym ca a1 a2), (cmp_antisym cb b1 b2). by destruct (ca a1 a2).
  - intros [a1 b1] [a2 b2] [a3 b3]; unfold lex_cmp; simpl.
    destruct (ca a1 a2) eqn:E1, (ca a2 a3) eqn:E2; intros H1 H2; try discriminate;
      repeat match goal with H : ca _ _ = Eq |- _ => apply (cmp_eq ca) in H; subst end;
      first [ rewrite (cmp_refl ca); by eapply (cmp_lt_trans cb)
            | by rewrite E2 | by rewrite E1
            | by rewrite (cmp_lt_trans ca _ _ _ E1 E2) ].
  - intros [a1 b1] [a2 b2]; unfold lex_cmp; simpl.
    destruct (ca a1 a2) eqn:E; try done. apply (cmp_eq ca) in E as ->.
    by intros ->%(cmp_eq cb).
Qed.

#[export] Instance Z_compare_comparison : Comparison Z.compare.
Proof.
  split.
  - intros a b. apply Z.compare_antisym.
  - intros a b c. rewrite !Z.compare_lt_iff. lia.
  - intros a b. apply Z.compare_eq.
Qed.

#[export] Instance Ascii_compare_comparison : Comparison Ascii.compare.
Proof.
  split.
  - intros a b. rewrite Ascii.compare_antisym. by destruct (Ascii.compare b a).
  - intros a b c. unfold Ascii.compare. rewrite !N.compare_lt_iff. lia.
  - intros a b. apply Ascii.compare_eq_iff.
Qed.

(** Byte-wise order, the [C] collation of PostgreSQL. *)
#[export] Instance String_compare_comparison : Comparison String.compare.
Proof.
  split.
  - intros a b. apply String.compare_antisym.
  - induction a as [|x a IH]; intros [|y b] [|z c]; cbn [String.compare]; try done.
    destruct (Ascii.compare x y) eqn:E1, (Ascii.compare y z) eqn:E2; intros H1 H2;
      try discriminate;
      repeat match goal with H : Ascii.compare _ _ = Eq |- _ =>
        apply (cmp_eq Ascii.compare) in H; subst end;
      first [ rewrite (cmp_refl Ascii.compare); by eapply IH
            | by rewrite E2 | by rewrite E1
            | by rewrite (cmp_lt_trans Ascii.compare _ _ _ E1 E2) ].
  - intros a b. apply String.compare_eq_iff.
Qed.

(** ** Strings *)

(** stdpp makes [String.append] [simpl never]; these steps unfold it. *)
Lemma str_app_cons c (s1 s2 : string) : (String c s1 ++ s2)%string = String c (s1 ++ s2).
Proof. reflexivity. Qed.

Lemma str_app_nil_r (s : string) : (s ++ "")%string = s.
Proof. induction s as [|c s IH]; [reflexivity|]. by rewrite str_app_cons, IH. Qed.

Lemma str_app_assoc (s1 s2 s3 : string) : (s1 ++ (s2 ++ s3))%string = ((s1 ++ s2) ++ s3)%string.
Proof. induction s1 as [|c s1 IH]; [reflexivity|]. by rewrite !str_app_cons, IH. Qed.

(** ** Lists *)

Lemma filter_none {A} (P : A -> Prop) `{!forall x, Decision (P x)} (l : list A) :
  (forall x, x ∈ l -> ~ P x) -> filter P l = [].
Proof.
  induction l as [|x l IH]; intros Hl; [done|]. rewrite filter_cons.
  rewrite decide_False by (apply Hl; left). apply IH. intros y Hy. apply Hl. by right.
Qed.

Lemma filter_all {A} (P : A -> Prop) `{!forall x, Decision (P x)} (l : list A) :
  (forall x, x ∈ l -> P x) -> filter P l = l.
Proof.
  induction l as [|x l IH]; intros Hl; [done|]. rewrite filter_cons.
  rewrite decide_True by (apply Hl; left). f_equal. apply IH. intros y Hy. apply Hl. by right.
Qed.

Lemma filter_iff_elem {A} (P Q : A -> Prop) `{!forall x, Decision (P x)} `{!forall x, Decision (Q x)}
    (l : list A) :
  (forall x, x ∈ l -> P x <-> Q x) -> filter P l = filter Q l.
Proof.
  induction l as [|x l IH]; intros Hl; [done|]. rewrite !filter_cons.
  rewrite IH by (intros y Hy; apply Hl; by right). pose proof (Hl x ltac:(left)).
  repeat case_decide; naive_solver.
Qed.

Lemma NoDup_fmap_filter {A B} (f : A -> B) (P : A -> Prop) `{!forall x, Decision (P x)} (l : list A) :
  NoDup (f <$> l) -> NoDup (f <$> filter P l).
Proof. intros Hnd. eapply sublist_NoDup; [exact Hnd|]. apply fmap_sublist, sublist_filter. Qed.

Lemma NoDup_fmap_eq {A B} (f : A -> B) (l : list A) x y :
  NoDup (f <$> l) -> x ∈ l -> y ∈ l -> f x = f y -> x = y.
Proof.
  induction l as [|z l IH]; intros Hnd Hx Hy Hf; [set_solver|].
  cbn in Hnd. apply NoDup_cons in Hnd as [Hz Hnd].
  apply elem_of_cons in Hx as [->|Hx], Hy as [->|Hy]; auto;
    exfalso; apply Hz, list_elem_of_fmap; eauto.
Qed.

Create HintDb pydict.
Create Rewrite HintDb pydict_rw.
#[export] Hint Rewrite @dict_get_upd @dict_get_set @dict_keys_upd @dict_keys_set : pydict_rw.
#[export] Hint Resolve dict_wf_upd dict_wf_set : pydict.

(** Close a decidable goal about concrete data by evaluation. *)
Ltac decide_by_eval := apply (bool_decide_unpack _); vm_compute; reflexivity.

(** Rewrite dictionary reads through updates and decide the key tests. *)
Ltac dict_simpl :=
  repeat first [progress autorewrite with pydict_rw in * | case_decide | simplify_eq/=].

(** ** Results: values of the program or the exception that aborts it *)

(** The exceptions that end a run of the program: each propagates
    uncaught.  [HelpExit] and [UsageError] are the [SystemExit] argparse
    raises (status 0 after printing the help, status 2 after printing the
    usage line and [msg] to stderr); the others end the process with a
    traceback and status 1. *)
Inductive py_exc :=
| OperationalError            (* psycopg2.connect: the database cannot be reached *)
| ProgrammingError            (* psycopg2: the query names a table the database lacks *)
| InterfaceError              (* psycopg2: a call on a closed connection or cursor *)
| ImageError (path : string)  (* docx add_picture: missing or unreadable image *)
| IndexError                  (* a list index out of range *)
| SaveError (path : string)   (* Document.save: the file cannot be written *)
| UsageError (msg : string)   (* argparse: parser.error(msg) *)
| HelpExit                    (* argparse: -h/--help *)
| AttributeError (type_name attr : string)  (* a str method called on another type *)
| NotAPath (call : string).   (* a docx call given an object that is not a path *)


Inductive result (E A : Type) : Type :=
| Ok (a : A)
| Err (e : E).
Arguments Ok {E A} a.
Arguments Err {E A} e.

Definition result_bind {E A B} (r : result E A) (k : A -> result E B) : result E B :=
  match r with Ok a => k a | Err e => Err e end.

Module ResultNotations.
  Notation "x <- c ;;; k" := (result_bind c (fun x => k))
    (at level 100, c at next level, right associativity) : py_scope.
End ResultNotations.

(** ** A state-and-error monad

    A computation on a state [S] that returns a value or raises; an
    exception ends it with the state as it is at that point (Python runs
    no handler in this program). *)
Definition SE (S A : Type) : Type := S -> result py_exc A * S.

Definition se_ret {S A} (a : A) : SE S A := fun s => (Ok a, s).

Definition se_bind {S A B} (c : SE S A) (k : A -> SE S B) : SE S B :=
  fun s => match c s with (Ok a, s') => k a s' | (Err e, s') => (Err e, s') end.

Definition se_raise {S A} (e : py_exc) : SE S A := fun s => (Err e, s).

Module SENotations.
  Notation "x <-- c ;; k" := (se_bind c (fun x => k))
    (at level 100, c at next level, right associativity) : py_scope.
End SENotations.

Lemma result_bind_Ok {E A B} (r : result E A) (k : A -> result E B) b :
  result_bind r k = Ok b <-> exists a, r = Ok a /\ k a = Ok b.
Proof. destruct r; simpl; naive_solver. Qed.
