(* ===== verification/PyStr.v ===== *)
(** * Python text conversions used by the report

    [str()] of the values the report prints (the [__str__] protocol, as a
    typeclass with an instance per Python type: [int], [None] and its
    optional values, [decimal.Decimal]), [str.upper()] of the crop heading,
    and [datetime.strftime('%d-%m-%Y')] of the footer date.  Strings are
    byte strings: text is its UTF-8 encoding. *)

From S2P Require Import Prelude.
From Stdlib Require Import Ascii.

#[local] Open Scope string_scope.

Module PyStr.

(** ** The [__str__] protocol *)
Class PyStr (A : Type) := py_str : A -> string.

(** ** Decimal digits of naturals

    [n_digits fuel n] writes [n] in decimal, most significant digit first,
    with one recursion step per digit; [n_to_dec] gives it fuel enough (a
    natural of [b] bits has at most [b] decimal digits). *)
Definition digit_char (d : N) : ascii := ascii_of_N (48 + d).

Fixpoint n_digits (fuel : nat) (n : N) : string :=
  match fuel with
  | O => ""
  | S f =>
      if (n <? 10)%N then String (digit_char n) ""
      else n_digits f (n / 10) ++ String (digit_char (n mod 10)) ""
  end.

Definition n_to_dec (n : N) : string := n_digits (S (N.to_nat (N.size n))) n.

(** [str(i)] of a Python [int]. *)
Definition z_to_dec (z : Z) : string :=
  if (z <? 0)%Z then "-" ++ n_to_dec (Z.to_N (- z)) else n_to_dec (Z.to_N z).

(** Reading digits back, as [int(s)] does for a string of ASCII digits. *)
Fixpoint parse_digits_acc (s : string) (acc : N) : option N :=
  match s with
  | "" => Some acc
  | String c s' =>
      let d := N_of_ascii c in
      if (48 <=? d)%N && (d <=? 57)%N then parse_digits_acc s' (acc * 10 + (d - 48))
      else None
  end.

Definition parse_nat (s : string) : option N :=
  match s with "" => None | _ => parse_digits_acc s 0 end.

(** ** Padding and repetition *)
Fixpoint str_repeat (k : nat) (c : ascii) : string :=
  match k with O => "" | S k' => String c (str_repeat k' c) end.

(** Left-pad with [c] to width [w]; longer strings are left alone. *)
Definition pad_left (c : ascii) (w : nat) (s : string) : string :=
  str_repeat (w - String.length s) c ++ s.

(** ** [str.upper()] on ASCII letters

    Python upper-cases every cased Unicode character; the model upper-cases
    the ASCII letters and leaves every other byte as it is, so it agrees
    with Python on ASCII text (the crop names of the data). *)
Definition ascii_upper (c : ascii) : ascii :=
  let n := N_of_ascii c in
  if (97 <=? n)%N && (n <=? 122)%N then ascii_of_N (n - 32) else c.

Fixpoint py_upper (s : string) : string :=
  match s with "" => "" | String c s' => String (ascii_upper c) (py_upper s') end.

Definition is_ascii_lower (c : ascii) : bool :=
  let n := N_of_ascii c in (97 <=? n)%N && (n <=? 122)%N.

(** ** The [str] methods argparse applies to the command line

    [c in s], [s.startswith(p)], [s.split(c, 1)] at a one-byte separator,
    and [sep.join(l)]. *)
Fixpoint str_has (c : ascii) (s : string) : bool :=
  match s with "" => false | String c' s' => Ascii.eqb c c' || str_has c s' end.

Definition startswith (s p : string) : bool := String.prefix p s.

Fixpoint split_once (c : ascii) (s : string) : option (string * string) :=
  match s with
  | "" => None
  | String c' s' =>
      if Ascii.eqb c c' then Some ("", s')
      else match split_once c s' with Some (a, b) => Some (String c' a, b) | None => None end
  end.

Fixpoint str_join (sep : string) (l : list string) : string :=
  match l with [] => "" | [x] => x | x :: l' => x ++ sep ++ str_join sep l' end.

(** [c.isdigit()] and [s.isdigit()] on ASCII (an empty [s] counts here). *)
Definition is_digit (c : ascii) : bool :=
  let n := N_of_ascii c in (48 <=? n)%N && (n <=? 57)%N.

Fixpoint all_digits (s : string) : bool :=
  match s with "" => true | String c s' => is_digit c && all_digits s' end.

(** ** [repr()] of a [str]

    CPython's [unicode_repr]: single quotes, unless the text holds a
    single quote and no double quote; the backslash and the chosen quote
    escaped; tab, newline and carriage return as [\t], [\n], [\r]; the
    other control characters and DEL as [\xhh].  Bytes above 127 belong
    to UTF-8 encoded characters, which are kept (the model takes them to
    be printable). *)
Definition double_quote : ascii := ascii_of_N 34.

Definition hex_digit (n : N) : ascii :=
  if (n <? 10)%N then ascii_of_N (48 + n) else ascii_of_N (87 + n).

Definition repr_char (q c : ascii) : string :=
  let n := N_of_ascii c in
  if Ascii.eqb c q || (n =? 92)%N then String "\" (String c "")
  else if (n =? 9)%N then "\t"
  else if (n =? 10)%N then "\n"
  else if (n =? 13)%N then "\r"
  else if (n <? 32)%N || (n =? 127)%N then
    String "\" (String "x" (String (hex_digit (n / 16)) (String (hex_digit (n mod 16)) "")))
  else String c "".

Fixpoint repr_body (q : ascii) (s : string) : string :=
  match s with "" => "" | String c s' => repr_char q c ++ repr_body q s' end.

Definition py_repr (s : string) : string :=
  let q := if str_has "'" s && negb (str_has double_quote s) then double_quote else "'"%char in
  String q (repr_body q s ++ String q "").

(** ** Dates: [datetime.now().strftime('%d-%m-%Y')] *)
Record date := { dt_day : N; dt_month : N; dt_year : N }.

Definition leap_year (y : N) : bool :=
  ((y mod 4 =? 0)%N && negb (y mod 100 =? 0)%N) || (y mod 400 =? 0)%N.

Definition days_in_month (y m : N) : N :=
  match m with
  | 2%N => if leap_year y then 29 else 28
  | 4%N | 6%N | 9%N | 11%N => 30
  | _ => 31
  end.

(** A [datetime] has [MINYEAR <= year <= MAXYEAR] (1 and 9999) and a day
    of its month. *)
Definition date_valid (d : date) : Prop :=
  (1 <= dt_year d <= 9999)%N /\ (1 <= dt_month d <= 12)%N /\
  (1 <= dt_day d <= days_in_month (dt_year d) (dt_month d))%N.

(** [%d] and [%m] are zero-padded to two digits; [%Y] is the year in
    decimal (glibc does not pad years below 1000). *)
Definition strftime_dmy (d : date) : string :=
  pad_left "0" 2 (n_to_dec (dt_day d)) ++ "-" ++
  pad_left "0" 2 (n_to_dec (dt_month d)) ++ "-" ++ n_to_dec (dt_year d).

(** Reading a [DD-MM-YYYY] text back. *)
Definition parse_dmy (s : string) : option date :=
  match s with
  | String d1 (String d2 (String "-" (String m1 (String m2 (String "-" y))))) =>
      d ← parse_nat (String d1 (String d2 ""));
      m ← parse_nat (String m1 (String m2 ""));
      yr ← parse_nat y;
      Some {| dt_day := d; dt_month := m; dt_year := yr |}
  | _ => None
  end.

(** ** [decimal.Decimal]

    psycopg2 returns a PostgreSQL [numeric] as a [Decimal]: a sign, a
    coefficient and an exponent, or one of the special values.  [dec_str]
    is [Decimal.__str__] (CPython's [_pydecimal], [eng=False], default
    context with [capitals=1]). *)
Inductive decimal :=
| DecFinite (neg : bool) (coeff : N) (exp : Z)
| DecInf (neg : bool)
| DecNaN (neg : bool).

#[export] Instance decimal_eq_dec : EqDecision decimal.
Proof. solve_decision. Defined.

Definition sign_str (neg : bool) : string := if neg then "-" else "".

(** ["%+d" % e] *)
Definition signed_dec (e : Z) : string :=
  if (e <? 0)%Z then "-" ++ n_to_dec (Z.to_N (- e)) else "+" ++ n_to_dec (Z.to_N e).

Definition dec_str (x : decimal) : string :=
  match x with
  | DecInf neg => sign_str neg ++ "Infinity"
  | DecNaN neg => sign_str neg ++ "NaN"
  | DecFinite neg coeff exp =>
      let digits := n_to_dec coeff in
      let len := Z.of_nat (String.length digits) in
      let leftdigits := (exp + len)%Z in
      let dotplace := if (exp <=? 0)%Z && (-6 <? leftdigits)%Z then leftdigits else 1%Z in
      let '(intpart, fracpart) :=
        if (dotplace <=? 0)%Z then
          ("0", "." ++ str_repeat (Z.to_nat (- dotplace)) "0" ++ digits)
        else if (len <=? dotplace)%Z then
          (digits ++ str_repeat (Z.to_nat (dotplace - len)) "0", "")
        else
          (String.substring 0 (Z.to_nat dotplace) digits,
           "." ++ String.substring (Z.to_nat dotplace) (Z.to_nat (len - dotplace)) digits) in
      let expo := if (leftdigits =? dotplace)%Z then "" else "E" ++ signed_dec (leftdigits - dotplace) in
      sign_str neg ++ intpart ++ fracpart ++ expo
  end.

(** ** [decimal.Decimal(s)]: reading a decimal string

    The syntax of CPython's [decimal] [_parser]: an optional sign, then
    [Inf], [Infinity] or [NaN] in any case, or digits with an optional
    point (at least one digit) and an optional exponent [E] or [e] with an
    optional sign; the value has coefficient [int(int + frac)] and
    exponent [exp - len(frac)].  Surrounding whitespace, underscores, NaN
    diagnostics and sNaN are not modelled ([str()] never writes them). *)
Definition sign_split (s : string) : bool * string :=
  match s with
  | String c r => if Ascii.eqb c "-" then (true, r) else if Ascii.eqb c "+" then (false, r) else (false, s)
  | "" => (false, "")
  end.

Definition is_exp_mark (c : ascii) : bool := Ascii.eqb c "E" || Ascii.eqb c "e".

(** The text before the first exponent mark and the text after it. *)
Fixpoint split_exp (s : string) : option (string * string) :=
  match s with
  | "" => None
  | String c s' =>
      if is_exp_mark c then Some ("", s')
      else match split_exp s' with Some (a, b) => Some (String c a, b) | None => None end
  end.

(** [[-+]?\d+] *)
Definition parse_signed (s : string) : option Z :=
  let '(neg, digits) := sign_split s in
  if all_digits digits then
    (fun n => if neg then (- Z.of_N n)%Z else Z.of_N n) <$> parse_nat digits
  else None.

Definition dec_parse (s : string) : option decimal :=
  let '(neg, body) := sign_split s in
  let up := py_upper body in
  if String.eqb up "INF" || String.eqb up "INFINITY" then Some (DecInf neg)
  else if String.eqb up "NAN" then Some (DecNaN neg)
  else
    let '(mant, ex) := match split_exp body with Some (m, e) => (m, Some e) | None => (body, None) end in
    let '(ip, fp) := match split_once "." mant with Some (i, f) => (i, f) | None => (mant, "") end in
    if all_digits ip && all_digits fp then
      match parse_nat (ip ++ fp), (match ex with Some e => parse_signed e | None => Some 0%Z end) with
      | Some coeff, Some e => Some (DecFinite neg coeff (e - Z.of_nat (String.length fp)))
      | _, _ => None
      end
    else None.

#[export] Instance py_str_string : PyStr string := fun s => s.
#[export] Instance py_str_int : PyStr Z := z_to_dec.
#[export] Instance py_str_decimal : PyStr decimal := dec_str.
(** [str(None)] is ["None"]. *)
#[export] Instance py_str_option {A} `{PyStr A} : PyStr (option A) :=
  fun o => match o with None => "None" | Some a => py_str a end.

Example dec_str_3_2 : dec_str (DecFinite false 32 (-1)) = "3.2".
Proof. reflexivity. Qed.

Example dec_str_small : dec_str (DecFinite false 1 (-7)) = "1E-7".
Proof. reflexivity. Qed.

Example dec_str_int : dec_str (DecFinite true 5 2) = "-5E+2".
Proof. reflexivity. Qed.

Example z_to_dec_neg : z_to_dec (-2024) = "-2024".
Proof. reflexivity. Qed.

Example strftime_example :
  strftime_dmy {| dt_day := 9; dt_month := 11; dt_year := 2026 |} = "09-11-2026".
Proof. reflexivity. Qed.

(** ** Lemmas *)

Lemma digit_char_code d : (d < 10)%N -> N_of_ascii (digit_char d) = (48 + d)%N.
Proof. intros. unfold digit_char. apply N_ascii_embedding. lia. Qed.

Lemma parse_digits_acc_app s1 s2 acc :
  parse_digits_acc (s1 ++ s2) acc = parse_digits_acc s1 acc ≫= parse_digits_acc s2.
Proof.
  revert acc. induction s1 as [|c s1 IH]; intros acc; [done|]. simpl.
  destruct (_ && _); [apply IH|done].
Qed.

Lemma str_length_app s1 s2 : String.length (s1 ++ s2) = (String.length s1 + String.length s2)%nat.
Proof. induction s1; simpl; auto. Qed.

Lemma parse_digit d acc :
  (d < 10)%N -> parse_digits_acc (String (digit_char d) "") acc = Some (acc * 10 + d)%N.
Proof.
  intros Hd. cbn [parse_digits_acc]. rewrite digit_char_code by done.
  replace (48 <=? 48 + d)%N with true by (symmetry; apply N.leb_le; lia).
  replace (48 + d <=? 57)%N with true by (symmetry; apply N.leb_le; lia).
  cbn. f_equal. lia.
Qed.

(** The digits read back as the number, given fuel for every digit. *)
Lemma n_digits_parse f n : (n < 10 ^ N.of_nat f)%N -> parse_digits_acc (n_digits f n) 0 = Some n.
Proof.
  revert n. induction f as [|f IH]; intros n Hn; cbn [n_digits].
  - cbn in Hn. cbn. f_equal; lia.
  - destruct (N.ltb_spec n 10) as [Hlt|Hge].
    + rewrite parse_digit by done. f_equal; lia.
    + rewrite parse_digits_acc_app, IH; cbn [mbind option_bind].
      * rewrite parse_digit by (apply N.mod_lt; lia). f_equal.
        rewrite (N.div_mod n 10) at 3 by lia. lia.
      * apply N.Div0.div_lt_upper_bound. rewrite Nat2N.inj_succ, N.pow_succ_r' in Hn. lia.
Qed.

Lemma n_to_dec_fuel n : (n < 10 ^ N.of_nat (S (N.to_nat (N.size n))))%N.
Proof.
  rewrite Nat2N.inj_succ, N2Nat.id. eapply N.lt_le_trans; [apply N.size_gt|].
  etransitivity; [apply (N.pow_le_mono_l 2 10); lia|].
  apply N.pow_le_mono_r; lia.
Qed.

(** [str()] of a natural reads back as the same number. *)
Theorem n_to_dec_roundtrip n : parse_nat (n_to_dec n) = Some n.
Proof.
  unfold parse_nat, n_to_dec. pose proof (n_digits_parse _ n (n_to_dec_fuel n)) as H.
  cbn [n_digits] in *. destruct (n <? 10)%N; [done|].
  destruct (n_digits _ (n / 10) ++ _) eqn:E; [|done].
  by destruct (n_digits _ (n / 10)).
Qed.

Lemma n_digits_length f n k :
  (1 <= k)%nat -> (n < 10 ^ N.of_nat k)%N -> (String.length (n_digits f n) <= k)%nat.
Proof.
  revert n k. induction f as [|f IH]; intros n k Hk Hn; cbn [n_digits]; [cbn; lia|].
  destruct (N.ltb_spec n 10); [cbn; lia|].
  rewrite str_length_app. cbn [String.length].
  destruct k as [|[|k]]; [lia| cbn in Hn; lia|].
  enough (String.length (n_digits f (n / 10)) <= S k)%nat by lia.
  apply IH; [lia|]. apply N.Div0.div_lt_upper_bound.
  rewrite (Nat2N.inj_succ (S k)), N.pow_succ_r' in Hn. lia.
Qed.

(** At least [k + 1] digits for a number of at least [10 ^ k]. *)
Lemma n_digits_length_ge f n k :
  (n < 10 ^ N.of_nat f)%N -> (10 ^ N.of_nat k <= n)%N -> (S k <= String.length (n_digits f n))%nat.
Proof.
  revert n k. induction f as [|f IH]; intros n k Hn Hk; cbn [n_digits].
  - cbn in Hn. assert (10 ^ N.of_nat k <> 0)%N by (apply N.pow_nonzero; lia). lia.
  - destruct (N.ltb_spec n 10) as [Hlt|Hge].
    + destruct k as [|k]; [cbn; lia|]. rewrite Nat2N.inj_succ, N.pow_succ_r' in Hk.
      assert (10 ^ N.of_nat k <> 0)%N by (apply N.pow_nonzero; lia). lia.
    + rewrite str_length_app. cbn [String.length]. destruct k as [|k]; [lia|].
      enough (S k <= String.length (n_digits f (n / 10)))%nat by lia.
      rewrite Nat2N.inj_succ, N.pow_succ_r' in Hn, Hk. apply IH.
      * apply N.Div0.div_lt_upper_bound. lia.
      * apply N.div_le_lower_bound; lia.
Qed.

Lemma n_to_dec_length_ge n k : (10 ^ N.of_nat k <= n)%N -> (S k <= String.length (n_to_dec n))%nat.
Proof. intros. apply n_digits_length_ge; [apply n_to_dec_fuel|done]. Qed.

Lemma n_to_dec_length_le n k : (1 <= k)%nat -> (n < 10 ^ N.of_nat k)%N -> (String.length (n_to_dec n) <= k)%nat.
Proof. apply n_digits_length. Qed.

Lemma str_repeat_length k c : String.length (str_repeat k c) = k.
Proof. induction k; cbn; auto. Qed.

Lemma parse_zeros k s : parse_digits_acc (str_repeat k "0" ++ s) 0 = parse_digits_acc s 0.
Proof. induction k; [done|]. simpl. apply IHk. Qed.

(** A number below 100 padded to two digits: two characters that read
    back as the number. *)
Lemma pad2_spec n :
  (n < 100)%N -> exists a b, pad_left "0" 2 (n_to_dec n) = String a (String b "") /\
                            parse_nat (String a (String b "")) = Some n.
Proof.
  intros Hn. assert (Hl : (String.length (n_to_dec n) <= 2)%nat) by (apply n_digits_length; [lia|done]).
  pose proof (n_to_dec_roundtrip n) as Hr.
  unfold pad_left. destruct (n_to_dec n) as [|a [|b [|c s]]] eqn:E; cbn in Hl |- *; try lia.
  - done.
  - exists "0"%char, a. split; [done|]. cbn [parse_nat]. rewrite <- Hr. done.
  - exists a, b. done.
Qed.

(** C17: the footer date reads back: [strftime('%d-%m-%Y')] of a valid date
    is two digits of day, a dash, two digits of month, a dash and the year,
    and parsing it gives the date. *)
Theorem strftime_dmy_roundtrip d : date_valid d -> parse_dmy (strftime_dmy d) = Some d.
Proof.
  intros (Hy & Hm & Hd). assert (days_in_month (dt_year d) (dt_month d) <= 31)%N.
  { unfold days_in_month. repeat case_match; lia. }
  destruct (pad2_spec (dt_day d)) as (a & b & Ed & Pd); [lia|].
  destruct (pad2_spec (dt_month d)) as (c & e & Em & Pm); [lia|].
  unfold strftime_dmy. rewrite Ed, Em.
  change (parse_dmy (String a (String b (String "-" (String c (String e (String "-"
            (n_to_dec (dt_year d)))))))) = Some d).
  unfold parse_dmy. rewrite Pd, Pm, n_to_dec_roundtrip. by destruct d.
Qed.

(** C30: the footer date [strftime('%d-%m-%Y')] of a valid date has
    between 7 and 10 characters, and exactly 10 (the [DD-MM-YYYY] of the
    specification) only for years from 1000: glibc writes a smaller year
    with fewer digits. *)
Theorem strftime_dmy_length d :
  date_valid d ->
  (7 <= String.length (strftime_dmy d) <= 10)%nat /\
  ((String.length (strftime_dmy d) = 10)%nat <-> (1000 <= dt_year d)%N).
Proof.
  intros (Hy & Hm & Hd). assert (days_in_month (dt_year d) (dt_month d) <= 31)%N.
  { unfold days_in_month. repeat case_match; lia. }
  destruct (pad2_spec (dt_day d)) as (a & b & Ed & _); [lia|].
  destruct (pad2_spec (dt_month d)) as (c & e & Em & _); [lia|].
  unfold strftime_dmy. rewrite Ed, Em.
  rewrite !str_length_app. cbn [String.length].
  pose proof (n_to_dec_length_ge (dt_year d) 0 ltac:(cbn; lia)).
  pose proof (n_to_dec_length_le (dt_year d) 4 ltac:(lia) ltac:(cbn; lia)).
  split; [lia|split; intros Hlen].
  - destruct (N.lt_ge_cases (dt_year d) 1000) as [Hlt|]; [|done].
    pose proof (n_to_dec_length_le (dt_year d) 3 ltac:(lia) ltac:(cbn; lia)). lia.
  - pose proof (n_to_dec_length_ge (dt_year d) 3 ltac:(cbn; lia)). lia.
Qed.

Lemma ascii_upper_code c :
  N_of_ascii (ascii_upper c) =
  if is_ascii_lower c then (N_of_ascii c - 32)%N else N_of_ascii c.
Proof.
  unfold ascii_upper, is_ascii_lower. destruct (_ && _) eqn:E; [|done].
  apply andb_prop in E as [E1 E2]. apply N.leb_le in E1, E2.
  apply N_ascii_embedding. lia.
Qed.

Lemma ascii_upper_not_lower c : is_ascii_lower (ascii_upper c) = false.
Proof.
  pose proof (ascii_upper_code c) as Hc. unfold is_ascii_lower in *. rewrite Hc.
  destruct (97 <=? N_of_ascii c)%N eqn:E1, (N_of_ascii c <=? 122)%N eqn:E2; cbn;
    rewrite ?E1, ?E2; try done; apply N.leb_le in E1, E2;
    apply andb_false_iff; left; apply N.leb_gt; lia.
Qed.

Lemma ascii_upper_id c : is_ascii_lower c = false -> ascii_upper c = c.
Proof. unfold ascii_upper, is_ascii_lower. cbn. by intros ->. Qed.

(** [upper()] keeps the length of the crop name and is idempotent: the
    heading it makes has no lower-case ASCII letter left. *)
Theorem py_upper_spec s :
  String.length (py_upper s) = String.length s /\ py_upper (py_upper s) = py_upper s.
Proof.
  induction s as [|c s [IH1 IH2]]; [done|]. cbn. rewrite IH1, IH2.
  by rewrite ascii_upper_id by apply ascii_upper_not_lower.
Qed.

Lemma strftime_dmy_roundtrip_witness :
  date_valid {| dt_day := 29; dt_month := 2; dt_year := 2024 |} /\
  parse_dmy (strftime_dmy {| dt_day := 29; dt_month := 2; dt_year := 2024 |})
  = Some {| dt_day := 29; dt_month := 2; dt_year := 2024 |}.
Proof.
  assert (Hv : date_valid {| dt_day := 29; dt_month := 2; dt_year := 2024 |})
    by (unfold date_valid; cbn [dt_year dt_month dt_day];
        change (days_in_month 2024 2) with 29%N; lia).
  split; [exact Hv|]. apply (strftime_dmy_roundtrip _ Hv).
Defined.

Lemma strftime_dmy_length_witness :
  date_valid {| dt_day := 9; dt_month := 11; dt_year := 2026 |} /\
  (7 <= String.length (strftime_dmy {| dt_day := 9; dt_month := 11; dt_year := 2026 |}) <= 10)%nat /\
  ((String.length (strftime_dmy {| dt_day := 9; dt_month := 11; dt_year := 2026 |}) = 10)%nat
   <-> (1000 <= 2026)%N).
Proof.
  assert (Hv : date_valid {| dt_day := 9; dt_month := 11; dt_year := 2026 |})
    by (unfold date_valid; cbn [dt_year dt_month dt_day];
        change (days_in_month 2026 11) with 30%N; lia).
  split; [exact Hv|]. apply (strftime_dmy_length _ Hv).
Defined.

(** [s.split(c, 1)] at the first separator, and [c in s]. *)
Lemma split_once_app c p e : str_has c p = false -> split_once c (p ++ String c e) = Some (p, e).
Proof.
  induction p as [|c' p IH]; cbn [str_has]; intros H.
  - simpl. by rewrite Ascii.eqb_refl.
  - apply orb_false_iff in H as [H1 H2]. rewrite str_app_cons. cbn [split_once]. rewrite H1, IH by done. done.
Qed.

Lemma str_has_app_here c s t : str_has c (s ++ String c t) = true.
Proof. induction s as [|c' s IH]; cbn [str_has]; [simpl; by rewrite Ascii.eqb_refl|]. rewrite str_app_cons. cbn [str_has]. by rewrite IH, orb_true_r. Qed.

(** ** [Decimal(str(d))]: the text of a decimal reads back as the decimal *)

Lemma is_digit_digit_char d : (d < 10)%N -> is_digit (digit_char d) = true.
Proof.
  intros Hd. unfold is_digit. rewrite digit_char_code by done.
  apply andb_true_iff; split; apply N.leb_le; lia.
Qed.

Lemma all_digits_app s1 s2 : all_digits (s1 ++ s2) = all_digits s1 && all_digits s2.
Proof. induction s1 as [|c s1 IH]; [done|]. rewrite str_app_cons. cbn. by rewrite IH, andb_assoc. Qed.

Lemma all_digits_n_digits f n : all_digits (n_digits f n) = true.
Proof.
  revert n. induction f as [|f IH]; intros n; cbn [n_digits]; [done|].
  destruct (N.ltb_spec n 10).
  - cbn. by rewrite is_digit_digit_char.
  - rewrite all_digits_app, IH. cbn. rewrite is_digit_digit_char; [done|]. apply N.mod_lt. lia.
Qed.

Lemma n_to_dec_head n : exists c r, n_to_dec n = String c r /\ is_digit c = true.
Proof.
  assert (Hne : n_to_dec n <> "").
  { unfold n_to_dec. cbn [n_digits]. destruct (n <? 10)%N; [done|].
    intros H. apply (f_equal String.length) in H. rewrite str_length_app in H. cbn in H. lia. }
  pose proof (all_digits_n_digits (S (N.to_nat (N.size n))) n) as Hd. fold (n_to_dec n) in Hd.
  destruct (n_to_dec n) as [|c r]; [done|]. exists c, r. split; [done|]. cbn in Hd. by apply andb_true_iff in Hd as [? _].
Qed.

Lemma str_has_all_digits s : all_digits s = true -> str_has "." s = false.
Proof.
  induction s as [|c s IH]; [done|]. cbn [str_has all_digits]. intros [Hc Hs]%andb_true_iff. rewrite IH by done.
  destruct (Ascii.eqb_spec "." c) as [<-|]; [vm_compute in Hc; discriminate Hc|done].
Qed.

Lemma split_once_none c s : str_has c s = false -> split_once c s = None.
Proof.
  induction s as [|c' s IH]; [done|]. cbn [split_once str_has]. intros [H1 H2]%orb_false_iff. by rewrite H1, IH.
Qed.

Lemma split_exp_all_digits s : all_digits s = true -> split_exp s = None.
Proof.
  induction s as [|c s IH]; [done|]. cbn [split_exp all_digits]. intros [Hc Hs]%andb_true_iff. rewrite IH by done.
  destruct (is_exp_mark c) eqn:E; [|done].
  unfold is_exp_mark in E. apply orb_true_iff in E as [E|E]; apply Ascii.eqb_eq in E; subst; discriminate.
Qed.

Lemma split_exp_app s1 s2 : split_exp s1 = None -> split_exp (s1 ++ s2) = (fun '(a, b) => (s1 ++ a, b)) <$> split_exp s2.
Proof.
  induction s1 as [|c s1 IH]; cbn [split_exp].
  { intros _. change ("" ++ s2) with s2. destruct (split_exp s2) as [[a b]|]; reflexivity. }
  destruct (is_exp_mark c) eqn:Ec; [intros [=]|]. destruct (split_exp s1) as [[]|]; [intros [=]|]. intros _.
  rewrite str_app_cons. cbn [split_exp]. rewrite Ec, IH by done. by destruct (split_exp s2) as [[]|].
Qed.

Lemma substring_full s : String.substring 0 (String.length s) s = s.
Proof. induction s as [|c s IH]; [done|]. cbn. by rewrite IH. Qed.

Lemma substring_split s k :
  (k <= String.length s)%nat ->
  String.substring 0 k s ++ String.substring k (String.length s - k) s = s.
Proof.
  revert k. induction s as [|c s IH]; intros k Hk.
  - destruct k; [done|cbn in Hk; lia].
  - destruct k as [|k].
    + change (String.substring 0 (String.length (String c s) - 0) (String c s) = String c s).
      rewrite Nat.sub_0_r. apply substring_full.
    + cbn [String.substring String.length]. rewrite str_app_cons. cbn in Hk. rewrite IH by lia. done.
Qed.

Lemma substring_length s k m :
  (k + m <= String.length s)%nat -> String.length (String.substring k m s) = m.
Proof.
  revert k m. induction s as [|c s IH]; intros k m Hk.
  - cbn in Hk. assert (k = 0 /\ m = 0)%nat as [-> ->] by lia. done.
  - destruct k as [|k]; [destruct m as [|m]; [done|]|]; cbn in *; [rewrite IH; lia|apply IH; lia].
Qed.

Lemma substring_head c r k : String.substring 0 (S k) (String c r) = String c (String.substring 0 k r).
Proof. reflexivity. Qed.

Lemma digit_not_sign c : is_digit c = true -> Ascii.eqb c "-" = false /\ Ascii.eqb c "+" = false.
Proof.
  intros Hc. split; [destruct (Ascii.eqb_spec c "-") as [->|]|destruct (Ascii.eqb_spec c "+") as [->|]];
    try done; vm_compute in Hc; discriminate Hc.
Qed.

Lemma sign_split_digit c r : is_digit c = true -> sign_split (String c r) = (false, String c r).
Proof. intros Hc. destruct (digit_not_sign c Hc) as [H1 H2]. unfold sign_split. by rewrite H1, H2. Qed.

Lemma sign_split_neg s : sign_split ("-" ++ s) = (true, s).
Proof. reflexivity. Qed.

Lemma is_digit_not_lower c : is_digit c = true -> is_ascii_lower c = false.
Proof.
  unfold is_digit, is_ascii_lower. intros [H1 H2]%andb_true_iff. apply N.leb_le in H2.
  destruct (N.leb_spec 97 (N_of_ascii c)); [lia|done].
Qed.

Lemma py_upper_digit_head c r :
  is_digit c = true -> py_upper (String c r) = String c (py_upper r).
Proof. intros Hc. cbn. by rewrite ascii_upper_id by (by apply is_digit_not_lower). Qed.

Lemma digit_head_not_special c r :
  is_digit c = true ->
  String.eqb (py_upper (String c r)) "INF" = false /\ String.eqb (py_upper (String c r)) "INFINITY" = false /\
  String.eqb (py_upper (String c r)) "NAN" = false.
Proof.
  intros Hc. rewrite py_upper_digit_head by done.
  assert (HI : Ascii.eqb c "I" = false)
    by (destruct (Ascii.eqb_spec c "I") as [->|]; [vm_compute in Hc; discriminate Hc|done]).
  assert (HN : Ascii.eqb c "N" = false)
    by (destruct (Ascii.eqb_spec c "N") as [->|]; [vm_compute in Hc; discriminate Hc|done]).
  cbn [String.eqb]. by rewrite HI, HN.
Qed.

Lemma parse_signed_signed_dec z : parse_signed (signed_dec z) = Some z.
Proof.
  unfold signed_dec. destruct (Z.ltb_spec z 0).
  - unfold parse_signed. rewrite sign_split_neg.
    pose proof (all_digits_n_digits (S (N.to_nat (N.size (Z.to_N (- z))))) (Z.to_N (- z))) as Hd.
    fold (n_to_dec (Z.to_N (- z))) in Hd. rewrite Hd, n_to_dec_roundtrip. cbn. f_equal. lia.
  - unfold parse_signed. change ("+" ++ n_to_dec (Z.to_N z)) with (String "+" (n_to_dec (Z.to_N z))).
    cbn [sign_split]. rewrite Ascii.eqb_refl.
    replace (Ascii.eqb "+" "-") with false by reflexivity.
    pose proof (all_digits_n_digits (S (N.to_nat (N.size (Z.to_N z)))) (Z.to_N z)) as Hd.
    fold (n_to_dec (Z.to_N z)) in Hd. cbn iota. rewrite Hd, n_to_dec_roundtrip. cbn. f_equal. lia.
Qed.

Lemma parse_nat_zeros k s : s <> "" -> parse_nat (str_repeat k "0" ++ s) = parse_nat s.
Proof.
  intros Hs. unfold parse_nat. rewrite parse_zeros.
  destruct (str_repeat k "0" ++ s) eqn:E.
  - apply (f_equal String.length) in E. rewrite str_length_app in E. destruct s; [done|cbn in E; lia].
  - by destruct s.
Qed.

Lemma split_exp_frac frac fp :
  all_digits fp = true -> (frac = "" /\ fp = "") \/ frac = String "." fp -> split_exp frac = None.
Proof.
  intros Hfp [[-> ->]| ->]; [done|]. cbn [split_exp]. rewrite split_exp_all_digits by done.
  reflexivity.
Qed.

Lemma dec_parse_parts neg c0 r frac fp ex k coeff :
  is_digit c0 = true -> all_digits (String c0 r) = true -> all_digits fp = true ->
  (frac = "" /\ fp = "") \/ frac = String "." fp ->
  (ex = "" /\ k = 0%Z) \/ (exists t, ex = String "E" t /\ parse_signed t = Some k) ->
  parse_nat (String c0 r ++ fp) = Some coeff ->
  dec_parse (sign_str neg ++ String c0 r ++ frac ++ ex)
  = Some (DecFinite neg coeff (k - Z.of_nat (String.length fp))).
Proof.
  intros Hc0 Hip Hfp Hfrac Hex Hco.
  assert (Hsplit : sign_split (sign_str neg ++ String c0 r ++ frac ++ ex) = (neg, String c0 (r ++ frac ++ ex))).
  { destruct neg; [apply sign_split_neg|]. apply sign_split_digit, Hc0. }
  unfold dec_parse. rewrite Hsplit. cbn zeta.
  destruct (digit_head_not_special c0 (r ++ frac ++ ex) Hc0) as (H1 & H2 & H3). rewrite H1, H2, H3. cbn [orb].
  rewrite <- str_app_cons, str_app_assoc, split_exp_app.
  2: { rewrite split_exp_app by (by apply split_exp_all_digits). by rewrite (split_exp_frac frac fp). }
  destruct Hex as [[-> ->]|(t & -> & Ht)].
  - cbn [split_exp fmap option_fmap option_map]. rewrite str_app_nil_r.
    destruct Hfrac as [[-> ->]| ->].
    + rewrite str_app_nil_r, split_once_none by (by apply str_has_all_digits).
      rewrite Hip. cbn [all_digits andb]. rewrite str_app_nil_r in Hco. rewrite str_app_nil_r, Hco. reflexivity.
    + rewrite split_once_app by (by apply str_has_all_digits). rewrite Hip, Hfp. cbn [andb].
      rewrite Hco. reflexivity.
  - cbn [split_exp]. replace (is_exp_mark "E") with true by reflexivity.
    cbn [fmap option_fmap option_map]. rewrite str_app_nil_r.
    destruct Hfrac as [[-> ->]| ->].
    + rewrite str_app_nil_r, split_once_none by (by apply str_has_all_digits).
      rewrite Hip. cbn [all_digits andb]. rewrite str_app_nil_r in Hco. rewrite str_app_nil_r, Hco, Ht. reflexivity.
    + rewrite split_once_app by (by apply str_has_all_digits). rewrite Hip, Hfp. cbn [andb].
      rewrite Hco, Ht. reflexivity.
Qed.

Lemma all_digits_zeros k : all_digits (str_repeat k "0") = true.
Proof. induction k; [done|]. cbn [str_repeat all_digits]. by rewrite IHk. Qed.

Lemma n_to_dec_digits n : all_digits (n_to_dec n) = true.
Proof. apply all_digits_n_digits. Qed.

(** The digits cut by a point [k] digits from the left. *)
Lemma dec_parse_point neg n k ex x :
  (0 < k < String.length (n_to_dec n))%nat ->
  (ex = "" /\ x = 0%Z) \/ (exists t, ex = String "E" t /\ parse_signed t = Some x) ->
  dec_parse (sign_str neg ++ String.substring 0 k (n_to_dec n) ++
             "." ++ String.substring k (String.length (n_to_dec n) - k) (n_to_dec n) ++ ex)
  = Some (DecFinite neg n (x - Z.of_nat (String.length (n_to_dec n) - k))).
Proof.
  intros Hk Hex. pose proof (substring_split (n_to_dec n) k ltac:(lia)) as Hsplit.
  pose proof (n_to_dec_digits n) as Hd. rewrite <- Hsplit in Hd. rewrite all_digits_app in Hd.
  apply andb_true_iff in Hd as [Hip Hfp].
  replace (Z.of_nat (String.length (n_to_dec n) - k))
    with (Z.of_nat (String.length (String.substring k (String.length (n_to_dec n) - k) (n_to_dec n))))
    by (rewrite substring_length by lia; done).
  destruct (n_to_dec_head n) as (c0 & r & Hnd & Hc0).
  destruct k as [|k]; [lia|].
  assert (Hip' : String.substring 0 (S k) (n_to_dec n) = String c0 (String.substring 0 k r))
    by (by rewrite Hnd).
  rewrite Hip' in Hip, Hsplit |- *. change ("." ++ (?a ++ ex)) with (String "." a ++ ex).
  apply dec_parse_parts; [done|done|done|by right|done|].
  rewrite Hsplit. apply n_to_dec_roundtrip.
Qed.

(** [Decimal(str(d)) == d] exactly, for every decimal: reading back the
    text [Decimal.__str__] writes gives the same sign, coefficient and
    exponent, and likewise for the infinities and NaNs. *)
Theorem dec_str_roundtrip d : dec_parse (dec_str d) = Some d.
Proof.
  destruct d as [neg c e|neg|neg]; [|destruct neg; reflexivity..].
  unfold dec_str. cbn zeta.
  destruct (n_to_dec_head c) as (c0 & r & Hnd & Hc0).
  assert (HL : (1 <= String.length (n_to_dec c))%nat) by (rewrite Hnd; cbn; lia).
  pose proof (n_to_dec_digits c) as Hdig.
  set (L := String.length (n_to_dec c)) in *.
  destruct (Z.leb_spec e 0) as [He|He]; destruct (Z.ltb_spec (-6) (e + Z.of_nat L)) as [Hl|Hl];
    cbn [andb].
  1: { (* no exponent: dotplace = leftdigits *)
    rewrite Z.eqb_refl. cbn [String.append].
    destruct (Z.leb_spec (e + Z.of_nat L) 0) as [Hd|Hd].
    + (* 0.000ddd *)
      erewrite dec_parse_parts; [| reflexivity | reflexivity | | by right | by left | ].
      * f_equal. f_equal. rewrite str_length_app, str_repeat_length. lia.
      * by rewrite all_digits_app, all_digits_zeros, Hdig.
      * change ("0" ++ str_repeat ?k "0" ++ ?d) with (str_repeat (S k) "0" ++ d).
        rewrite parse_nat_zeros by (rewrite Hnd; done). apply n_to_dec_roundtrip.
    + destruct (Z.leb_spec (Z.of_nat L) (e + Z.of_nat L)) as [Hd'|Hd'].
      * (* integer: e = 0 *)
        replace (Z.to_nat (e + Z.of_nat L - Z.of_nat L)) with 0%nat by lia. cbn [str_repeat].
        rewrite (str_app_nil_r (n_to_dec c)), Hnd.
        erewrite (dec_parse_parts _ _ _ _ ""); [| done | by rewrite <- Hnd | reflexivity | by left | by left | ].
        -- f_equal. f_equal. cbn. lia.
        -- rewrite str_app_nil_r, <- Hnd. apply n_to_dec_roundtrip.
      * (* ddd.ddd *)
        replace (Z.to_nat (Z.of_nat L - (e + Z.of_nat L))) with (L - Z.to_nat (e + Z.of_nat L))%nat by lia.
        rewrite <- str_app_assoc. unfold L.
        rewrite (dec_parse_point _ _ _ _ 0) by (try lia; by left). f_equal. f_equal. lia.
  }
  (* scientific notation: dotplace = 1 *)
  all: assert (Hne : (e + Z.of_nat L =? 1)%Z = false) by (apply Z.eqb_neq; lia).
  all: rewrite Hne; change (1 <=? 0)%Z with false; cbn iota.
  all: assert (Hex : exists t, "E" ++ signed_dec (e + Z.of_nat L - 1) = String "E" t
                     /\ parse_signed t = Some (e + Z.of_nat L - 1)%Z)
         by (eexists; split; [reflexivity | apply parse_signed_signed_dec]).
  all: destruct (Z.leb_spec (Z.of_nat L) 1) as [H1|H1].
  all: try (replace (Z.to_nat (1 - Z.of_nat L)) with 0%nat by lia; cbn [str_repeat];
            rewrite (str_app_nil_r (n_to_dec c)), Hnd;
            erewrite (dec_parse_parts _ _ _ _ "" _ (e + Z.of_nat L - 1) c);
              [| done | by rewrite <- Hnd | reflexivity | by left | right; exact Hex | ];
            [f_equal; f_equal; cbn [String.length]; lia
            |rewrite str_app_nil_r, <- Hnd; apply n_to_dec_roundtrip]).
  all: change (Z.to_nat 1) with 1%nat; replace (Z.to_nat (Z.of_nat L - 1)) with (L - 1)%nat by lia.
  all: rewrite <- str_app_assoc; unfold L; rewrite (dec_parse_point _ _ _ _ (e + Z.of_nat L - 1)) by (try lia; by right).
  all: f_equal; f_equal; lia.
Qed.

End PyStr.
