(* ===== verification/Loader.v ===== *)
(** * The data loader: [fetch_data] of src/gen_report.py

    The database schema and the single query of [fetch_data] (the inner join
    of [crop_yields], [crops] and [states] ordered by crop name, state name,
    year and method), the pivot of the result rows into the four-level
    [defaultdict] crop -> state -> year -> method -> yield value, and the
    theorems about it: what a lookup returns, the well-formedness of the
    nested dictionary, the order of its keys, and what the [ORDER BY]
    leaves open: nothing with distinct keys, the reported value with
    duplicate ones. *)

From S2P Require Import Prelude.

#[local] Open Scope Z_scope.

Module Loader.

(** The nested dictionaries, by level. *)
Abbreviation method_dict Num := (list (string * option Num)).
Abbreviation year_dict Num := (list (Z * method_dict Num)).
Abbreviation state_dict Num := (list (string * year_dict Num)).
Abbreviation yield_table_of Num := (list (string * state_dict Num)).

Section Loader.
Context {Num : Type}.

(** ** The schema (tables read by the query) *)
Record crop := { crop_id : Z; crop_name : string }.
Record state := { state_id : Z; state_name : string }.
Record crop_yield := {
  cy_crop_id : Z; cy_state_id : Z; cy_year : Z; cy_method : string;
  cy_yield_value : option Num  (* a nullable numeric column *)
}.
Record database := {
  crops : list crop; states : list state; crop_yields : list crop_yield
}.

(** A row of the result set: [(crop_name, state_name, year, method,
    yield_value)]; [None] is SQL NULL, which psycopg2 returns as [None]. *)
Record qrow := {
  q_crop : string; q_state : string; q_year : Z; q_method : string;
  q_value : option Num
}.

#[global] Instance qrow_eq_dec `{!EqDecision Num} : EqDecision qrow.
Proof. solve_decision. Defined.

(** [FROM crop_yields cy JOIN crops c ON c.crop_id = cy.crop_id
     JOIN states s ON s.state_id = cy.state_id], projected. *)
Definition join (db : database) : list qrow :=
  cy ← crop_yields db;
  c ← filter (fun c => crop_id c = cy_crop_id cy) (crops db);
  s ← filter (fun s => state_id s = cy_state_id cy) (states db);
  [{| q_crop := crop_name c; q_state := state_name s; q_year := cy_year cy;
      q_method := cy_method cy; q_value := cy_yield_value cy |}].

(** The key the rows are stored under, and the key of [ORDER BY]. *)
Definition qrow_key (r : qrow) : string * string * Z * string :=
  (q_crop r, q_state r, q_year r, q_method r).

(** PostgreSQL orders [text] columns by the database's collation
    [collate]; the theorems assume it is a [Comparison] (every collation
    PostgreSQL creates by default is deterministic: strings that compare
    equal are byte-wise equal).  [String.compare] is the [C] collation. *)
Section Order.
Context (collate : string -> string -> comparison).

(** [ORDER BY c.crop_name, s.state_name, cy.year, cy.method] *)
Definition qrow_cmp (a b : qrow) : comparison :=
  match collate (q_crop a) (q_crop b) with
  | Eq =>
      match collate (q_state a) (q_state b) with
      | Eq =>
          match Z.compare (q_year a) (q_year b) with
          | Eq => collate (q_method a) (q_method b)
          | o => o
          end
      | o => o
      end
  | o => o
  end.

Definition qrow_le (a b : qrow) : Prop := qrow_cmp a b <> Gt.

#[global] Instance qrow_le_dec : RelDecision qrow_le.
Proof. intros a b. unfold qrow_le. apply _. Defined.

(** What the database may return for the query: the joined rows in any
    order sorted by the [ORDER BY] key (rows with equal keys in an order
    the engine chooses). *)
Definition query_result (db : database) (rows : list qrow) : Prop :=
  rows ≡ₚ join db /\ Sorted qrow_le rows.

(** One such order: a stable merge sort of the join. *)
Definition run_query (db : database) : list qrow := merge_sort qrow_le (join db).
End Order.

(** ** The pivot

    [data = defaultdict(lambda: defaultdict(lambda: defaultdict(dict)))]
    and, for each row, [data[crop][state][year][method] = yield_val]. *)
Local Abbreviation yield_table := (yield_table_of Num).

Definition store_row (data : yield_table) (r : qrow) : yield_table :=
  dict_upd []
    (dict_upd []
       (dict_upd []
          (dict_set (q_method r) (q_value r))
          (q_year r))
       (q_state r))
    (q_crop r) data.

(** [for crop, state, year, method, yield_val in cur.fetchall(): ...] *)
Definition pivot (rows : list qrow) : yield_table := fold_left store_row rows [].

(** What [fetch_data()] returns: [OperationalError] when the database
    cannot be reached, otherwise the pivot of the query result.  The
    driver calls that produce it (connection, cursor, [execute],
    [fetchall], the two [close] calls) are modelled in Session.v, whose
    [fetch_data] refines this function. *)
Definition fetch_result (collate : string -> string -> comparison)
    (conn : option database) : result py_exc yield_table :=
  match conn with
  | None => Err OperationalError
  | Some db => Ok (pivot (run_query collate db))
  end.

(** ** Reading the table *)

(** [data[c][s][y][m]] where every level exists. *)
Definition lookup4 (data : yield_table) (k : string * string * Z * string) : option (option Num) :=
  let '(c, s, y, m) := k in
  sd ← dict_get c data; yd ← dict_get s sd; md ← dict_get y yd; dict_get m md.

(** The representation invariant of the nested table: every level is a
    dictionary without duplicate keys, and no inner dictionary is empty
    (an entry is created only on the way to a stored value). *)
Definition nonempty {A} (l : list A) : Prop := l <> [].

Definition method_wf (md : method_dict Num) : Prop := nonempty md /\ dict_wf md.
Definition year_wf (yd : year_dict Num) : Prop :=
  nonempty yd /\ dict_wf yd /\ Forall (fun e => method_wf e.2) yd.
Definition state_wf (sd : state_dict Num) : Prop :=
  nonempty sd /\ dict_wf sd /\ Forall (fun e => year_wf e.2) sd.
Definition table_wf (data : yield_table) : Prop :=
  dict_wf data /\ Forall (fun e => state_wf e.2) data.
(** The values of the rows stored under key [k], in row order. *)
Definition values_at (rows : list qrow) k : list (option Num) :=
  q_value <$> filter (fun r => qrow_key r = k) rows.

(** The [ORDER BY] key as nested pairs, compared lexicographically. *)
Definition ord_key (r : qrow) : string * (string * (Z * string)) :=
  (q_crop r, (q_state r, (q_year r, q_method r))).
End Loader.

(** ** Fixtures

    Two crops and two states whose ids are in non-alphabetical order, and a
    database with two rows under the same key.  Values are integers here;
    any type of driver values will do. *)
Definition cy_row (c s y : Z) (m : string) (v : option Z) : crop_yield :=
  {| cy_crop_id := c; cy_state_id := s; cy_year := y; cy_method := m; cy_yield_value := v |}.

Definition fixture_db : @database Z := {|
  crops := [{| crop_id := 1; crop_name := "Wheat" |}; {| crop_id := 2; crop_name := "Rice" |}];
  states := [{| state_id := 1; state_name := "Punjab" |}; {| state_id := 2; state_name := "Bihar" |}];
  crop_yields := [cy_row 1 1 2024 "ARIMA" (Some 32); cy_row 1 2 2023 "MoA&FW" (Some 30);
                  cy_row 2 1 2022 "MoA&FW" None; cy_row 2 2 2024 "XGBoost" (Some 41);
                  cy_row 1 2 2024 "ARIMA" (Some 28)]
|}.

Definition fixture_rows : list (@qrow Z) := run_query String.compare fixture_db.

(** Two measurements of one key with different values. *)
Definition dup_db : @database Z := {|
  crops := [{| crop_id := 1; crop_name := "Wheat" |}];
  states := [{| state_id := 1; state_name := "Punjab" |}];
  crop_yields := [cy_row 1 1 2024 "ARIMA" (Some 32); cy_row 1 1 2024 "ARIMA" (Some 35)]
|}.

Definition dup_row (v : Z) : @qrow Z :=
  {| q_crop := "Wheat"; q_state := "Punjab"; q_year := 2024; q_method := "ARIMA"; q_value := Some v |}.

Section Theory.
Context {Num : Type}.
Implicit Types (rows : list (@qrow Num)) (r a b : @qrow Num) (d : yield_table_of Num)
  (db : @database Num).

(** Storing one row: its key now reads its value, other keys are unchanged. *)
Lemma lookup4_store_row d r k :
  lookup4 (store_row d r) k = if decide (qrow_key r = k) then Some (q_value r) else lookup4 d k.
Proof.
  destruct k as [[[c s] y] m]. unfold lookup4, store_row.
  rewrite (dict_upd_bind [] _ _ (q_crop r) c d (q_value r)
             (q_state r = s /\ q_year r = y /\ q_method r = m)); [|intros sd|done].
  - unfold qrow_key. repeat case_decide; naive_solver.
  - rewrite (dict_upd_bind [] _ _ (q_state r) s sd (q_value r) (q_year r = y /\ q_method r = m));
      [|intros yd|done].
    + repeat case_decide; naive_solver.
    + rewrite (dict_upd_bind [] _ _ (q_year r) y yd (q_value r) (q_method r = m));
        [|intros md; apply dict_get_set|done].
      repeat case_decide; naive_solver.
Qed.

Lemma values_at_snoc rows r k :
  values_at (rows ++ [r]) k = values_at rows k ++ (if decide (qrow_key r = k) then [q_value r] else []).
Proof.
  unfold values_at. rewrite filter_app, fmap_app. f_equal.
  rewrite filter_cons, filter_nil. by case_decide.
Qed.

Lemma lookup4_fold rows d k :
  lookup4 (fold_left store_row rows d) k =
  match last (values_at rows k) with Some v => Some v | None => lookup4 d k end.
Proof.
  induction rows as [|r rows IH] using rev_ind; [done|].
  rewrite fold_left_app, values_at_snoc; cbn [fold_left]. rewrite lookup4_store_row.
  case_decide; [by rewrite last_snoc|]. by rewrite app_nil_r.
Qed.

(** Under unique keys, the rows with key [qrow_key r] are exactly [r]. *)
Lemma values_at_unique rows r :
  NoDup (qrow_key <$> rows) -> r ∈ rows -> values_at rows (qrow_key r) = [q_value r].
Proof.
  unfold values_at. induction rows as [|r' rows IH]; intros Hnd Hin; [set_solver|].
  cbn in Hnd. apply NoDup_cons in Hnd as [Hr' Hnd].
  rewrite filter_cons. apply elem_of_cons in Hin as [->|Hin].
  - rewrite decide_True by done. cbn. rewrite filter_none; [done|].
    intros x Hx Heq. apply Hr', list_elem_of_fmap. eauto.
  - rewrite decide_False; [by apply IH|].
    intros Heq. apply Hr', list_elem_of_fmap. eauto.
Qed.


(** *** The nested dictionary is well formed *)

Lemma method_wf_set m v (md : method_dict Num) :
  md = [] \/ method_wf md -> method_wf (dict_set m v md).
Proof.
  intros Hmd. split; [apply dict_set_nonempty|]. apply dict_wf_set.
  destruct Hmd as [->|[_ ?]]; [apply dict_wf_nil|done].
Qed.

Lemma year_wf_upd y f (yd : year_dict Num) :
  (forall md, md = [] \/ method_wf md -> method_wf (f md)) ->
  yd = [] \/ year_wf yd -> year_wf (dict_upd [] f y yd).
Proof.
  intros Hf Hyd. split_and!; [apply dict_upd_nonempty| |].
  - apply dict_wf_upd. destruct Hyd as [->|(_&?&_)]; [apply dict_wf_nil|done].
  - apply Forall_dict_upd; [|done]. destruct Hyd as [->|(_&_&?)]; [constructor|done].
Qed.

Lemma state_wf_upd s f (sd : state_dict Num) :
  (forall yd, yd = [] \/ year_wf yd -> year_wf (f yd)) ->
  sd = [] \/ state_wf sd -> state_wf (dict_upd [] f s sd).
Proof.
  intros Hf Hsd. split_and!; [apply dict_upd_nonempty| |].
  - apply dict_wf_upd. destruct Hsd as [->|(_&?&_)]; [apply dict_wf_nil|done].
  - apply Forall_dict_upd; [|done]. destruct Hsd as [->|(_&_&?)]; [constructor|done].
Qed.

Lemma store_row_wf d r : table_wf d -> table_wf (store_row d r).
Proof.
  intros [Hd Hall]. split; [by apply dict_wf_upd|].
  apply Forall_dict_upd; [done|]. intros sd Hsd.
  apply state_wf_upd; [|done]. intros yd Hyd.
  apply year_wf_upd; [|done]. intros md Hmd. by apply method_wf_set.
Qed.

(** *** Properties of the pivot *)

(** The loop's result read at a key: the last value of that key. *)
Lemma lookup4_pivot rows k : lookup4 (pivot rows) k = last (values_at rows k).
Proof.
  unfold pivot. rewrite lookup4_fold. destruct (last _); [done|].
  by destruct k as [[[]]].
Qed.

(** With distinct keys, a row reads back at its key. *)
Lemma lookup4_pivot_row rows r :
  NoDup (qrow_key <$> rows) -> r ∈ rows -> lookup4 (pivot rows) (qrow_key r) = Some (q_value r).
Proof. intros Hnd Hr. by rewrite lookup4_pivot, values_at_unique. Qed.

(** C4: [data[crop][state][year][method]] after the loop holds the value of
    the last row with that key (a later row overwrites an earlier one), and
    a key no row has is absent. *)
Theorem pivot_lookup rows k : lookup4 (pivot rows) k = last (values_at rows k).
Proof. apply lookup4_pivot. Qed.

(** C5: when the result set has no two rows with the same 4-tuple key, the
    pivot loses nothing and invents nothing: a key reads [v] exactly when
    a row with that key and value [v] was returned. *)
Theorem pivot_lookup_unique rows k v :
  NoDup (qrow_key <$> rows) ->
  lookup4 (pivot rows) k = Some v <-> exists r, r ∈ rows /\ qrow_key r = k /\ q_value r = v.
Proof.
  intros Hnd. split.
  - rewrite lookup4_pivot. intros Hl%last_Some_elem_of. unfold values_at in Hl.
    apply list_elem_of_fmap in Hl as (r & -> & Hr). apply list_elem_of_filter in Hr. naive_solver.
  - intros (r & Hr & <- & <-). by apply lookup4_pivot_row.
Qed.

(** C13: the pivot is a well-formed nested dictionary: no level repeats a
    key and no inner dictionary is empty. *)
Theorem pivot_wf rows : table_wf (pivot rows).
Proof.
  unfold pivot. cut (forall d, table_wf d -> table_wf (fold_left store_row rows d)).
  { intros H. apply H. split; [apply dict_wf_nil|constructor]. }
  induction rows as [|r rows IH]; intros d Hd; [done|]. apply IH, store_row_wf, Hd.
Qed.

(** *** The query *)

Lemma elem_of_join db r :
  r ∈ join db <-> exists cy c s,
    cy ∈ crop_yields db /\ c ∈ crops db /\ s ∈ states db /\
    crop_id c = cy_crop_id cy /\ state_id s = cy_state_id cy /\
    r = {| q_crop := crop_name c; q_state := state_name s; q_year := cy_year cy;
           q_method := cy_method cy; q_value := cy_yield_value cy |}.
Proof.
  unfold join. repeat setoid_rewrite list_elem_of_bind. repeat setoid_rewrite list_elem_of_filter.
  repeat setoid_rewrite list_elem_of_singleton. naive_solver.
Qed.

Lemma pivot_snoc rows r : pivot (rows ++ [r]) = store_row (pivot rows) r.
Proof. unfold pivot. by rewrite fold_left_app. Qed.

(** The crops of the pivot are the crops of the rows. *)
Lemma elem_of_pivot_crops rows c :
  c ∈ dict_keys (pivot rows) <-> exists r, r ∈ rows /\ q_crop r = c.
Proof.
  revert c. induction rows as [|r rows IH] using rev_ind; intros c; [cbn; set_solver|].
  rewrite pivot_snoc. unfold store_row. rewrite dict_keys_upd.
  assert (Hr : forall x, x ∈ rows ++ [r] <-> x ∈ rows \/ x = r).
  { intros x. by rewrite elem_of_app, list_elem_of_singleton. }
  case_decide as Hin.
  - rewrite IH in Hin |- *. split; [naive_solver|].
    intros (x & [Hx| ->]%Hr & <-); naive_solver.
  - rewrite elem_of_app, list_elem_of_singleton, IH. split.
    + intros [(x & ? & ?)| ->]; [exists x|exists r]; rewrite Hr; naive_solver.
    + intros (x & [Hx| ->]%Hr & <-); naive_solver.
Qed.

Section Collation.
Context (collate : string -> string -> comparison) `{!Comparison collate}.

Lemma qrow_cmp_lex a b :
  qrow_cmp collate a b
  = lex_cmp collate (lex_cmp collate (lex_cmp Z.compare collate)) (ord_key a) (ord_key b).
Proof. reflexivity. Qed.

#[local] Instance qrow_le_trans : Transitive (@qrow_le Num collate).
Proof. intros a b c. unfold qrow_le. rewrite !qrow_cmp_lex. apply cmp_le_trans, _. Qed.

#[local] Instance qrow_le_total : Total (@qrow_le Num collate).
Proof. intros a b. unfold qrow_le. rewrite !qrow_cmp_lex. apply cmp_le_total, _. Qed.

Lemma qrow_le_crop a b : qrow_le collate a b -> collate (q_crop a) (q_crop b) <> Gt.
Proof. unfold qrow_le, qrow_cmp. by destruct (collate (q_crop a) (q_crop b)). Qed.

Lemma qrow_le_state a b :
  qrow_le collate a b -> q_crop a = q_crop b -> collate (q_state a) (q_state b) <> Gt.
Proof.
  unfold qrow_le, qrow_cmp. intros H Hc. rewrite Hc, (cmp_refl collate) in H.
  by destruct (collate (q_state a) (q_state b)).
Qed.

Lemma qrow_le_antisym a b :
  qrow_le collate a b -> qrow_le collate b a -> qrow_key a = qrow_key b.
Proof.
  unfold qrow_le. rewrite !qrow_cmp_lex. intros H1 H2.
  rewrite (cmp_antisym _ (ord_key a) (ord_key b)) in H2.
  destruct (lex_cmp _ _ (ord_key a) _) eqn:E; try done.
  apply (cmp_eq (lex_cmp collate (lex_cmp collate (lex_cmp Z.compare collate)))) in E.
  unfold ord_key, qrow_key in *. injection E. intros. congruence.
Qed.

(** The query as run (a stable sort of the join by the [ORDER BY] key)
    is one of the results the database may return. *)
Lemma run_query_valid db : query_result collate db (run_query collate db).
Proof.
  split; [apply merge_sort_Permutation|]. apply Sorted_merge_sort, _.
Qed.

(** C14: when no two joined rows share the key [(crop, state, year,
    method)], the database has one and only one result for the query, so
    [fetch_data] does not depend on how the engine orders ties. *)
Theorem query_result_unique db rows1 rows2 :
  NoDup (qrow_key <$> join db) ->
  query_result collate db rows1 -> query_result collate db rows2 -> rows1 = rows2.
Proof.
  intros Hnd [Hp1 Hs1] [Hp2 Hs2].
  apply (Sorted_unique_strong (qrow_le collate)); [|done|done|by rewrite Hp1, Hp2].
  intros x1 x2 Hx1 Hx2 H12 H21. apply (NoDup_fmap_eq qrow_key (join db)); [done| | |].
  - by rewrite <- Hp1.
  - by rewrite <- Hp2.
  - by apply qrow_le_antisym.
Qed.

(** The [ORDER BY] comparison reads only the key of a row. *)
Lemma qrow_le_key a a' b b' :
  qrow_key a = qrow_key a' -> qrow_key b = qrow_key b' -> qrow_le collate a b -> qrow_le collate a' b'.
Proof. unfold qrow_key, qrow_le, qrow_cmp. intros [= -> -> -> ->] [= -> -> -> ->]. done. Qed.

Lemma Sorted_same_keys rows rows' :
  Forall2 (fun a b => qrow_key a = qrow_key b) rows rows' ->
  Sorted (qrow_le collate) rows -> Sorted (qrow_le collate) rows'.
Proof.
  induction 1 as [|a a' rows rows' Ha Hall IH]; intros Hs; [done|].
  apply Sorted_inv in Hs as [Hs Hhd]. constructor; [by apply IH|].
  destruct Hall as [|b b' ? ? Hb]; constructor.
  inversion Hhd; subst. by apply (qrow_le_key a a' b b').
Qed.

Lemma Forall2_key_refl rows : Forall2 (fun a b => @qrow_key Num a = qrow_key b) rows rows.
Proof. induction rows; by constructor. Qed.

(** The last row of a key: every row after it has another key. *)
Lemma last_of_key rows r :
  r ∈ rows -> exists rows1 a rows3, rows = rows1 ++ a :: rows3 /\ qrow_key a = qrow_key r /\
    Forall (fun x => qrow_key x <> qrow_key r) rows3.
Proof.
  induction rows as [|x rows IH] using rev_ind; [set_solver|]. intros Hr.
  destruct (decide (qrow_key x = qrow_key r)) as [Hx|Hx].
  - by exists rows, x, [].
  - apply elem_of_app in Hr as [Hr|Hr]; [|apply list_elem_of_singleton in Hr; congruence].
    destruct (IH Hr) as (rows1 & a & rows3 & -> & Ha & Hf).
    exists rows1, a, (rows3 ++ [x]). rewrite <- app_assoc. split_and!; [done|done|].
    apply Forall_app. by split; [|constructor].
Qed.

Lemma values_at_last_of_key rows1 a rows3 k :
  qrow_key a = k -> Forall (fun x => qrow_key x <> k) rows3 ->
  values_at (rows1 ++ a :: rows3) k = values_at rows1 k ++ [q_value a].
Proof.
  intros Ha Hf. unfold values_at. rewrite filter_app, filter_cons, decide_True by done.
  rewrite (filter_none _ rows3); [by rewrite fmap_app|]. intros x Hx. by apply (proj1 (Forall_forall _ _) Hf x Hx).
Qed.

(** C15: when two joined rows share the key [(crop, state, year, method)]
    but not the value, the query has two valid results whose pivots keep
    different values under that key: which value the report shows is
    left to the order in which the database engine returns ties. *)
Theorem query_duplicate_keys_ambiguous `{!EqDecision Num} db r1 r2 :
  r1 ∈ join db -> r2 ∈ join db -> qrow_key r1 = qrow_key r2 -> q_value r1 <> q_value r2 ->
  exists rows rows', query_result collate db rows /\ query_result collate db rows' /\
    lookup4 (pivot rows) (qrow_key r1) <> lookup4 (pivot rows') (qrow_key r1).
Proof.
  intros H1 H2 Hk Hv. destruct (run_query_valid db) as [Hp Hs].
  assert (H1' : r1 ∈ run_query collate db) by by rewrite Hp.
  assert (H2' : r2 ∈ run_query collate db) by by rewrite Hp.
  destruct (last_of_key _ _ H1') as (rows1 & a & rows3 & Heq & Ha & Hf).
  assert (Hb : exists b, b ∈ rows1 /\ qrow_key b = qrow_key r1 /\ q_value b <> q_value a).
  { assert (Hin : forall x, x ∈ run_query collate db -> qrow_key x = qrow_key r1 ->
                            q_value x <> q_value a -> x ∈ rows1).
    { intros x Hx Hxk Hxv. rewrite Heq in Hx. apply elem_of_app in Hx as [|Hx]; [done|].
      apply elem_of_cons in Hx as [->|Hx]; [by destruct Hxv|].
      by destruct (proj1 (Forall_forall _ _) Hf x Hx). }
    destruct (decide (q_value r1 = q_value a)) as [E|E].
    - exists r2. split_and!; [apply Hin| |]; congruence.
    - exists r1. split_and!; [by apply Hin|done|done]. }
  destruct Hb as (b & Hb & Hbk & Hbv).
  apply list_elem_of_split in Hb as (rows11 & rows12 & ->).
  exists (run_query collate db), (rows11 ++ a :: rows12 ++ b :: rows3).
  split_and!; [by split|split|].
  - rewrite <- Hp, Heq, <- !app_assoc. apply Permutation_app_head. cbn [app].
    rewrite <- !Permutation_middle. apply perm_swap.
  - rewrite Heq, <- !app_assoc in Hs. eapply Sorted_same_keys; [|exact Hs].
    apply Forall2_app; [apply Forall2_key_refl|]. constructor; [congruence|].
    apply Forall2_app; [apply Forall2_key_refl|]. constructor; [congruence|apply Forall2_key_refl].
  - rewrite !lookup4_pivot, Heq, values_at_last_of_key by done.
    replace (rows11 ++ a :: rows12 ++ b :: rows3)%list with ((rows11 ++ a :: rows12) ++ b :: rows3)%list
      by (by rewrite <- app_assoc).
    rewrite (values_at_last_of_key (rows11 ++ a :: rows12) b rows3), !last_snoc by done. congruence.
Qed.

(** The states of a crop: sorted, and each from a row of that crop. *)
Lemma pivot_states rows c sd :
  StronglySorted (qrow_le collate) rows -> dict_get c (pivot rows) = Some sd ->
  StronglySorted (fun x y => collate x y = Lt) (dict_keys sd) /\
  forall s, s ∈ dict_keys sd -> exists x, x ∈ rows /\ q_crop x = c /\ q_state x = s.
Proof.
  revert sd. induction rows as [|r rows IH] using rev_ind; intros sd Hs Hsd; [done|].
  apply StronglySorted_app in Hs as (Hlt & Hs & _).
  rewrite pivot_snoc in Hsd. unfold store_row in Hsd. rewrite dict_get_upd in Hsd.
  case_decide as Hc; cycle 1.
  { destruct (IH sd Hs Hsd) as [IH1 IH2]. split; [done|].
    intros s Hs'. destruct (IH2 s Hs') as (x & ? & ? & ?). exists x.
    rewrite elem_of_app. naive_solver. }
  subst c. simplify_eq.
  assert (StronglySorted (fun x y => collate x y = Lt)
            (dict_keys (default [] (dict_get (q_crop r) (pivot rows)))) /\
          forall s, s ∈ dict_keys (default [] (dict_get (q_crop r) (pivot rows))) ->
            exists x, x ∈ rows /\ q_crop x = q_crop r /\ q_state x = s) as [H1 H2].
  { destruct (dict_get (q_crop r) (pivot rows)) eqn:E; [by apply IH|].
    split; [constructor|cbn; set_solver]. }
  split.
  - apply dict_keys_upd_sorted; [done|]. intros Hnew s' Hs'.
    destruct (H2 s' Hs') as (x & Hx & Hxc & <-).
    apply (cmp_le_ne_lt collate); [apply qrow_le_state; [apply Hlt; set_solver|done]|].
    intros Heq. apply Hnew. by rewrite <- Heq.
  - intros s. rewrite dict_keys_upd. case_decide.
    + intros (x & ? & ? & ?)%H2. exists x. rewrite elem_of_app. naive_solver.
    + rewrite elem_of_app. intros [(x & ? & ? & ?)%H2|Hs1%list_elem_of_singleton];
        [exists x|exists r]; rewrite elem_of_app, ?list_elem_of_singleton; naive_solver.
Qed.

(** C8: when the rows come in [ORDER BY] order, the crops of the pivot,
    which [create_report] turns into sections in this order, are
    strictly increasing in the collation: each crop once, sorted. *)
Theorem pivot_crops_sorted rows :
  Sorted (qrow_le collate) rows ->
  StronglySorted (fun x y => collate x y = Lt) (dict_keys (pivot rows)).
Proof.
  intros Hs%Sorted_StronglySorted; [|apply _].
  induction rows as [|r rows IH] using rev_ind; [constructor|].
  apply StronglySorted_app in Hs as (Hlt & Hs & _).
  rewrite pivot_snoc. apply dict_keys_upd_sorted; [by apply IH|].
  intros Hnew c' Hc'. pose proof Hc' as (x & Hx & <-)%elem_of_pivot_crops.
  apply (cmp_le_ne_lt collate); [apply qrow_le_crop, Hlt; set_solver|].
  intros Heq. apply Hnew. by rewrite <- Heq.
Qed.

(** C9: likewise the states of each crop, which become the table rows of
    that crop's section, are strictly increasing. *)
Theorem pivot_states_sorted rows c sd :
  Sorted (qrow_le collate) rows -> dict_get c (pivot rows) = Some sd ->
  StronglySorted (fun x y => collate x y = Lt) (dict_keys sd).
Proof.
  intros Hs%Sorted_StronglySorted Hsd; [|apply _]. by apply (pivot_states rows c sd).
Qed.
End Collation.
End Theory.

(** ** Witnesses and counterexamples *)

Example fixture_crops : dict_keys (pivot fixture_rows) = ["Rice"; "Wheat"].
Proof. vm_compute. reflexivity. Qed.

Example fixture_wheat_states :
  dict_keys <$> dict_get "Wheat" (pivot fixture_rows) = Some ["Bihar"; "Punjab"].
Proof. vm_compute. reflexivity. Qed.

Lemma pivot_lookup_unique_witness :
  NoDup (qrow_key <$> fixture_rows) /\
  (lookup4 (pivot fixture_rows) ("Wheat", "Bihar", 2024, "ARIMA") = Some (Some 28) <->
   exists r, r ∈ fixture_rows /\ qrow_key r = ("Wheat", "Bihar", 2024, "ARIMA") /\ q_value r = Some 28).
Proof.
  assert (Hnd : NoDup (qrow_key <$> fixture_rows)) by decide_by_eval.
  split; [exact Hnd|]. apply (pivot_lookup_unique fixture_rows _ _ Hnd).
Defined.

Lemma query_result_unique_witness :
  NoDup (qrow_key <$> join fixture_db) /\
  query_result String.compare fixture_db fixture_rows /\ fixture_rows = fixture_rows.
Proof.
  assert (Hnd : NoDup (qrow_key <$> join fixture_db)) by decide_by_eval.
  assert (Hq : query_result String.compare fixture_db fixture_rows)
    by (split; [apply merge_sort_Permutation|decide_by_eval]).
  split_and!; [exact Hnd|exact Hq|].
  apply (query_result_unique String.compare fixture_db fixture_rows fixture_rows Hnd Hq Hq).
Defined.

Lemma pivot_crops_sorted_witness :
  Sorted (qrow_le String.compare) fixture_rows /\
  StronglySorted (fun x y => String.compare x y = Lt) (dict_keys (pivot fixture_rows)).
Proof.
  assert (Hs : Sorted (qrow_le String.compare) fixture_rows) by decide_by_eval.
  split; [exact Hs|]. apply (pivot_crops_sorted String.compare fixture_rows Hs).
Defined.

Lemma pivot_states_sorted_witness :
  Sorted (qrow_le String.compare) fixture_rows /\
  dict_get "Wheat" (pivot fixture_rows) = Some (default [] (dict_get "Wheat" (pivot fixture_rows))) /\
  StronglySorted (fun x y => String.compare x y = Lt)
    (dict_keys (default [] (dict_get "Wheat" (pivot fixture_rows)))).
Proof.
  assert (Hs : Sorted (qrow_le String.compare) fixture_rows) by decide_by_eval.
  assert (Hg : dict_get "Wheat" (pivot fixture_rows)
               = Some (default [] (dict_get "Wheat" (pivot fixture_rows)))) by (vm_compute; reflexivity).
  split_and!; [exact Hs|exact Hg|]. apply (pivot_states_sorted String.compare fixture_rows "Wheat" _ Hs Hg).
Defined.

Lemma query_duplicate_keys_ambiguous_witness :
  dup_row 32 ∈ join dup_db /\ dup_row 35 ∈ join dup_db /\ qrow_key (dup_row 32) = qrow_key (dup_row 35) /\
  q_value (dup_row 32) <> q_value (dup_row 35) /\
  exists rows rows', query_result String.compare dup_db rows /\ query_result String.compare dup_db rows' /\
    lookup4 (pivot rows) (qrow_key (dup_row 32)) <> lookup4 (pivot rows') (qrow_key (dup_row 32)).
Proof.
  assert (H1 : dup_row 32 ∈ join dup_db) by decide_by_eval.
  assert (H2 : dup_row 35 ∈ join dup_db) by decide_by_eval.
  assert (H3 : qrow_key (dup_row 32) = qrow_key (dup_row 35)) by reflexivity.
  assert (H4 : q_value (dup_row 32) <> q_value (dup_row 35)) by discriminate.
  split_and!; try assumption.
  exact (query_duplicate_keys_ambiguous String.compare dup_db _ _ H1 H2 H3 H4).
Defined.

End Loader.
