(* ===== verification/Session.v ===== *)
(** * The database session of [fetch_data]: connection and cursor

    Lines 19-34 of src/gen_report.py as the psycopg2 calls they make, on
    the state of the driver: the connection and cursor handles open, and
    the result set each executed cursor holds.  The calls follow psycopg2:
    [connect] raises [OperationalError] when the server does not accept
    the connection; [cursor()] and [execute] on a closed object raise
    [InterfaceError]; [execute] of a query naming a missing table raises
    [ProgrammingError] (the client-side cursor then holds no result);
    [fetchall] returns the rows the cursor holds; [close] is idempotent,
    and closing a connection closes its cursors.

    [fetch_data] is the source's sequence of these calls.  Its result
    is that of [Loader.fetch_result], which Report.v uses ([fetch_data_refines]);
    a successful run closes every handle it opened ([fetch_data_releases]);
    a run whose query fails leaves its connection and cursor open
    ([fetch_data_leaks_on_error]): the source has no [try]/[finally].
    [dwf] is the well-formedness of the handle table (distinct ids below
    the next id, every open cursor's connection open) that the release
    theorem assumes of the state a run starts from.  [DB_CONFIG] is the
    source's dictionary; a server is modelled by the connection
    parameters it accepts. *)

From S2P Require Import Prelude Loader.

Module Session.
Import Loader SENotations.
#[local] Open Scope py_scope.

(** A handle: a connection, or a cursor of a connection. *)
Inductive handle := HConn (id : nat) | HCursor (id conn : nat).

#[export] Instance handle_eq_dec : EqDecision handle.
Proof. solve_decision. Defined.

Definition handle_id (h : handle) : nat := match h with HConn i => i | HCursor i _ => i end.

(** The connection a handle depends on. *)
Definition handle_conn (h : handle) : nat := match h with HConn i => i | HCursor _ c => c end.

(** [DB_CONFIG]: the keyword arguments of [psycopg2.connect]. *)
Definition DB_CONFIG : pydict string string :=
  [("dbname", "TIH_Report"); ("user", "postgres"); ("password", "Farhat@2025");
   ("host", "localhost"); ("port", "5432")].

Section Session.
Context {Num : Type}.

(** The server: which connection parameters it accepts (it listens at
    the host and port, the database exists, the user and password are
    valid), whether its schema has the three tables, its data and its
    collation. *)
Record server := {
  sv_accepts : pydict string string -> bool;
  sv_schema : bool;
  sv_db : @database Num;
  sv_collate : string -> string -> comparison
}.

(** The server accepts the parameters of [DB_CONFIG]. *)
Definition sv_up (sv : server) : bool := sv_accepts sv DB_CONFIG.

(** The driver: the open handles in the order they were opened, the next
    id, and the result set of each executed cursor. *)
Record dstate := {
  ds_open : list handle;
  ds_next : nat;
  ds_results : pydict nat (list (@qrow Num))
}.

Definition initial_dstate : dstate := {| ds_open := []; ds_next := 0; ds_results := [] |}.

Definition set_open (hs : list handle) (s : dstate) : dstate :=
  {| ds_open := hs; ds_next := ds_next s; ds_results := ds_results s |}.

(** A new handle with the next id. *)
Definition open_handle (mk : nat -> handle) : SE dstate nat :=
  fun s => (Ok (ds_next s),
            {| ds_open := ds_open s ++ [mk (ds_next s)]; ds_next := S (ds_next s);
               ds_results := ds_results s |}).

Definition cursor_open (cur : nat) (s : dstate) : bool :=
  existsb (fun h => match h with HCursor i _ => Nat.eqb i cur | HConn _ => false end) (ds_open s).

(** ** The driver calls *)

(** [psycopg2.connect] with the keyword arguments [DB_CONFIG]: [OperationalError] when the server
    does not accept the parameters. *)
Definition connect (sv : server) : SE dstate nat :=
  fun s => if sv_up sv then open_handle HConn s else (Err OperationalError, s).

(** [conn.cursor()] *)
Definition cursor (conn : nat) : SE dstate nat :=
  fun s => if bool_decide (HConn conn ∈ ds_open s) then open_handle (fun i => HCursor i conn) s
           else (Err InterfaceError, s).

(** [cur.execute(query)]: the server runs the query of lines 22-28 and the
    client-side cursor receives the whole result. *)
Definition execute (sv : server) (cur : nat) : SE dstate unit :=
  fun s =>
    if negb (cursor_open cur s) then (Err InterfaceError, s)
    else if negb (sv_schema sv) then (Err ProgrammingError, s)
    else (Ok tt, {| ds_open := ds_open s; ds_next := ds_next s;
                    ds_results := dict_set cur (run_query (sv_collate sv) (sv_db sv)) (ds_results s) |}).

(** [cur.fetchall()] *)
Definition fetchall (cur : nat) : SE dstate (list (@qrow Num)) :=
  fun s =>
    if negb (cursor_open cur s) then (Err InterfaceError, s)
    else match dict_get cur (ds_results s) with
         | Some rows => (Ok rows, s)
         | None => (Err ProgrammingError, s)
         end.

(** [cur.close()] *)
Definition close_cursor (cur : nat) : SE dstate unit :=
  fun s => (Ok tt, set_open (filter (fun h => h <> HCursor cur (handle_conn h)) (ds_open s)) s).

(** [conn.close()]: the connection and its cursors. *)
Definition close_conn (conn : nat) : SE dstate unit :=
  fun s => (Ok tt, set_open (filter (fun h => handle_conn h <> conn) (ds_open s)) s).

(** ** [fetch_data()] *)
Definition fetch_data (sv : server) : SE dstate (yield_table_of Num) :=
  conn <-- connect sv ;;
  cur <-- cursor conn ;;
  _ <-- execute sv cur ;;
  rows <-- fetchall cur ;;
  let data := pivot rows in
  _ <-- close_cursor cur ;;
  _ <-- close_conn conn ;;
  se_ret data.

(** The handle table is well formed: ids distinct and below the next id,
    and every open cursor's connection open. *)
Definition dwf (s : dstate) : Prop :=
  NoDup (handle_id <$> ds_open s) /\
  Forall (fun h => handle_id h < ds_next s) (ds_open s) /\
  forall i c, HCursor i c ∈ ds_open s -> HConn c ∈ ds_open s.

End Session.

(** ** Fixtures

    A PostgreSQL server at [host:port] with the databases [dbs] and the
    roles [users] (name and password) accepts the parameters that name
    them.  The Loader's test database behind such a server with the
    configured credentials, behind one whose schema lacks the tables, and
    behind one whose role has another password. *)
Definition pg_accepts (host port : string) (dbs : list string) (users : list (string * string))
    (cfg : pydict string string) : bool :=
  bool_decide (dict_get "host" cfg = Some host /\ dict_get "port" cfg = Some port) &&
  match dict_get "dbname" cfg with Some db => bool_decide (db ∈ dbs) | None => false end &&
  match dict_get "user" cfg, dict_get "password" cfg with
  | Some u, Some p => bool_decide ((u, p) ∈ users)
  | _, _ => false
  end.

Definition fixture_server : @server Z :=
  {| sv_accepts := pg_accepts "localhost" "5432" ["TIH_Report"] [("postgres", "Farhat@2025")];
     sv_schema := true; sv_db := fixture_db; sv_collate := String.compare |}.

Definition broken_server : @server Z :=
  {| sv_accepts := pg_accepts "localhost" "5432" ["TIH_Report"] [("postgres", "Farhat@2025")];
     sv_schema := false; sv_db := fixture_db; sv_collate := String.compare |}.

Definition rotated_server : @server Z :=
  {| sv_accepts := pg_accepts "localhost" "5432" ["TIH_Report"] [("postgres", "rotated")];
     sv_schema := true; sv_db := fixture_db; sv_collate := String.compare |}.

(** ** Theory *)
Section Theory.
Context {Num : Type}.
Implicit Types (s : @dstate Num) (sv : @server Num).

(** The state once [fetch_data] has connected and opened its cursor:
    connection [n] and cursor [S n], for [n] the next id. *)
Definition connected s : dstate :=
  {| ds_open := ds_open s ++ [HConn (ds_next s); HCursor (S (ds_next s)) (ds_next s)];
     ds_next := S (S (ds_next s)); ds_results := ds_results s |}.

Lemma fetch_data_connected sv s :
  sv_up sv = true ->
  fetch_data sv s =
  (_ <-- execute sv (S (ds_next s)) ;; rows <-- fetchall (S (ds_next s)) ;;
   _ <-- close_cursor (S (ds_next s)) ;; _ <-- close_conn (ds_next s) ;; se_ret (pivot rows))
  (connected s).
Proof.
  intros Hup. unfold fetch_data, se_bind at 1, connect. rewrite Hup. cbn [open_handle fst snd].
  unfold se_bind at 1, cursor. rewrite bool_decide_true by set_solver.
  cbn [open_handle ds_open ds_next ds_results]. unfold connected. by rewrite <- app_assoc.
Qed.

Lemma cursor_open_connected s s' :
  ds_open s' = ds_open (connected s) -> cursor_open (S (ds_next s)) s' = true.
Proof.
  intros Ho. unfold cursor_open. rewrite Ho. unfold connected. cbn [ds_open].
  rewrite existsb_app. apply orb_true_iff. right. cbn. by rewrite Nat.eqb_refl.
Qed.

(** With the schema in place the cursor gets the query's answer. *)
Lemma fetch_data_open sv s :
  sv_up sv = true -> sv_schema sv = true ->
  fetch_data sv s =
  (_ <-- close_cursor (S (ds_next s)) ;; _ <-- close_conn (ds_next s) ;;
   se_ret (pivot (run_query (sv_collate sv) (sv_db sv))))
  {| ds_open := ds_open (connected s); ds_next := ds_next (connected s);
     ds_results := dict_set (S (ds_next s)) (run_query (sv_collate sv) (sv_db sv)) (ds_results s) |}.
Proof.
  intros Hup Hsch. rewrite fetch_data_connected by done.
  unfold se_bind at 1, execute. rewrite (cursor_open_connected s), Hsch by done. cbn [negb].
  unfold se_bind at 1, fetchall. rewrite (cursor_open_connected s) by done. cbn [negb ds_results].
  by rewrite dict_get_set, decide_True.
Qed.

Lemma close_both_keeps s n :
  dwf s -> n = ds_next s ->
  filter (fun h => handle_conn h <> n)
    (filter (fun h => h <> HCursor (S n) (handle_conn h)) (ds_open s ++ [HConn n; HCursor (S n) n]))
  = ds_open s.
Proof.
  intros (_ & Hlt & Hcur) ->. rewrite !filter_app. cbn.
  rewrite !decide_True by done. rewrite decide_False by (intros H; apply H; done).
  cbn. rewrite decide_False by (intros H; apply H; done). rewrite app_nil_r.
  rewrite Forall_forall in Hlt.
  rewrite (filter_all (fun h => h <> HCursor _ _)), filter_all; [done| |];
    intros h Hh; pose proof (Hlt _ Hh) as H1; destruct h as [i|i c];
    try pose proof (Hlt _ (Hcur _ _ Hh)) as H2; cbn in *; intros Heq; simplify_eq; lia.
Qed.

Lemma dwf_initial : dwf (@initial_dstate Num).
Proof. split_and!; [constructor|constructor|set_solver]. Qed.

(** C25: [fetch_data] refines the function Report.v uses: with the schema
    in place, the session returns what [Loader.fetch_result] returns
    ([OperationalError] when the server refuses the connection, otherwise
    the pivot of the query's answer), from any driver state. *)
Theorem fetch_data_refines sv s :
  sv_schema sv = true ->
  fst (fetch_data sv s) = fetch_result (sv_collate sv) (if sv_up sv then Some (sv_db sv) else None).
Proof.
  intros Hsch. destruct (sv_up sv) eqn:Hup.
  - by rewrite fetch_data_open.
  - unfold fetch_data, se_bind, connect. by rewrite Hup.
Qed.

(** C26: a run of [fetch_data] that returns has closed the connection and
    the cursor it opened and nothing else: the open handles are those
    before the run; it returns the pivot of the query's answer. *)
Theorem fetch_data_releases sv s d s' :
  dwf s -> fetch_data sv s = (Ok d, s') ->
  ds_open s' = ds_open s /\ d = pivot (run_query (sv_collate sv) (sv_db sv)).
Proof.
  intros Hwf. destruct (sv_up sv) eqn:Hup; [destruct (sv_schema sv) eqn:Hsch|].
  - rewrite fetch_data_open by done. unfold se_bind, close_cursor, close_conn, se_ret, set_open.
    cbn [ds_open fst snd connected]. intros [= <- <-]. split; [|done]. by apply close_both_keeps.
  - rewrite fetch_data_connected by done. unfold se_bind at 1, execute.
    by rewrite (cursor_open_connected s), Hsch.
  - unfold fetch_data, se_bind, connect. by rewrite Hup.
Qed.

(** C27: when the query fails (the schema lacks the tables), [execute]
    raises [ProgrammingError] and the run ends with the connection and
    the cursor it opened still open: [cur.close()] and [conn.close()]
    are not reached, as the source has no [try]/[finally]. *)
Theorem fetch_data_leaks_on_error sv s :
  sv_up sv = true -> sv_schema sv = false ->
  fetch_data sv s =
  (Err ProgrammingError,
   {| ds_open := ds_open s ++ [HConn (ds_next s); HCursor (S (ds_next s)) (ds_next s)];
      ds_next := S (S (ds_next s)); ds_results := ds_results s |}).
Proof.
  intros Hup Hsch. rewrite fetch_data_connected by done. unfold se_bind at 1, execute.
  by rewrite (cursor_open_connected s), Hsch.
Qed.

End Theory.

(** A server whose role has another password refuses [DB_CONFIG]:
    [connect] raises and nothing is opened. *)
Example fetch_data_rotated_password :
  fetch_data rotated_server initial_dstate = (Err OperationalError, initial_dstate).
Proof. vm_compute. reflexivity. Qed.

(** ** Witnesses *)

Lemma fetch_data_refines_witness :
  fst (fetch_data fixture_server initial_dstate) = fetch_result String.compare (Some fixture_db).
Proof. apply (fetch_data_refines fixture_server). reflexivity. Defined.

Lemma fetch_data_releases_witness :
  ds_open (snd (fetch_data fixture_server initial_dstate)) = [] /\
  fetch_data fixture_server initial_dstate
  = (Ok (pivot fixture_rows), snd (fetch_data fixture_server initial_dstate)).
Proof.
  assert (H : fetch_data fixture_server initial_dstate
              = (Ok (pivot fixture_rows), snd (fetch_data fixture_server initial_dstate)))
    by (vm_compute; reflexivity).
  split; [|exact H]. exact (proj1 (fetch_data_releases _ _ _ _ dwf_initial H)).
Defined.

Lemma fetch_data_leaks_on_error_witness :
  fetch_data broken_server initial_dstate
  = (Err ProgrammingError, {| ds_open := [HConn 0; HCursor 1 0]; ds_next := 2; ds_results := [] |}).
Proof. exact (fetch_data_leaks_on_error broken_server initial_dstate eq_refl eq_refl). Defined.

End Session.
