(* ===== verification/Docx.v ===== *)
(** * The document library: the part of python-docx the report calls

    The objects [create_report] builds ([Document], its sections, body
    paragraphs, runs, tables and the footer) as records, and the library
    calls it makes as functions on them.  A call that can raise returns a
    [result]: [add_picture] on an unreadable image, and a cell index out of
    range ([IndexError], as Python list indexing raises).  Lengths are in
    EMU, the unit python-docx stores ([Inches(1)] is 914400, [Pt(1)] is
    12700). *)

From S2P Require Import Prelude.
From Stdlib Require Import Ascii.

#[local] Open Scope Z_scope.

Module Docx.

(** [docx.shared.Inches] and [Pt] of whole numbers, and [Inches(1.1)],
    which python-docx truncates to an integer number of EMU. *)
Definition Inches (n : Z) : Z := n * 914400.
Definition Pt (n : Z) : Z := n * 12700.
Definition Inches_1_1 : Z := 1005840.

(** [WD_ALIGN_PARAGRAPH] and [WD_ORIENT] *)
Inductive align := ALIGN_LEFT | ALIGN_CENTER | ALIGN_RIGHT | ALIGN_JUSTIFY.
Inductive orientation := PORTRAIT | LANDSCAPE.

(** [section.orientation = 1]: the integer is read as a [WD_ORIENT] value. *)
Definition orientation_of_int (n : Z) : option orientation :=
  if n =? 0 then Some PORTRAIT else if n =? 1 then Some LANDSCAPE else None.

Record rgb := { red : Z; green : Z; blue : Z }.

(** A run holds text elements and pictures, in order. *)
Inductive run_item :=
| RText (t : string)
| RPicture (path : string) (width : Z).

Record run := {
  r_items : list run_item; r_bold : option bool; r_underline : option bool;
  r_size : option Z; r_color : option rgb
}.

(** Paragraph content: runs, and [w:fldSimple] fields holding runs. *)
Inductive inline :=
| IRun (r : run)
| IField (instr : string) (runs : list run).

(** [w:pBdr/w:bottom] with its attributes as written in the XML. *)
Record border := { b_val : string; b_sz : string; b_space : string; b_color : string }.

Record paragraph := {
  p_align : option align; p_bottom_border : option border; p_content : list inline
}.

(** A table: its style and the text of each cell, row by row. *)
Record table := { t_style : option string; t_cols : nat; t_rows : list (list string) }.

Inductive block := BPar (p : paragraph) | BTable (t : table).

(** A section: page setup and its footer definition ([None] while the
    footer is linked to the previous section, as in a new document). *)
Record section := {
  s_orientation : orientation; s_page_width : Z; s_page_height : Z;
  s_top_margin : Z; s_bottom_margin : Z; s_left_margin : Z; s_right_margin : Z;
  s_footer : option (list paragraph)
}.

Record document := { d_sections : list section; d_body : list block }.

(** ** The library's defaults *)

(** [Document()] opens python-docx's default template: one US Letter
    portrait section (8.5 x 11 inches) with 1-inch top and bottom and
    1.25-inch side margins, no footer of its own, and an empty body. *)
Definition default_section : section := {|
  s_orientation := PORTRAIT; s_page_width := 7772400; s_page_height := 10058400;
  s_top_margin := 914400; s_bottom_margin := 914400;
  s_left_margin := 1143000; s_right_margin := 1143000; s_footer := None
|}.

Definition new_document : document := {| d_sections := [default_section]; d_body := [] |}.

Definition empty_paragraph : paragraph :=
  {| p_align := None; p_bottom_border := None; p_content := [] |}.

Definition empty_run : run :=
  {| r_items := []; r_bold := None; r_underline := None; r_size := None; r_color := None |}.

(** ** Calls *)

(** [paragraph.add_run(text)]: a new run, holding the text if it is not
    empty. *)
Definition text_run (t : string) : run :=
  {| r_items := if decide (t = ""%string) then [] else [RText t];
     r_bold := None; r_underline := None; r_size := None; r_color := None |}.

(** [doc.add_paragraph(text)]: a new paragraph at the end of the body, with
    one run holding [text] when it is not empty. *)
Definition new_paragraph (t : string) : paragraph :=
  {| p_align := None; p_bottom_border := None;
     p_content := if decide (t = ""%string) then [] else [IRun (text_run t)] |}.

Definition add_block (b : block) (doc : document) : document :=
  {| d_sections := d_sections doc; d_body := d_body doc ++ [b] |}.

(** [run.add_text(t)] appends a text element, even an empty one. *)
Definition run_add_text (t : string) (r : run) : run :=
  {| r_items := r_items r ++ [RText t]; r_bold := r_bold r; r_underline := r_underline r;
     r_size := r_size r; r_color := r_color r |}.

(** [run.add_picture(path, width=w)]: reads the image file, which raises
    when it is missing or not an image; [readable] is the set of image
    files that load. *)
Definition run_add_picture (readable : gset string) (path : string) (w : Z) (r : run)
    : result py_exc run :=
  if decide (path ∈ readable) then
    Ok {| r_items := r_items r ++ [RPicture path w]; r_bold := r_bold r;
          r_underline := r_underline r; r_size := r_size r; r_color := r_color r |}
  else Err (ImageError path).

(** [doc.add_table(rows=n, cols=m)]: [n] rows of [m] empty cells. *)
Definition new_table (n m : nat) : table :=
  {| t_style := None; t_cols := m; t_rows := replicate n (replicate m ""%string) |}.

(** [table.add_row()]: a row of empty cells, one per grid column. *)
Definition table_add_row (t : table) : table :=
  {| t_style := t_style t; t_cols := t_cols t; t_rows := t_rows t ++ [replicate (t_cols t) ""%string] |}.

(** [table.rows[i].cells[j].text = s], which raises [IndexError] when a
    position does not exist. *)
Definition set_cell (i j : nat) (s : string) (t : table) : result py_exc table :=
  match t_rows t !! i with
  | Some row =>
      if (j <? length row)%nat then
        Ok {| t_style := t_style t; t_cols := t_cols t; t_rows := <[i := <[j := s]> row]> (t_rows t) |}
      else Err IndexError
  | None => Err IndexError
  end.

End Docx.
