(* ===== verification/Render.v ===== *)
(** * The renderer: the document [create_report] builds

    The statements of [create_report] and [add_footer] of
    src/gen_report.py from [doc = Document()] to the footer, as functions
    on the [Docx.document] they build: page setup of every section, the
    fixed header block, one heading, table and spacer per crop of the
    pivoted data, and the footer with the date and the page field.  The
    source mutates each new paragraph right after adding it to the body;
    nothing else is added in between, so the model builds the paragraph and
    then appends it.  Calls that can raise thread a [result]. *)

From S2P Require Import Prelude PyStr Loader Docx.
From Stdlib Require Import Ascii.

#[local] Open Scope Z_scope.
#[local] Open Scope string_scope.

Module Render.
Import PyStr Loader Docx ResultNotations.
#[local] Open Scope py_scope.

Section Render.
Context {Num : Type} `{!PyStr Num}.

(** ** Page setup (the loop over [doc.sections]) *)
Definition setup_section (orientation : string) (s : section) : section :=
  let s := {| s_orientation := s_orientation s; s_page_width := s_page_width s;
              s_page_height := s_page_height s;
              s_top_margin := Inches 1; s_bottom_margin := Inches 1;
              s_left_margin := Inches 1; s_right_margin := Inches 1;
              s_footer := s_footer s |} in
  if decide (py_upper orientation = "LANDSCAPE") then
    (* section.orientation = 1; width and height swapped *)
    {| s_orientation := LANDSCAPE; s_page_width := s_page_height s;
       s_page_height := s_page_width s;
       s_top_margin := s_top_margin s; s_bottom_margin := s_bottom_margin s;
       s_left_margin := s_left_margin s; s_right_margin := s_right_margin s;
       s_footer := s_footer s |}
  else s.

Definition map_sections (f : section -> section) (doc : document) : document :=
  {| d_sections := f <$> d_sections doc; d_body := d_body doc |}.

(** ** Paragraph and run attributes *)
Definition set_align (a : align) (p : paragraph) : paragraph :=
  {| p_align := Some a; p_bottom_border := p_bottom_border p; p_content := p_content p |}.

Definition set_bold (b : bool) (r : run) : run :=
  {| r_items := r_items r; r_bold := Some b; r_underline := r_underline r;
     r_size := r_size r; r_color := r_color r |}.
Definition set_underline (b : bool) (r : run) : run :=
  {| r_items := r_items r; r_bold := r_bold r; r_underline := Some b;
     r_size := r_size r; r_color := r_color r |}.
Definition set_size (n : Z) (r : run) : run :=
  {| r_items := r_items r; r_bold := r_bold r; r_underline := r_underline r;
     r_size := Some n; r_color := r_color r |}.
Definition set_color (c : rgb) (r : run) : run :=
  {| r_items := r_items r; r_bold := r_bold r; r_underline := r_underline r;
     r_size := r_size r; r_color := Some c |}.

(** [p.add_run(text)] *)
Definition add_run (t : string) (p : paragraph) : paragraph :=
  {| p_align := p_align p; p_bottom_border := p_bottom_border p;
     p_content := p_content p ++ [IRun (text_run t)] |}.

(** [p.runs[0].<attribute> = ...]: [IndexError] on a paragraph without runs. *)
Fixpoint update_first_run (f : run -> run) (c : list inline) : result py_exc (list inline) :=
  match c with
  | [] => Err IndexError
  | IRun r :: c' => Ok (IRun (f r) :: c')
  | i :: c' => c'' <- update_first_run f c' ;;; Ok (i :: c'')
  end.

Definition update_run0 (f : run -> run) (p : paragraph) : result py_exc paragraph :=
  c <- update_first_run f (p_content p) ;;;
  Ok {| p_align := p_align p; p_bottom_border := p_bottom_border p; p_content := c |}.

(** ** The header block *)
Definition add_logo (readable : gset string) (logo_path : string) (doc : document)
    : result py_exc document :=
  r <- run_add_picture readable logo_path Inches_1_1 empty_run ;;;
  Ok (add_block (BPar {| p_align := Some ALIGN_CENTER; p_bottom_border := None;
                         p_content := [IRun r] |}) doc).

Definition title_paragraph : result py_exc paragraph :=
  let p := set_align ALIGN_CENTER
             (new_paragraph "IDEAS - Institute of Data Engineering, Analytics and Science Foundation") in
  p <- update_run0 (set_size (Pt 12)) p ;;;
  update_run0 (set_bold true) p.

Definition subtitle_paragraph : result py_exc paragraph :=
  update_run0 (set_size (Pt 9))
    (set_align ALIGN_CENTER (new_paragraph "ISI Kolkata | https://www.ideas-tih.org | +91 6289351800")).

(** The horizontal rule: an empty paragraph with a bottom border. *)
Definition hr_paragraph : paragraph :=
  {| p_align := None; p_content := [];
     p_bottom_border := Some {| b_val := "single"; b_sz := "12"; b_space := "1"; b_color := "auto" |} |}.

Definition heading_paragraph : paragraph :=
  {| p_align := Some ALIGN_CENTER; p_bottom_border := None;
     p_content := [IRun (set_size (Pt 14) (set_bold true (text_run "Crop wise Yield forecasts")))] |}.

(** ** One section per crop *)
Definition crop_heading (crop : string) : paragraph :=
  {| p_align := Some ALIGN_CENTER; p_bottom_border := None;
     p_content := [IRun (set_color {| red := 0; green := 102; blue := 204 |}
                          (set_size (Pt 12) (set_underline true (set_bold true
                             (text_run (py_upper crop))))))] |}.

Definition headers : list string :=
  ["State"; "2024-25 ARIMA"; "ARIMA RMSE"; "2024-25 XGBoost"; "XGBoost RMSE";
   "2024-25 RF"; "RF RMSE"; "2023-24 MoA&FW"; "2022-23 MoA&FW"].

Definition sub_headers : list string :=
  [""; "(Yield)"; "(RMSE)"; "(Yield)"; "(RMSE)"; "(Yield)"; "(RMSE)"; ""; ""].

(** [for i, text in enumerate(texts): table.rows[r].cells[i].text = text],
    from position [j] on. *)
Fixpoint fill_from (r j : nat) (texts : list string) (t : table) : result py_exc table :=
  match texts with
  | [] => Ok t
  | x :: xs => t <- set_cell r j x t ;;; fill_from r (S j) xs t
  end.

(** [str(years.get(y, {}).get(m, ""))] *)
Definition cell_text (years : year_dict Num) (y : Z) (m : string) : string :=
  match dict_get m (dict_get_or y [] years) with
  | Some v => py_str v
  | None => py_str ""
  end.

(** [row = table.add_row().cells] and the nine cell assignments. *)
Definition fill_state_row (t : table) (state : string) (years : year_dict Num)
    : result py_exc table :=
  let t := table_add_row t in
  let i := pred (length (t_rows t)) in
  t <- set_cell i 0 state t ;;;
  t <- set_cell i 1 (cell_text years 2024 "ARIMA") t ;;;
  t <- set_cell i 2 (cell_text years 2024 "ARIMA_RMSE") t ;;;
  t <- set_cell i 3 (cell_text years 2024 "XGBoost") t ;;;
  t <- set_cell i 4 (cell_text years 2024 "XGBoost_RMSE") t ;;;
  t <- set_cell i 5 (cell_text years 2024 "Random Forest") t ;;;
  t <- set_cell i 6 (cell_text years 2024 "RF_RMSE") t ;;;
  t <- set_cell i 7 (cell_text years 2023 "MoA&FW") t ;;;
  set_cell i 8 (cell_text years 2022 "MoA&FW") t.

(** [for state, years in states.items(): ...] *)
Fixpoint fill_states (states : state_dict Num) (t : table) : result py_exc table :=
  match states with
  | [] => Ok t
  | (state, years) :: rest => t <- fill_state_row t state years ;;; fill_states rest t
  end.

Definition crop_table (states : state_dict Num) : result py_exc table :=
  let t := new_table 2 9 in
  let t := {| t_style := Some "Table Grid"; t_cols := t_cols t; t_rows := t_rows t |} in
  t <- fill_from 0 0 headers t ;;;
  t <- fill_from 1 0 sub_headers t ;;;
  fill_states states t.

(** The body of the loop [for crop, states in data.items()]. *)
Definition add_crop_section (doc : document) (crop : string) (states : state_dict Num)
    : result py_exc document :=
  let doc := add_block (BPar (crop_heading crop)) doc in
  t <- crop_table states ;;;
  Ok (add_block (BPar (new_paragraph "")) (add_block (BTable t) doc)).

Fixpoint add_crop_sections (data : yield_table_of Num) (doc : document) : result py_exc document :=
  match data with
  | [] => Ok doc
  | (crop, states) :: rest => doc <- add_crop_section doc crop states ;;; add_crop_sections rest doc
  end.

(** ** The footer ([add_footer]) *)
Definition copyright : string := "© 2025 IDEAS-TIH. All rights reserved. | ".

Definition footer_paragraph (today : date) (p : paragraph) : paragraph :=
  let r := run_add_text ("Date: " ++ strftime_dmy today ++ " | ") (text_run copyright) in
  {| p_align := Some ALIGN_CENTER; p_bottom_border := p_bottom_border p;
     p_content := p_content p ++ [IRun r; IField "PAGE" [text_run "Page "]] |}.

(** [doc.sections[0].footer.paragraphs[0]]: reading the paragraphs of a
    linked footer first gives the section a footer of its own, holding
    one empty paragraph. *)
Definition add_footer (today : date) (doc : document) : result py_exc document :=
  match d_sections doc with
  | [] => Err IndexError
  | s :: ss =>
      match default [empty_paragraph] (s_footer s) with
      | [] => Err IndexError
      | p :: ps =>
          let s' := {| s_orientation := s_orientation s; s_page_width := s_page_width s;
                       s_page_height := s_page_height s; s_top_margin := s_top_margin s;
                       s_bottom_margin := s_bottom_margin s; s_left_margin := s_left_margin s;
                       s_right_margin := s_right_margin s;
                       s_footer := Some (footer_paragraph today p :: ps) |} in
          Ok {| d_sections := s' :: ss; d_body := d_body doc |}
      end
  end.

(** ** The whole document, from [Document()] to [add_footer(doc)] *)
Definition build_document (readable : gset string) (data : yield_table_of Num)
    (orientation logo_path : string) (today : date) : result py_exc document :=
  let doc := map_sections (setup_section orientation) new_document in
  doc <- add_logo readable logo_path doc ;;;
  title <- title_paragraph ;;;
  let doc := add_block (BPar title) doc in
  subtitle <- subtitle_paragraph ;;;
  let doc := add_block (BPar subtitle) doc in
  let doc := add_block (BPar (new_paragraph "")) doc in
  let doc := add_block (BPar hr_paragraph) doc in
  let doc := add_block (BPar heading_paragraph) doc in
  doc <- add_crop_sections data doc ;;;
  add_footer today doc.
End Render.

(** ** The document the code is meant to produce, stated declaratively *)
Section Spec.
Context {Num : Type} `{!PyStr Num}.

(** The year and method read for each value column, in column order. *)
Definition row_spec : list (Z * string) :=
  [(2024, "ARIMA"); (2024, "ARIMA_RMSE"); (2024, "XGBoost"); (2024, "XGBoost_RMSE");
   (2024, "Random Forest"); (2024, "RF_RMSE"); (2023, "MoA&FW"); (2022, "MoA&FW")].

Definition state_row (state : string) (years : year_dict Num) : list string :=
  state :: ((fun '(y, m) => cell_text years y m) <$> row_spec).

Definition crop_table_spec (states : state_dict Num) : table :=
  {| t_style := Some "Table Grid"; t_cols := 9;
     t_rows := headers :: sub_headers :: ((fun e => state_row e.1 e.2) <$> states) |}.

Definition crop_blocks (e : string * state_dict Num) : list block :=
  [BPar (crop_heading e.1); BTable (crop_table_spec e.2); BPar (new_paragraph "")].

Definition logo_paragraph (logo_path : string) : paragraph :=
  {| p_align := Some ALIGN_CENTER; p_bottom_border := None;
     p_content := [IRun {| r_items := [RPicture logo_path Inches_1_1]; r_bold := None;
                           r_underline := None; r_size := None; r_color := None |}] |}.

Definition title_spec : paragraph :=
  {| p_align := Some ALIGN_CENTER; p_bottom_border := None;
     p_content := [IRun (set_bold true (set_size (Pt 12)
       (text_run "IDEAS - Institute of Data Engineering, Analytics and Science Foundation")))] |}.

Definition subtitle_spec : paragraph :=
  {| p_align := Some ALIGN_CENTER; p_bottom_border := None;
     p_content := [IRun (set_size (Pt 9)
       (text_run "ISI Kolkata | https://www.ideas-tih.org | +91 6289351800"))] |}.

Definition header_blocks (logo_path : string) : list block :=
  [BPar (logo_paragraph logo_path); BPar title_spec; BPar subtitle_spec;
   BPar (new_paragraph ""); BPar hr_paragraph; BPar heading_paragraph].

Definition with_footer (ps : list paragraph) (s : section) : section :=
  {| s_orientation := s_orientation s; s_page_width := s_page_width s;
     s_page_height := s_page_height s; s_top_margin := s_top_margin s;
     s_bottom_margin := s_bottom_margin s; s_left_margin := s_left_margin s;
     s_right_margin := s_right_margin s; s_footer := Some ps |}.

Definition report_spec (data : yield_table_of Num) (orientation logo_path : string)
    (today : date) : document :=
  {| d_sections := [with_footer [footer_paragraph today empty_paragraph]
                      (setup_section orientation default_section)];
     d_body := header_blocks logo_path ++ mjoin (crop_blocks <$> data) |}.

(** The text a cell shows for key [(c, s, y, m)] of the pivoted data. *)
Definition cell_of (data : yield_table_of Num) (c s : string) (y : Z) (m : string) : string :=
  match lookup4 data (c, s, y, m) with Some v => py_str v | None => "" end.

(** The text of a paragraph outside fields, and the fields with the text
    of their result runs. *)
Definition run_text (r : run) : string :=
  String.concat "" ((fun i => match i with RText t => t | RPicture _ _ => "" end) <$> r_items r).

Definition plain_text (p : paragraph) : string :=
  String.concat "" ((fun i => match i with IRun r => run_text r | IField _ _ => "" end) <$> p_content p).

Definition fields (p : paragraph) : list (string * string) :=
  omap (fun i => match i with
                 | IField instr rs => Some (instr, String.concat "" (run_text <$> rs))
                 | IRun _ => None end) (p_content p).
(** How a reader finds the crop sections of a saved report: each table of
    the body with the paragraph just before it, read as that paragraph's
    text and the first cell of each row after the two header rows. *)
Fixpoint body_sections (bs : list block) : list (string * list string) :=
  match bs with
  | [] => []
  | BPar p :: rest =>
      match rest with
      | BTable t :: rest' =>
          (plain_text p, (fun row => default "" (head row)) <$> drop 2 (t_rows t)) :: body_sections rest'
      | _ => body_sections rest
      end
  | BTable _ :: rest => body_sections rest
  end.

End Spec.

Section Theory.
Context {Num : Type} `{!PyStr Num}.
Implicit Types (years : year_dict Num) (states : state_dict Num) (data : yield_table_of Num).

Lemma set_cell_snoc sty cols rows row j x :
  set_cell (length rows) j x {| t_style := sty; t_cols := cols; t_rows := rows ++ [row] |}
  = if (j <? length row)%nat
    then Ok {| t_style := sty; t_cols := cols; t_rows := rows ++ [<[j := x]> row] |}
    else Err IndexError.
Proof.
  unfold set_cell. cbn [t_rows t_style t_cols]. rewrite list_lookup_middle by done.
  destruct (j <? length row)%nat; [|done]. rewrite insert_app_r_alt, Nat.sub_diag by lia. done.
Qed.

(** One state row: appended whole, never an [IndexError]. *)
Lemma fill_state_row_ok sty rows state years :
  fill_state_row {| t_style := sty; t_cols := 9; t_rows := rows |} state years
  = Ok {| t_style := sty; t_cols := 9; t_rows := rows ++ [state_row state years] |}.
Proof.
  unfold fill_state_row, table_add_row. cbn [t_rows t_style t_cols].
  rewrite length_app, Nat.add_1_r. cbn [pred].
  repeat (rewrite set_cell_snoc; simpl).
  reflexivity.
Qed.

Lemma cell_text_lookup years y m :
  cell_text years y m = match dict_get y years ≫= dict_get m with Some v => py_str v | None => "" end.
Proof. unfold cell_text, dict_get_or. by destruct (dict_get y years). Qed.

Lemma state_row_cell_of data c s sd years :
  dict_get c data = Some sd -> dict_get s sd = Some years ->
  state_row s years = s :: ((fun '(y, m) => cell_of data c s y m) <$> row_spec).
Proof.
  intros Hc Hs. unfold state_row, cell_of, lookup4. rewrite Hc; cbn [mbind option_bind].
  rewrite Hs; cbn [mbind option_bind]. cbn [fmap list_fmap row_spec].
  by rewrite !cell_text_lookup.
Qed.

(** C7: [fill_state_row] for state [s] of crop [c] appends one row to the
    crop's table, never raising [IndexError]: the state's name, then in
    column [j] the text of the value stored under [(c, s, year, method)]
    for the year and method that column's header names ([row_spec]), or
    the empty string when no value is stored: nothing is estimated,
    omitted or moved to another column. *)
Theorem fill_state_row_cells data c s sd years sty rows :
  dict_get c data = Some sd -> dict_get s sd = Some years ->
  fill_state_row {| t_style := sty; t_cols := 9; t_rows := rows |} s years
  = Ok {| t_style := sty; t_cols := 9;
          t_rows := rows ++ [s :: ((fun '(y, m) => cell_of data c s y m) <$> row_spec)] |}.
Proof. intros Hc Hs. rewrite <- (state_row_cell_of data c s sd years Hc Hs). apply fill_state_row_ok. Qed.

Lemma fill_states_ok sty rows states :
  fill_states states {| t_style := sty; t_cols := 9; t_rows := rows |}
  = Ok {| t_style := sty; t_cols := 9;
          t_rows := rows ++ ((fun e => state_row e.1 e.2) <$> states) |}.
Proof.
  revert rows. induction states as [|[state years] states IH]; intros rows.
  - by rewrite app_nil_r.
  - cbn [fill_states]. rewrite fill_state_row_ok. cbn [result_bind]. rewrite IH.
    by rewrite <- app_assoc.
Qed.

Lemma crop_table_ok states : crop_table states = Ok (crop_table_spec states).
Proof. unfold crop_table. cbn -[fill_states]. by rewrite fill_states_ok. Qed.

Lemma add_crop_sections_ok data doc :
  add_crop_sections data doc
  = Ok {| d_sections := d_sections doc; d_body := d_body doc ++ mjoin (crop_blocks <$> data) |}.
Proof.
  revert doc. induction data as [|[crop states] data IH]; intros doc.
  - destruct doc. by rewrite app_nil_r.
  - cbn [add_crop_sections]. unfold add_crop_section. rewrite crop_table_ok.
    cbn [result_bind]. rewrite IH. cbn. by rewrite <- !app_assoc.
Qed.

Lemma body_sections_skip p rest :
  match rest with BTable _ :: _ => False | _ => True end ->
  body_sections (BPar p :: rest) = body_sections rest.
Proof. destruct rest as [|[] ?]; done. Qed.

Lemma body_sections_table p t rest :
  body_sections (BPar p :: BTable t :: rest)
  = (plain_text p, (fun row => default "" (head row)) <$> drop 2 (t_rows t)) :: body_sections rest.
Proof. reflexivity. Qed.

Lemma plain_text_crop_heading c : plain_text (crop_heading c) = py_upper c.
Proof. unfold crop_heading, text_run. case_decide as Hc; [by rewrite Hc|reflexivity]. Qed.

Lemma body_sections_crops (data : yield_table_of Num) :
  body_sections (mjoin (crop_blocks <$> data)) = (fun e => (py_upper e.1, dict_keys e.2)) <$> data.
Proof.
  induction data as [|[cr sd] data IH]; [done|].
  change (mjoin (crop_blocks <$> (cr, sd) :: data))
    with (crop_blocks (cr, sd) ++ mjoin (crop_blocks <$> data))%list.
  cbn [crop_blocks app]. rewrite body_sections_table, body_sections_skip, IH.
  - rewrite fmap_cons. cbn [fst snd]. rewrite plain_text_crop_heading. f_equal. f_equal.
    cbn [crop_table_spec t_rows drop]. unfold dict_keys. rewrite drop_0, <- list_fmap_compose.
    by apply list_fmap_ext; intros ? [].
  - destruct data; done.
Qed.

Lemma title_paragraph_ok : title_paragraph = Ok title_spec.
Proof. reflexivity. Qed.

Lemma subtitle_paragraph_ok : subtitle_paragraph = Ok subtitle_spec.
Proof. reflexivity. Qed.

(** With a readable logo the document is [report_spec]; otherwise
    [add_picture] raises. *)
Lemma build_document_readable readable data orientation logo_path today :
  logo_path ∈ readable ->
  build_document readable data orientation logo_path today = Ok (report_spec data orientation logo_path today).
Proof.
  intros Hl. unfold build_document, add_logo, run_add_picture. rewrite decide_True by done.
  cbn [result_bind]. rewrite title_paragraph_ok, subtitle_paragraph_ok; cbn [result_bind].
  rewrite add_crop_sections_ok; cbn [result_bind].
  unfold add_footer, report_spec, map_sections, new_document. cbn.
  unfold setup_section. by case_decide.
Qed.

Lemma build_document_unreadable readable data orientation logo_path today :
  logo_path ∉ readable ->
  build_document readable data orientation logo_path today = Err (ImageError logo_path).
Proof. intros Hl. unfold build_document, add_logo, run_add_picture. by rewrite decide_False. Qed.

Lemma build_document_Ok readable data orientation logo_path today doc :
  build_document readable data orientation logo_path today = Ok doc ->
  doc = report_spec data orientation logo_path today.
Proof.
  destruct (decide (logo_path ∈ readable)).
  - rewrite build_document_readable by done. by intros [= <-].
  - by rewrite build_document_unreadable.
Qed.

(** Where a stored value shows in the report: in the table after the
    heading of its crop, in the row that starts with its state, in the
    column whose year and method are its own. *)
Lemma report_spec_cell data orientation logo_path today c s y m v (k : nat) :
  lookup4 data (c, s, y, m) = Some v -> row_spec !! k = Some (y, m) ->
  exists bs1 tbl bs2 row,
    d_body (report_spec data orientation logo_path today)
      = (bs1 ++ BPar (crop_heading c) :: BTable tbl :: bs2)%list /\
    row ∈ t_rows tbl /\ row !! 0%nat = Some s /\ row !! S k = Some (py_str v).
Proof.
  unfold lookup4. intros Hl Hk.
  destruct (dict_get c data) as [sd|] eqn:Hc; [|done]. cbn [mbind option_bind] in Hl.
  destruct (dict_get s sd) as [years|] eqn:Hs; [|done]. cbn [mbind option_bind] in Hl.
  apply dict_get_Some, list_elem_of_split in Hc as (d1 & d2 & ->).
  exists (header_blocks logo_path ++ mjoin (crop_blocks <$> d1))%list, (crop_table_spec sd),
         (BPar (new_paragraph "") :: mjoin (crop_blocks <$> d2)), (state_row s years).
  split_and!.
  - unfold report_spec. cbn [d_body]. rewrite fmap_app, fmap_cons, join_app.
    change (mjoin (?x :: ?l)) with (x ++ mjoin l)%list. unfold crop_blocks.
    by rewrite <- !app_assoc.
  - do 2 right. apply list_elem_of_fmap_2' with (x := (s, years)); [by apply dict_get_Some|done].
  - done.
  - unfold state_row. change ((?a :: ?l) !! S k) with (l !! k).
    rewrite list_lookup_fmap, Hk. cbn -[cell_text]. rewrite cell_text_lookup.
    destruct (dict_get y years); cbn in Hl |- *; [by rewrite Hl|done].
Qed.

(** C1: [create_report] builds, from the pivoted data, exactly the
    document of [report_spec]: the page setup, the six header paragraphs,
    then per crop in the data's order its upper-case heading, its table
    (two header rows and one row per state of the crop, in order) and a
    spacer, and the footer; the only way it fails is an unreadable logo,
    which raises before any output exists. *)
Theorem build_document_spec readable data orientation logo_path today :
  build_document readable data orientation logo_path today =
  if decide (logo_path ∈ readable) then Ok (report_spec data orientation logo_path today)
  else Err (ImageError logo_path).
Proof.
  case_decide; [by apply build_document_readable|by apply build_document_unreadable].
Qed.

(** C10: every section of the document has 1-inch margins, and is landscape
    with its width above its height when [orientation.upper()] is
    ["LANDSCAPE"], portrait with its height above its width otherwise. *)
Theorem build_document_orientation readable data orientation logo_path today doc :
  build_document readable data orientation logo_path today = Ok doc ->
  Forall (fun s =>
    s_top_margin s = Inches 1 /\ s_bottom_margin s = Inches 1 /\
    s_left_margin s = Inches 1 /\ s_right_margin s = Inches 1 /\
    if decide (py_upper orientation = "LANDSCAPE")
    then s_orientation s = LANDSCAPE /\ s_page_height s < s_page_width s
    else s_orientation s = PORTRAIT /\ s_page_width s < s_page_height s) (d_sections doc).
Proof.
  intros ->%build_document_Ok.
  constructor; [|constructor]. unfold with_footer, setup_section. cbn.
  case_decide; cbn; split_and!; try done; unfold Inches; lia.
Qed.

(** C11: the document has one footer, on its only section, with one
    centred paragraph: outside fields it reads the copyright notice and
    [Date: DD-MM-YYYY | ], and it has one field, [PAGE], whose result
    text is ["Page "]. *)
Theorem build_document_footer readable data orientation logo_path today doc :
  build_document readable data orientation logo_path today = Ok doc ->
  exists s p, d_sections doc = [s] /\ s_footer s = Some [p] /\
    p_align p = Some ALIGN_CENTER /\
    plain_text p = copyright ++ "Date: " ++ strftime_dmy today ++ " | " /\
    fields p = [("PAGE", "Page ")].
Proof.
  intros ->%build_document_Ok.
  eexists _, _. split_and!; try reflexivity. unfold plain_text. cbn.
  by rewrite !str_app_nil_r.
Qed.

(** C28: the crop sections a reader finds in the body of the document
    [build_document] returns: one per crop of the data, in the data's
    order, headed by the crop's name in upper case, its table listing the
    crop's states in the data's order; the header block adds none. *)
Theorem report_sections readable data orientation logo_path today doc :
  build_document readable data orientation logo_path today = Ok doc ->
  body_sections (d_body doc) = (fun e => (py_upper e.1, dict_keys e.2)) <$> data.
Proof.
  intros ->%build_document_Ok. unfold report_spec, header_blocks. cbn [d_body app].
  rewrite !body_sections_skip; [apply body_sections_crops|..]; by destruct data.
Qed.

End Theory.

(** C29: the yield cells of the report lose nothing: two cells show the
    same text only when they hold the same thing, the same [Decimal]
    (sign, digits and exponent), the same SQL [NULL] (shown as [None]), or
    no value at all (shown empty).  [str()] of a [Decimal] reads back as
    that decimal, and no decimal prints as [None] or as the empty text. *)
Theorem cell_text_injective (years years' : year_dict decimal) y y' m m' :
  cell_text years y m = cell_text years' y' m' ->
  dict_get y years ≫= dict_get m = dict_get y' years' ≫= dict_get m'.
Proof.
  rewrite !cell_text_lookup. unfold py_str, py_str_option, py_str_decimal, py_str_string.
  destruct (dict_get y years ≫= dict_get m) as [[d|]|], (dict_get y' years' ≫= dict_get m') as [[d'|]|];
    intros H; try done; apply (f_equal dec_parse) in H; rewrite ?dec_str_roundtrip in H;
    vm_compute in H; congruence.
Qed.

(** ** Witnesses, on the loader's fixture with integer values *)

Lemma build_document_orientation_witness :
  build_document {["logo.png"]} (pivot fixture_rows) "landscape" "logo.png"
    {| dt_day := 9; dt_month := 11; dt_year := 2026 |}
  = Ok (report_spec (pivot fixture_rows) "landscape" "logo.png"
          {| dt_day := 9; dt_month := 11; dt_year := 2026 |}) /\
  Forall (fun s =>
    s_top_margin s = Inches 1 /\ s_bottom_margin s = Inches 1 /\
    s_left_margin s = Inches 1 /\ s_right_margin s = Inches 1 /\
    if decide (py_upper "landscape" = "LANDSCAPE")
    then s_orientation s = LANDSCAPE /\ s_page_height s < s_page_width s
    else s_orientation s = PORTRAIT /\ s_page_width s < s_page_height s)
    (d_sections (report_spec (pivot fixture_rows) "landscape" "logo.png"
                   {| dt_day := 9; dt_month := 11; dt_year := 2026 |})).
Proof.
  assert (H : build_document {["logo.png"]} (pivot fixture_rows) "landscape" "logo.png"
                {| dt_day := 9; dt_month := 11; dt_year := 2026 |}
              = Ok (report_spec (pivot fixture_rows) "landscape" "logo.png"
                      {| dt_day := 9; dt_month := 11; dt_year := 2026 |}))
    by (vm_compute; reflexivity).
  split; [exact H|]. apply (build_document_orientation _ _ _ _ _ _ H).
Defined.

Lemma build_document_footer_witness :
  build_document {["logo.png"]} (pivot fixture_rows) "PORTRAIT" "logo.png"
    {| dt_day := 9; dt_month := 11; dt_year := 2026 |}
  = Ok (report_spec (pivot fixture_rows) "PORTRAIT" "logo.png"
          {| dt_day := 9; dt_month := 11; dt_year := 2026 |}) /\
  exists s p, d_sections (report_spec (pivot fixture_rows) "PORTRAIT" "logo.png"
                            {| dt_day := 9; dt_month := 11; dt_year := 2026 |}) = [s] /\
    s_footer s = Some [p] /\ p_align p = Some ALIGN_CENTER /\
    plain_text p = copyright ++ "Date: " ++ strftime_dmy {| dt_day := 9; dt_month := 11; dt_year := 2026 |} ++ " | " /\
    fields p = [("PAGE", "Page ")].
Proof.
  assert (H : build_document {["logo.png"]} (pivot fixture_rows) "PORTRAIT" "logo.png"
                {| dt_day := 9; dt_month := 11; dt_year := 2026 |}
              = Ok (report_spec (pivot fixture_rows) "PORTRAIT" "logo.png"
                      {| dt_day := 9; dt_month := 11; dt_year := 2026 |}))
    by (vm_compute; reflexivity).
  split; [exact H|]. apply (build_document_footer _ _ _ _ _ _ H).
Defined.

Lemma fill_state_row_cells_witness :
  dict_get "Wheat" (pivot fixture_rows) = Some (default [] (dict_get "Wheat" (pivot fixture_rows))) /\
  dict_get "Bihar" (default [] (dict_get "Wheat" (pivot fixture_rows)))
  = Some (default [] (dict_get "Bihar" (default [] (dict_get "Wheat" (pivot fixture_rows))))) /\
  fill_state_row {| t_style := Some "Table Grid"; t_cols := 9; t_rows := [headers; sub_headers] |} "Bihar"
    (default [] (dict_get "Bihar" (default [] (dict_get "Wheat" (pivot fixture_rows)))))
  = Ok {| t_style := Some "Table Grid"; t_cols := 9;
          t_rows := [headers; sub_headers] ++
                    ["Bihar" :: ((fun '(y, m) => cell_of (pivot fixture_rows) "Wheat" "Bihar" y m) <$> row_spec)] |}.
Proof.
  assert (H1 : dict_get "Wheat" (pivot fixture_rows)
               = Some (default [] (dict_get "Wheat" (pivot fixture_rows)))) by (vm_compute; reflexivity).
  assert (H2 : dict_get "Bihar" (default [] (dict_get "Wheat" (pivot fixture_rows)))
               = Some (default [] (dict_get "Bihar" (default [] (dict_get "Wheat" (pivot fixture_rows))))))
    by (vm_compute; reflexivity).
  split_and!; [exact H1|exact H2|]. apply (fill_state_row_cells _ _ _ _ _ _ _ H1 H2).
Defined.

Lemma report_sections_witness :
  build_document {["logo.png"]} (pivot fixture_rows) "PORTRAIT" "logo.png"
    {| dt_day := 9; dt_month := 11; dt_year := 2026 |}
  = Ok (report_spec (pivot fixture_rows) "PORTRAIT" "logo.png" {| dt_day := 9; dt_month := 11; dt_year := 2026 |}) /\
  body_sections (d_body (report_spec (pivot fixture_rows) "PORTRAIT" "logo.png"
                           {| dt_day := 9; dt_month := 11; dt_year := 2026 |}))
  = (fun e => (py_upper e.1, dict_keys e.2)) <$> pivot fixture_rows.
Proof.
  assert (H : build_document {["logo.png"]} (pivot fixture_rows) "PORTRAIT" "logo.png"
                {| dt_day := 9; dt_month := 11; dt_year := 2026 |}
              = Ok (report_spec (pivot fixture_rows) "PORTRAIT" "logo.png"
                      {| dt_day := 9; dt_month := 11; dt_year := 2026 |})) by (vm_compute; reflexivity).
  split; [exact H|]. exact (report_sections _ _ _ _ _ _ H).
Defined.

Lemma cell_text_injective_witness :
  let years : year_dict decimal := [(2024, [("ARIMA", Some (DecFinite false 32 (-1)))])] in
  let years' : year_dict decimal :=
    [(2023, []); (2024, [("XGBoost", None); ("ARIMA", Some (DecFinite false 32 (-1)))])] in
  cell_text years 2024 "ARIMA" = cell_text years' 2024 "ARIMA" /\
  dict_get 2024 years ≫= dict_get "ARIMA" = dict_get 2024 years' ≫= dict_get "ARIMA".
Proof.
  cbv zeta. split; [reflexivity|]. apply cell_text_injective. reflexivity.
Defined.

End Render.
