(* ===== verification/Report.v ===== *)
(** * The run: [create_report] with its effects

    [create_report] of src/gen_report.py as a computation on the world it
    touches: the database it reads, the image files [add_picture] can
    load, the files [doc.save] writes, the clock [datetime.now()] reads,
    standard output, and the help text argparse would print there.  A small state-and-error monad threads the world; an
    exception ends the run with the world as it is at that point. *)

From S2P Require Import Prelude PyStr Loader Docx Render.

#[local] Open Scope string_scope.

Module Report.
Import PyStr Loader Docx Render.

Record world := {
  w_db : option (@database decimal);  (* [None]: psycopg2.connect fails *)
  w_collate : string -> string -> comparison;  (* the database's collation *)
  w_images : gset string;               (* image files that load *)
  w_unwritable : gset string;           (* output paths [doc.save] cannot write *)
  w_files : gmap string document;       (* documents written so far *)
  w_clock : date;                       (* datetime.now() *)
  w_stdout : list string;               (* what was written to standard output *)
  w_help : string                       (* parser.format_help() in this environment *)
}.

(** ** The monad: the prelude's state-and-error monad over the world *)
Definition M (A : Type) : Type := SE world A.

Import SENotations.
#[local] Open Scope py_scope.

(** ** Effects *)
Definition fetch_data_m : M (yield_table_of decimal) :=
  fun w => (fetch_result (w_collate w) (w_db w), w).

Definition now : M date := fun w => (Ok (w_clock w), w).

Definition render (data : yield_table_of decimal) (orientation logo_path : string) (today : date)
    : M document :=
  fun w => (build_document (w_images w) data orientation logo_path today, w).

Definition set_files (fs : gmap string document) (w : world) : world :=
  {| w_db := w_db w; w_collate := w_collate w; w_images := w_images w;
     w_unwritable := w_unwritable w; w_files := fs; w_clock := w_clock w; w_stdout := w_stdout w;
     w_help := w_help w |}.

Definition set_stdout (out : list string) (w : world) : world :=
  {| w_db := w_db w; w_collate := w_collate w; w_images := w_images w;
     w_unwritable := w_unwritable w; w_files := w_files w; w_clock := w_clock w; w_stdout := out;
     w_help := w_help w |}.

(** [doc.save(path)] *)
Definition save (path : string) (doc : document) : M unit :=
  fun w => if decide (path ∈ w_unwritable w) then (Err (SaveError path), w)
           else (Ok tt, set_files (<[path := doc]> (w_files w)) w).

(** [print(s)] *)
Definition print (s : string) : M unit :=
  fun w => (Ok tt, set_stdout (w_stdout w ++ [s]) w).

(** ** [create_report(template_path, output_path, orientation, logo_path)]

    [template_path] is accepted and never read, so it may be any Python
    value (argparse can hand it a list, see CLI.v).  The clock is read where
    [add_footer] calls [datetime.now()]: after the body is built and before
    the footer, with no other effect in between, so reading it before
    rendering gives the same run. *)
Definition create_report {T} (template_path : T) (output_path orientation logo_path : string) : M unit :=
  data <-- fetch_data_m ;;
  today <-- now ;;
  doc <-- render data orientation logo_path today ;;
  _ <-- save output_path doc ;;
  print ("✔️ Report saved to " ++ output_path).

(** The data a run reports: the query result as executed, pivoted. *)
Definition report_data (collate : string -> string -> comparison) (db : @database decimal)
    : yield_table_of decimal :=
  pivot (run_query collate db).

(** The document a run writes: the report of that data. *)
Definition expected_document (db : @database decimal) (collate : string -> string -> comparison)
    (orientation logo_path : string) (today : date) : document :=
  report_spec (report_data collate db) orientation logo_path today.

(** ** Fixtures: the scenario of the specification

    One crop ("Wheat") and one state ("Punjab") with the nine values of the
    specification's round-trip scenario, as [numeric] values with one
    decimal place (the 2023 value a parameter, [None] for NULL). *)
Definition dec1 (tenths : N) : decimal := DecFinite false tenths (-1).

Definition wheat_db (v2023 : option decimal) : @database decimal := {|
  crops := [{| crop_id := 1; crop_name := "Wheat" |}];
  states := [{| state_id := 1; state_name := "Punjab" |}];
  crop_yields :=
    [{| cy_crop_id := 1; cy_state_id := 1; cy_year := 2024; cy_method := "ARIMA"; cy_yield_value := Some (dec1 32) |};
     {| cy_crop_id := 1; cy_state_id := 1; cy_year := 2024; cy_method := "ARIMA_RMSE"; cy_yield_value := Some (dec1 4) |};
     {| cy_crop_id := 1; cy_state_id := 1; cy_year := 2024; cy_method := "XGBoost"; cy_yield_value := Some (dec1 35) |};
     {| cy_crop_id := 1; cy_state_id := 1; cy_year := 2024; cy_method := "XGBoost_RMSE"; cy_yield_value := Some (dec1 3) |};
     {| cy_crop_id := 1; cy_state_id := 1; cy_year := 2024; cy_method := "Random Forest"; cy_yield_value := Some (dec1 31) |};
     {| cy_crop_id := 1; cy_state_id := 1; cy_year := 2024; cy_method := "RF_RMSE"; cy_yield_value := Some (dec1 5) |};
     {| cy_crop_id := 1; cy_state_id := 1; cy_year := 2023; cy_method := "MoA&FW"; cy_yield_value := v2023 |};
     {| cy_crop_id := 1; cy_state_id := 1; cy_year := 2022; cy_method := "MoA&FW"; cy_yield_value := Some (dec1 28) |}]
|}.

Definition scenario_world (db : option (@database decimal)) (images : gset string) : world := {|
  w_db := db; w_collate := String.compare; w_images := images; w_unwritable := ∅;
  w_files := ∅; w_clock := {| dt_day := 9; dt_month := 11; dt_year := 2026 |}; w_stdout := [];
  w_help := "usage: gen_report.py [-h] -t TEMPLATE -o OUTPUT [-f {LANDSCAPE,PORTRAIT}] -l LOGO"
|}.

Definition wheat_arima_row : @qrow decimal :=
  {| q_crop := "Wheat"; q_state := "Punjab"; q_year := 2024; q_method := "ARIMA"; q_value := Some (dec1 32) |}.

Section Theory.
Implicit Types (w : world).

(** The successful run of [create_report], shared by the command line. *)
Lemma create_report_success {T} (t : T) out o logo w db :
  w_db w = Some db -> logo ∈ w_images w -> out ∉ w_unwritable w ->
  create_report t out o logo w =
  (Ok tt, set_stdout (w_stdout w ++ ["✔️ Report saved to " ++ out])
            (set_files (<[out := expected_document db (w_collate w) o logo (w_clock w)]> (w_files w)) w)).
Proof.
  intros Hdb Hlogo Hout. unfold create_report, se_bind, fetch_data_m, fetch_result, now, render.
  rewrite Hdb. rewrite build_document_readable by done.
  unfold save. rewrite decide_False by done. reflexivity.
Qed.

(** C2: a run with a reachable database, a readable logo and a writable
    output path succeeds: it writes the report of the pivoted query
    result, dated by the clock, at the output path (replacing any file
    there), prints the confirmation, and changes nothing else. *)
Theorem create_report_ok {T} (t : T) out o logo w db :
  w_db w = Some db -> logo ∈ w_images w -> out ∉ w_unwritable w ->
  create_report t out o logo w =
  (Ok tt, set_stdout (w_stdout w ++ ["✔️ Report saved to " ++ out])
            (set_files (<[out := expected_document db (w_collate w) o logo (w_clock w)]> (w_files w)) w)).
Proof. apply create_report_success. Qed.

(** C3: a run that raises leaves the world exactly as it found it (no
    output file, nothing printed), and the exception is one of: the
    database cannot be reached, the logo cannot be read, the output
    cannot be written. *)
Theorem create_report_error {T} (t : T) out o logo w e w' :
  create_report t out o logo w = (Err e, w') ->
  w' = w /\ (e = OperationalError /\ w_db w = None \/
             e = ImageError logo /\ logo ∉ w_images w \/
             e = SaveError out /\ out ∈ w_unwritable w).
Proof.
  unfold create_report, se_bind, fetch_data_m, fetch_result, now, render.
  destruct (w_db w) as [db|] eqn:Hdb; [|intros [= <- <-]; auto].
  destruct (decide (logo ∈ w_images w));
    [rewrite build_document_readable by done|rewrite build_document_unreadable by done; intros [= <- <-]; auto].
  unfold save. case_decide; [intros [= <- <-]; auto|done].
Qed.

(** C16: with a logo that cannot be read, the run raises before writing:
    no file appears at the output path. *)
Theorem create_report_missing_logo {T} (t : T) out o logo w :
  logo ∉ w_images w ->
  exists e, create_report t out o logo w = (Err e, w).
Proof.
  intros Hlogo. unfold create_report, se_bind, fetch_data_m, fetch_result, now, render.
  destruct (w_db w); [|by eexists].
  rewrite build_document_unreadable by done. by eexists.
Qed.

(** C6: end to end, when no two joined rows share a key, every joined row
    shows in the report a successful run saves: after the heading of its
    crop comes a table with a row that starts with its state and holds,
    in the column whose header names its year and method, [str()] of its
    value ([None] for a SQL [NULL]). *)
Theorem rendered_cell_value {T} (t : T) out o logo w db r (k : nat) :
  w_db w = Some db -> logo ∈ w_images w -> out ∉ w_unwritable w ->
  NoDup (qrow_key <$> join db) -> r ∈ join db -> row_spec !! k = Some (q_year r, q_method r) ->
  exists doc bs1 tbl bs2 row,
    w_files (create_report t out o logo w).2 !! out = Some doc /\
    d_body doc = (bs1 ++ BPar (crop_heading (q_crop r)) :: BTable tbl :: bs2)%list /\
    row ∈ t_rows tbl /\ row !! 0%nat = Some (q_state r) /\ row !! S k = Some (py_str (q_value r)).
Proof.
  intros Hdb Hlogo Hout Hnd Hr Hk. rewrite (create_report_success t out o logo w db) by done.
  cbn [snd w_files set_stdout set_files]. rewrite lookup_insert_eq.
  assert (Hnd' : NoDup (qrow_key <$> run_query (w_collate w) db))
    by (unfold run_query; by rewrite merge_sort_Permutation).
  assert (Hr' : r ∈ run_query (w_collate w) db)
    by (unfold run_query; by rewrite merge_sort_Permutation).
  pose proof (lookup4_pivot_row _ r Hnd' Hr') as Hl. unfold qrow_key in Hl.
  destruct (report_spec_cell _ o logo (w_clock w) _ _ _ _ _ k Hl Hk) as (bs1 & tbl & bs2 & row & H).
  by exists (expected_document db (w_collate w) o logo (w_clock w)), bs1, tbl, bs2, row.
Qed.

End Theory.

(** ** Witnesses *)

Lemma create_report_ok_witness :
  w_db (scenario_world (Some (wheat_db (Some (dec1 30)))) {["logo.png"]}) = Some (wheat_db (Some (dec1 30))) /\
  "logo.png" ∈ w_images (scenario_world (Some (wheat_db (Some (dec1 30)))) {["logo.png"]}) /\
  ("report.docx" ∉ w_unwritable (scenario_world (Some (wheat_db (Some (dec1 30)))) {["logo.png"]})) /\
  create_report "template.docx" "report.docx" "PORTRAIT" "logo.png"
    (scenario_world (Some (wheat_db (Some (dec1 30)))) {["logo.png"]})
  = (Ok tt, set_stdout (["✔️ Report saved to " ++ "report.docx"])
              (set_files {["report.docx" := expected_document (wheat_db (Some (dec1 30))) String.compare
                             "PORTRAIT" "logo.png" {| dt_day := 9; dt_month := 11; dt_year := 2026 |}]}
                 (scenario_world (Some (wheat_db (Some (dec1 30)))) {["logo.png"]}))).
Proof.
  assert (H1 : w_db (scenario_world (Some (wheat_db (Some (dec1 30)))) {["logo.png"]})
               = Some (wheat_db (Some (dec1 30)))) by reflexivity.
  assert (H2 : "logo.png" ∈ w_images (scenario_world (Some (wheat_db (Some (dec1 30)))) {["logo.png"]}))
    by decide_by_eval.
  assert (H3 : "report.docx" ∉ w_unwritable (scenario_world (Some (wheat_db (Some (dec1 30)))) {["logo.png"]}))
    by decide_by_eval.
  split_and!; [exact H1|exact H2|exact H3|].
  apply (create_report_ok "template.docx" "report.docx" "PORTRAIT" "logo.png" _ _ H1 H2 H3).
Defined.

Lemma create_report_error_witness :
  create_report "template.docx" "report.docx" "PORTRAIT" "logo.png" (scenario_world None {["logo.png"]})
  = (Err OperationalError, scenario_world None {["logo.png"]}) /\
  (scenario_world None {["logo.png"]} = scenario_world None {["logo.png"]} /\
   (OperationalError = OperationalError /\ w_db (scenario_world None {["logo.png"]}) = None \/
    OperationalError = ImageError "logo.png" /\ "logo.png" ∉ w_images (scenario_world None {["logo.png"]}) \/
    OperationalError = SaveError "report.docx" /\ "report.docx" ∈ w_unwritable (scenario_world None {["logo.png"]}))).
Proof.
  assert (H : create_report "template.docx" "report.docx" "PORTRAIT" "logo.png" (scenario_world None {["logo.png"]})
              = (Err OperationalError, scenario_world None {["logo.png"]})) by reflexivity.
  split; [exact H|]. apply (create_report_error _ _ _ _ _ _ _ H).
Defined.

Lemma create_report_missing_logo_witness :
  ("missing.png" ∉ w_images (scenario_world (Some (wheat_db None)) {["logo.png"]})) /\
  exists e, create_report "template.docx" "report.docx" "PORTRAIT" "missing.png"
              (scenario_world (Some (wheat_db None)) {["logo.png"]})
            = (Err e, scenario_world (Some (wheat_db None)) {["logo.png"]}).
Proof.
  assert (H : "missing.png" ∉ w_images (scenario_world (Some (wheat_db None)) {["logo.png"]}))
    by decide_by_eval.
  split; [exact H|]. apply (create_report_missing_logo _ _ _ _ _ H).
Defined.

Lemma rendered_cell_value_witness :
  w_db (scenario_world (Some (wheat_db (Some (dec1 30)))) {["logo.png"]}) = Some (wheat_db (Some (dec1 30))) /\
  "logo.png" ∈ w_images (scenario_world (Some (wheat_db (Some (dec1 30)))) {["logo.png"]}) /\
  ("report.docx" ∉ w_unwritable (scenario_world (Some (wheat_db (Some (dec1 30)))) {["logo.png"]})) /\
  NoDup (qrow_key <$> join (wheat_db (Some (dec1 30)))) /\
  wheat_arima_row ∈ join (wheat_db (Some (dec1 30))) /\
  row_spec !! 0%nat = Some (q_year wheat_arima_row, q_method wheat_arima_row) /\
  exists doc bs1 tbl bs2 row,
    w_files (create_report "template.docx" "report.docx" "PORTRAIT" "logo.png"
               (scenario_world (Some (wheat_db (Some (dec1 30)))) {["logo.png"]})).2 !! "report.docx" = Some doc /\
    d_body doc = (bs1 ++ BPar (crop_heading "Wheat") :: BTable tbl :: bs2)%list /\
    row ∈ t_rows tbl /\ row !! 0%nat = Some "Punjab" /\ row !! 1%nat = Some (py_str (Some (dec1 32))).
Proof.
  assert (H1 : w_db (scenario_world (Some (wheat_db (Some (dec1 30)))) {["logo.png"]})
               = Some (wheat_db (Some (dec1 30)))) by reflexivity.
  assert (H2 : "logo.png" ∈ w_images (scenario_world (Some (wheat_db (Some (dec1 30)))) {["logo.png"]}))
    by (cbn; set_solver).
  assert (H3 : "report.docx" ∉ w_unwritable (scenario_world (Some (wheat_db (Some (dec1 30)))) {["logo.png"]}))
    by (cbn; set_solver).
  assert (H4 : NoDup (qrow_key <$> join (wheat_db (Some (dec1 30))))) by decide_by_eval.
  assert (H5 : wheat_arima_row ∈ join (wheat_db (Some (dec1 30)))) by decide_by_eval.
  assert (H6 : row_spec !! 0%nat = Some (q_year wheat_arima_row, q_method wheat_arima_row)) by reflexivity.
  split_and!; try assumption.
  exact (rendered_cell_value "template.docx" "report.docx" "PORTRAIT" "logo.png" _ _ wheat_arima_row 0
           H1 H2 H3 H4 H5 H6).
Defined.

End Report.
