(* ===== verification/CLI.v ===== *)
(** * The command line: the [__main__] block of src/gen_report.py

    Lines 141-149: an [argparse.ArgumentParser] with four options, the
    parse of [sys.argv[1:]], and the call of [create_report] with the
    parsed values.  The parser is modelled as CPython 3.11's argparse runs
    it for this configuration: the classification of each argument
    ([_parse_optional], [_get_option_tuples]), the consumption of options
    and their values ([consume_optional], [take_action], [_get_values],
    [_check_value]), the check of required options and of unrecognized
    arguments, with argparse's error messages.  [-h] writes the help text
    to standard output and ends the run with status 0; the text itself,
    which depends on the program name and the terminal width, is taken
    from the world ([w_help]).

    A parsed value is a Python object: a [str], [None] (the default of a
    required option) or a list ([_get_values] strips a [--] given as the
    explicit value of an option, [-f--], and returns the empty list,
    unchecked against [choices]).  [main] passes the objects to
    [create_report], which calls [str] methods on them. *)

From S2P Require Import Prelude PyStr Loader Docx Render Report.
From Stdlib Require Import Ascii.

#[local] Open Scope string_scope.

Module CLI.
Import PyStr Report ResultNotations SENotations.
#[local] Open Scope py_scope.

(** ** Python values stored in the namespace *)
Inductive py_val := PNone | PStr (s : string) | PList (l : list string).

#[export] Instance py_val_eq_dec : EqDecision py_val.
Proof. solve_decision. Defined.

Definition py_type (v : py_val) : string :=
  match v with PNone => "NoneType" | PStr _ => "str" | PList _ => "list" end.

(** ** The parser

    [add_argument] with the keywords the script passes: option strings,
    [required], [choices], [default].  Each option stores one value
    ([nargs=None]) in the attribute [dest]; [ArgumentParser] adds
    [-h/--help] first, which takes no value and stores nothing. *)
Inductive action_kind := StoreAction (dest : string) | HelpAction.

Record action := {
  a_option_strings : list string;
  a_kind : action_kind;
  a_required : bool;
  a_choices : option (list string);
  a_default : py_val
}.

Definition help_action : action :=
  {| a_option_strings := ["-h"; "--help"]; a_kind := HelpAction;
     a_required := false; a_choices := None; a_default := PNone |}.

Definition template_action : action :=
  {| a_option_strings := ["-t"; "--template"]; a_kind := StoreAction "template";
     a_required := true; a_choices := None; a_default := PNone |}.

Definition output_action : action :=
  {| a_option_strings := ["-o"; "--output"]; a_kind := StoreAction "output";
     a_required := true; a_choices := None; a_default := PNone |}.

Definition format_action : action :=
  {| a_option_strings := ["-f"; "--format"]; a_kind := StoreAction "format";
     a_required := false; a_choices := Some ["LANDSCAPE"; "PORTRAIT"]; a_default := PStr "PORTRAIT" |}.

Definition logo_action : action :=
  {| a_option_strings := ["-l"; "--logo"]; a_kind := StoreAction "logo";
     a_required := true; a_choices := None; a_default := PNone |}.

Definition parser_actions : list action :=
  [help_action; template_action; output_action; format_action; logo_action].

(** [parser._option_string_actions]: every option string, in the order
    the options were added. *)
Definition option_string_actions : pydict string action :=
  parser_actions ≫= fun a => (fun o => (o, a)) <$> a_option_strings a.

(** [_get_action_name]: the option strings joined by a slash. *)
Definition action_name (a : action) : string := str_join "/" (a_option_strings a).

(** ** How the parse ends early *)
Inductive cli_exit :=
| ExitHelp                (* print_help(); exit(0) *)
| ExitError (msg : string).  (* error(msg): usage and msg on stderr; exit(2) *)

(** [ArgumentError(action, msg)], reported as "argument NAME: MSG". *)
Definition argument_error (a : action) (msg : string) : cli_exit :=
  ExitError ("argument " ++ action_name a ++ ": " ++ msg).

(** ** Classifying one argument: [_parse_optional] *)

(** [_negative_number_matcher]: [^-\d+$|^-\d*\.\d+$], where [$] also
    matches before a final newline. *)
Definition strip_final_newline (s : string) : string :=
  match String.length s with
  | O => s
  | S k => if String.eqb (String.substring k 1 s) (String (ascii_of_N 10) "")
           then String.substring 0 k s else s
  end.

Definition is_negative_number (s : string) : bool :=
  match strip_final_newline s with
  | String c body =>
      Ascii.eqb c "-" &&
      ((negb (String.eqb body "") && all_digits body) ||
      match split_once "." body with
      | Some (ip, fp) => all_digits ip && negb (String.eqb fp "") && all_digits fp
      | None => false
      end)
  | _ => false
  end.

(** An option found in an argument: its action ([None] for an unknown
    option), the option string and the explicit argument after [=] or
    after a short option's letter. *)
Record opt_tuple := {
  ot_action : option action;
  ot_option_string : string;
  ot_explicit_arg : option string
}.

(** [_get_option_tuples]: for [--xyz] every option string [xyz] is a
    prefix of (abbreviations are allowed); for [-xyz] the short option
    [-x] with the explicit argument [yz], and the options [-xyz] is a
    prefix of.  The last case of the source (an argument that does not
    start with [-]) is not reached: only such arguments are passed. *)
Definition get_option_tuples (arg : string) : list opt_tuple :=
  match arg with
  | String c1 (String c2 rest) =>
      if negb (Ascii.eqb c1 "-") then [] else
      if Ascii.eqb c2 "-" then
        let '(prefix, explicit) :=
          match split_once "=" arg with Some (p, e) => (p, Some e) | None => (arg, None) end in
        (fun '(o, a) => {| ot_action := Some a; ot_option_string := o; ot_explicit_arg := explicit |})
          <$> filter (fun '(o, _) => startswith o prefix = true) option_string_actions
      else
        let short := String c1 (String c2 "") in
        option_string_actions ≫= fun '(o, a) =>
          if String.eqb o short then
            [{| ot_action := Some a; ot_option_string := o; ot_explicit_arg := Some rest |}]
          else if startswith o arg then
            [{| ot_action := Some a; ot_option_string := o; ot_explicit_arg := None |}]
          else []
  | _ => []
  end.

Definition parse_optional (arg : string) : result cli_exit (option opt_tuple) :=
  match arg with
  | "" => Ok None
  | String c _ =>
      if negb (Ascii.eqb c "-") then Ok None else
      match dict_get arg option_string_actions with
      | Some a => Ok (Some {| ot_action := Some a; ot_option_string := arg; ot_explicit_arg := None |})
      | None =>
          if (String.length arg =? 1)%nat then Ok None else
          let by_eq :=
            match split_once "=" arg with
            | Some (o, e) =>
                match dict_get o option_string_actions with
                | Some a => Some {| ot_action := Some a; ot_option_string := o; ot_explicit_arg := Some e |}
                | None => None
                end
            | None => None
            end in
          match by_eq with
          | Some t => Ok (Some t)
          | None =>
              match get_option_tuples arg with
              | [t] => Ok (Some t)
              | [] =>
                  (* no option of this parser looks like a negative number *)
                  if is_negative_number arg then Ok None
                  else if str_has " " arg then Ok None
                  else Ok (Some {| ot_action := None; ot_option_string := arg; ot_explicit_arg := None |})
              | ts =>
                  Err (ExitError ("ambiguous option: " ++ arg ++ " could match " ++
                                  str_join ", " (ot_option_string <$> ts)))
              end
          end
      end
  end.

(** ** Classifying the command line: the pattern of [_parse_known_args]

    [A] an argument, [-] the first [--] (every argument after it is an
    [A]), [O] an option. *)
Inductive arg_class := ClsA | ClsDash | ClsO (t : opt_tuple).

Fixpoint classify (args : list string) : result cli_exit (list arg_class) :=
  match args with
  | [] => Ok []
  | a :: rest =>
      if String.eqb a "--" then Ok (ClsDash :: ((fun _ => ClsA) <$> rest))
      else t <- parse_optional a ;;;
           cs <- classify rest ;;;
           Ok ((match t with Some t => ClsO t | None => ClsA end) :: cs)
  end.

(** ** Taking an option: [take_action], [_get_values], [_check_value] *)

(** The parse state: the namespace, the names of the actions seen and
    the arguments no option took. *)
Record pstate := { ps_ns : pydict string py_val; ps_seen : list string; ps_extras : list string }.

(** The namespace before parsing: each [dest] bound to its default, in
    the order the options were added. *)
Definition initial_namespace : pydict string py_val :=
  fold_left (fun ns a => match a_kind a with
                         | StoreAction d => dict_set d (a_default a) ns
                         | HelpAction => ns
                         end) parser_actions [].

Definition initial_state : pstate := {| ps_ns := initial_namespace; ps_seen := []; ps_extras := [] |}.

Definition add_extra (s : string) (st : pstate) : pstate :=
  {| ps_ns := ps_ns st; ps_seen := ps_seen st; ps_extras := ps_extras st ++ [s] |}.

(** [_check_value]: the value must be one of the choices, if any. *)
Definition check_value (a : action) (v : string) : result cli_exit unit :=
  match a_choices a with
  | Some cs =>
      if bool_decide (v ∈ cs) then Ok tt
      else Err (argument_error a ("invalid choice: " ++ py_repr v ++ " (choose from " ++
                                  str_join ", " (py_repr <$> cs) ++ ")"))
  | None => Ok tt
  end.

Fixpoint check_values (a : action) (vs : list string) : result cli_exit unit :=
  match vs with [] => Ok tt | v :: vs' => _ <- check_value a v ;;; check_values a vs' end.

(** [list.remove('--')]: drops the first occurrence. *)
Fixpoint remove_first (x : string) (l : list string) : list string :=
  match l with [] => [] | y :: l' => if String.eqb x y then l' else y :: remove_first x l' end.

(** [_get_values]: the first [--] is removed; one string left is the
    value, checked; otherwise the value is the list of the strings left,
    each checked (none for [-h], and none when the only string was
    [--]). *)
Definition get_values (a : action) (args : list string) : result cli_exit py_val :=
  match remove_first "--" args with
  | [v] => _ <- check_value a v ;;; Ok (PStr v)
  | vs => _ <- check_values a vs ;;; Ok (PList vs)
  end.

(** The action [a] is seen and [setattr(namespace, d, v)]. *)
Definition store (a : action) (d : string) (v : py_val) (st : pstate) : pstate :=
  {| ps_ns := dict_set d v (ps_ns st); ps_seen := action_name a :: ps_seen st;
     ps_extras := ps_extras st |}.

(** [take_action]: the action is seen, its value computed; [store] sets
    the attribute, [help] prints the help and exits. *)
Definition take_action (a : action) (args : list string) (st : pstate) : result cli_exit pstate :=
  v <- get_values a args ;;;
  match a_kind a with
  | StoreAction d => Ok (store a d v st)
  | HelpAction => Err ExitHelp
  end.

Fixpoint take_actions (ts : list (action * list string)) (st : pstate) : result cli_exit pstate :=
  match ts with [] => Ok st | (a, vs) :: ts' => st' <- take_action a vs st ;;; take_actions ts' st' end.

(** ** [consume_optional]

    An option without explicit argument takes the next argument if the
    option stores a value ([expected one argument] when that is not an
    [A]); [-h] takes none.  The result lists the actions to take with
    their strings, and whether the next argument was used. *)
Definition consume_plain (a : action) (next : option (string * arg_class))
    : result cli_exit (list (action * list string) * bool) :=
  match a_kind a with
  | HelpAction => Ok ([(a, [])], false)
  | StoreAction _ =>
      match next with
      | Some (s, ClsA) => Ok ([(a, [s])], true)
      | _ => Err (argument_error a "expected one argument")
      end
  end.

(** With an explicit argument [e]: an option that stores takes [e]; a
    single-dash flag that takes no value reads the next letter of [e] as
    another short option ([-hx] is [-h -x]); otherwise [e] is an error. *)
Fixpoint consume_explicit (a : action) (o e : string) (next : option (string * arg_class))
    : result cli_exit (list (action * list string) * bool) :=
  let ignored := Err (argument_error a ("ignored explicit argument " ++ py_repr e)) in
  match a_kind a with
  | StoreAction _ => Ok ([(a, [e])], false)
  | HelpAction =>
      match o, e with
      | String p (String o1 _), String c e' =>
          if Ascii.eqb o1 "-" then ignored else
          let o' := String p (String c "") in
          match dict_get o' option_string_actions with
          | Some a' =>
              r <- (if String.eqb e' "" then consume_plain a' next
                    else consume_explicit a' o' e' next) ;;;
              Ok ((a, []) :: r.1, r.2)
          | None => ignored
          end
      | _, _ => ignored
      end
  end.

(** ** The loop of [_parse_known_args]

    With no positional arguments, every [A] and [-] goes to the extras,
    as does an unknown option; an option is consumed with its value. *)
Fixpoint consume (args : list (string * arg_class)) (st : pstate) : result cli_exit pstate :=
  match args with
  | [] => Ok st
  | (s, ClsO t) :: rest =>
      match ot_action t with
      | None => consume rest (add_extra s st)
      | Some a =>
          match (match ot_explicit_arg t with
                 | Some e => consume_explicit a (ot_option_string t) e (head rest)
                 | None => consume_plain a (head rest)
                 end) with
          | Err e => Err e
          | Ok (ts, used_next) =>
              st' <- take_actions ts st ;;;
              if used_next then match rest with _ :: rest' => consume rest' st' | [] => Ok st' end
              else consume rest st'
          end
      end
  | (s, _) :: rest => consume rest (add_extra s st)
  end.

(** [parse_known_args]: classify, consume, then require the required
    options.  (Unseen options keep their default; the conversion argparse
    applies to a string default is the identity without [type=].) *)
Definition parse_known_args (argv : list string)
    : result cli_exit (pydict string py_val * list string) :=
  cls <- classify argv ;;;
  st <- consume (zip argv cls) initial_state ;;;
  match filter (fun a => a_required a = true /\ action_name a ∉ ps_seen st) parser_actions with
  | [] => Ok (ps_ns st, ps_extras st)
  | missing => Err (ExitError ("the following arguments are required: " ++
                               str_join ", " (action_name <$> missing)))
  end.

(** [parser.parse_args()]: no argument may be left over. *)
Definition parse_args (argv : list string) : result cli_exit (pydict string py_val) :=
  match parse_known_args argv with
  | Ok (ns, []) => Ok ns
  | Ok (_, extras) => Err (ExitError ("unrecognized arguments: " ++ str_join " " extras))
  | Err e => Err e
  end.

(** ** [main] *)

(** [args.dest]: every [dest] is in the namespace from the start. *)
Definition ns_attr (ns : pydict string py_val) (d : string) : py_val := default PNone (dict_get d ns).

Definition exit_exc (e : cli_exit) : py_exc :=
  match e with ExitHelp => HelpExit | ExitError m => UsageError m end.

(** [create_report(args.template, args.output, args.format, args.logo)]
    with Python objects: [template_path] is never read; an orientation
    that is not a [str] fails at [orientation.upper()] (line 58), after
    the data is fetched; a logo or output path that is not a [str] fails
    in python-docx's [add_picture] or [save], after what precedes them. *)
Definition create_report_py (t o f l : py_val) : M unit :=
  match o, f, l with
  | PStr o, PStr f, PStr l => create_report t o f l
  | _, PStr f, PStr l =>
      data <-- fetch_data_m ;; today <-- now ;; _ <-- render data f l today ;;
      se_raise (NotAPath "save")
  | _, PStr _, _ => _ <-- fetch_data_m ;; se_raise (NotAPath "add_picture")
  | _, _, _ => _ <-- fetch_data_m ;; se_raise (AttributeError (py_type f) "upper")
  end.

(** [parser.print_help()], which the help action runs before
    [parser.exit()]: it writes [format_help()] to standard output.  The
    text depends on [sys.argv[0]] and the terminal width, so it is a
    field of the world ([w_help]), not computed here. *)
Definition print_help : M unit := fun w => (Ok tt, set_stdout (w_stdout w ++ [w_help w]) w).

(** [args = parser.parse_args()] then [create_report(...)]: [-h] prints
    the help and exits with status 0; a usage error exits with status 2
    (its message goes to standard error, which is not modelled). *)
Definition main (argv : list string) : M unit :=
  match parse_args argv with
  | Err ExitHelp => _ <-- print_help ;; se_raise HelpExit
  | Err e => se_raise (exit_exc e)
  | Ok args => create_report_py (ns_attr args "template") (ns_attr args "output")
                                (ns_attr args "format") (ns_attr args "logo")
  end.

(** The status the process exits with. *)
Definition exit_status (r : result py_exc unit) : Z :=
  match r with
  | Ok _ => 0
  | Err HelpExit => 0
  | Err (UsageError _) => 2
  | Err _ => 1
  end.

(** An argument argparse reads as a value, not as an option: an [A] of the
    pattern that is not the [--] separator. *)
Definition plain_arg (v : string) : bool :=
  negb (String.eqb v "--") && match parse_optional v with Ok None => true | _ => false end.

(** [-f FORMAT] when a format is given. *)
Definition format_args (fmt : option string) : list string :=
  match fmt with Some f => ["-f"; f] | None => [] end.

(** ** Theory *)

(** The values an option may leave in the namespace: a [str] among its
    choices, if it has any, or the empty list of a [--] value. *)
Definition allowed (a : action) (v : py_val) : Prop :=
  v = PList [] \/ exists s, v = PStr s /\ match a_choices a with Some cs => s ∈ cs | None => True end.

(** What a parse state holds for the option [a] of [dest] [d]: a value it
    allows, or its default while the option has not been seen. *)
Definition slot_ok (a : action) (d : string) (st : pstate) : Prop :=
  exists v, dict_get d (ps_ns st) = Some v /\
            (allowed a v \/ (v = a_default a /\ action_name a ∉ ps_seen st)).

Definition ns_inv (st : pstate) : Prop :=
  dict_keys (ps_ns st) = ["template"; "output"; "format"; "logo"] /\
  slot_ok template_action "template" st /\ slot_ok output_action "output" st /\
  slot_ok format_action "format" st /\ slot_ok logo_action "logo" st.

(** An option found while classifying belongs to the parser. *)
Definition tuple_in (t : opt_tuple) : Prop := forall a, ot_action t = Some a -> a ∈ parser_actions.

Definition class_in (c : arg_class) : Prop :=
  match c with ClsO t => tuple_in t | _ => True end.

(** The actions [consume_optional] takes: the parser's, each with at
    most one string. *)
Definition taken_ok (ts : list (action * list string)) : Prop :=
  Forall (fun '(a, vs) => a ∈ parser_actions /\ length vs <= 1) ts.

(** Two action names differ: compare their strings. *)
Ltac names_differ := let H := fresh in intros H; vm_compute in H; discriminate H.

Section Theory.

Lemma option_string_actions_in o a : (o, a) ∈ option_string_actions -> a ∈ parser_actions.
Proof.
  unfold option_string_actions. rewrite list_elem_of_bind. intros (a' & Hin & Ha').
  apply list_elem_of_fmap in Hin as (o' & [= -> ->] & _). done.
Qed.

Lemma dict_get_action o a : dict_get o option_string_actions = Some a -> a ∈ parser_actions.
Proof. intros H%dict_get_Some. by eapply option_string_actions_in. Qed.

Lemma get_option_tuples_in arg : Forall tuple_in (get_option_tuples arg).
Proof.
  unfold get_option_tuples. destruct arg as [|c1 [|c2 rest]]; [done|done|].
  destruct (Ascii.eqb c1 "-"); cbn [negb]; [|done]. destruct (Ascii.eqb c2 "-").
  - destruct (split_once _ _) as [[p e]|]; apply Forall_fmap, Forall_forall;
      intros [o a] [_ Hin]%list_elem_of_filter a' [= <-]; by eapply option_string_actions_in.
  - apply Forall_forall. intros t (oa & Ht & Hin)%list_elem_of_bind. destruct oa as [o a].
    apply option_string_actions_in in Hin.
    destruct (String.eqb _ _); [|destruct (startswith _ _)];
      [apply list_elem_of_singleton in Ht as ->..|by apply not_elem_of_nil in Ht];
      by intros a' [= <-].
Qed.

Lemma parse_optional_in arg t : parse_optional arg = Ok (Some t) -> tuple_in t.
Proof.
  unfold parse_optional. destruct arg as [|c s]; [done|].
  destruct (negb _); [done|].
  destruct (dict_get _ _) as [a|] eqn:Hg; [intros [= <-] a' [= <-]; by eapply dict_get_action|].
  destruct (_ =? _)%nat; [done|].
  destruct (split_once _ _) as [[o e]|];
    [destruct (dict_get o _) as [a|] eqn:Ho; [intros [= <-] a' [= <-]; by eapply dict_get_action|]|];
  pose proof (get_option_tuples_in (String c s)) as Hall;
  destruct (get_option_tuples _) as [|t1 [|t2 ts]];
  try (intros [= <-]; by inversion Hall);
  repeat case_match; intros [= <-]; done.
Qed.

Lemma classify_in argv cls : classify argv = Ok cls -> Forall class_in cls /\ length cls = length argv.
Proof.
  revert cls. induction argv as [|a argv IH]; simpl; intros cls.
  - intros [= <-]. done.
  - case_match.
    + intros [= <-]. split; [constructor; [done|]; apply Forall_fmap, Forall_true; done|].
      cbn [length]. by rewrite length_fmap.
    + destruct (parse_optional a) as [[t|]|] eqn:Hp; simpl; [| |done];
        destruct (classify argv) as [cs|]; simpl; try done; intros [= <-];
        destruct (IH cs eq_refl) as [? ?]; simpl; split; auto;
        (constructor; [|done]); [by eapply parse_optional_in|done].
Qed.

Lemma taken_ok_cons a vs ts :
  a ∈ parser_actions -> length vs <= 1 -> taken_ok ts -> taken_ok ((a, vs) :: ts).
Proof. intros. by constructor. Qed.

Lemma consume_plain_ok a next ts b :
  a ∈ parser_actions -> consume_plain a next = Ok (ts, b) -> taken_ok ts.
Proof.
  unfold consume_plain. intros Ha.
  destruct (a_kind a); [destruct next as [[s []]|]|]; intros; simplify_eq;
    apply taken_ok_cons; simpl; auto with lia; constructor.
Qed.

Lemma consume_explicit_ok a o e next ts b :
  a ∈ parser_actions -> consume_explicit a o e next = Ok (ts, b) -> taken_ok ts.
Proof.
  revert a o ts b. induction e as [|c e IH]; intros a o ts b Ha; cbn [consume_explicit];
    destruct (a_kind a);
    try (intros; simplify_eq; apply taken_ok_cons; simpl; auto with lia; constructor; fail);
    destruct o as [|p [|o1 o']]; try done.
  destruct (Ascii.eqb o1 "-"); [done|].
  destruct (dict_get _ _) as [a'|] eqn:Hg; [|done]. apply dict_get_action in Hg.
  destruct (if String.eqb e "" then _ else _) as [[ts' b']|] eqn:Hr; [|done].
  intros [= <- <-]. apply taken_ok_cons; [done|simpl; lia|].
  destruct (String.eqb e ""); [by eapply consume_plain_ok|by eapply IH].
Qed.

Lemma check_value_ok a x :
  check_value a x = Ok tt -> match a_choices a with Some cs => x ∈ cs | None => True end.
Proof. unfold check_value. destruct (a_choices a); [case_bool_decide|]; done. Qed.

Lemma get_values_allowed a args v : length args <= 1 -> get_values a args = Ok v -> allowed a v.
Proof.
  unfold get_values. destruct args as [|x [|]]; cbn [length]; [..|lia]; intros _.
  - intros [= <-]. by left.
  - cbn [remove_first]. destruct (String.eqb "--" x); [intros [= <-]; by left|].
    destruct (check_value a x) as [[]|] eqn:Hc; [|done]. intros [= <-]. right.
    exists x. split; [done|]. by apply check_value_ok.
Qed.

Lemma slot_ok_store_same a d v st : allowed a v -> slot_ok a d (store a d v st).
Proof. intros Hv. exists v. split; [|by left]. simpl. by rewrite dict_get_set, decide_True. Qed.

Lemma slot_ok_store_other a d v a' d' st :
  d <> d' -> action_name a <> action_name a' -> slot_ok a' d' st -> slot_ok a' d' (store a d v st).
Proof.
  intros Hd Hn (v' & Hg & Hv). exists v'. simpl. rewrite dict_get_set, decide_False by done.
  split; [done|]. destruct Hv as [|[-> Hs]]; [by left|right]. split; [done|].
  rewrite elem_of_cons. intros [?|?]; auto.
Qed.

Lemma slot_ok_add_extra a d s st : slot_ok a d st -> slot_ok a d (add_extra s st).
Proof. done. Qed.

Ltac slot_tac :=
  first [ by apply slot_ok_store_same
        | apply slot_ok_store_other; [discriminate|names_differ|assumption] ].

Lemma ns_inv_store a d v st :
  a ∈ parser_actions -> a_kind a = StoreAction d -> allowed a v -> ns_inv st -> ns_inv (store a d v st).
Proof.
  intros Ha Hk Hv (Hkeys & H1 & H2 & H3 & H4).
  repeat (apply elem_of_cons in Ha as [->|Ha]); [..|by apply not_elem_of_nil in Ha];
    simplify_eq/=;
    (split; [cbn [ps_ns store]; rewrite dict_keys_set, decide_True; [done|rewrite Hkeys; set_solver]|]);
    split_and!; slot_tac.
Qed.

Lemma take_action_inv a vs st st' :
  a ∈ parser_actions -> length vs <= 1 -> ns_inv st -> take_action a vs st = Ok st' -> ns_inv st'.
Proof.
  intros Ha Hl Hi. unfold take_action.
  destruct (get_values a vs) as [v|] eqn:Hv; cbn [result_bind]; [|done].
  destruct (a_kind a) eqn:Hk; [|done]. intros [= <-].
  apply ns_inv_store; eauto using get_values_allowed.
Qed.

Lemma take_actions_inv ts st st' : taken_ok ts -> ns_inv st -> take_actions ts st = Ok st' -> ns_inv st'.
Proof.
  revert st. induction ts as [|[a vs] ts IH]; intros st Hts Hi; cbn [take_actions]; [by intros [= <-]|].
  apply Forall_cons in Hts as [[Ha Hl] Hts].
  destruct (take_action a vs st) as [st1|] eqn:Ht; cbn [result_bind]; [|done].
  apply IH; [done|]. by eapply take_action_inv.
Qed.

Lemma consume_inv args st st' :
  Forall (class_in ∘ snd) args -> ns_inv st -> consume args st = Ok st' -> ns_inv st'.
Proof.
  remember (length args) as n eqn:Hn. revert args st Hn.
  induction n as [n IH] using lt_wf_ind. intros args st -> Hall Hi.
  destruct args as [|[s c] rest]; cbn [consume]; [by intros [= <-]|].
  apply Forall_cons in Hall as [Hc Hall]. cbn [length] in IH.
  destruct c as [| |t]; try (apply (IH (length rest)); auto with lia; fail).
  destruct (ot_action t) as [a|] eqn:Ha; [|apply (IH (length rest)); auto with lia].
  assert (Hin : a ∈ parser_actions) by (by apply Hc).
  destruct (match ot_explicit_arg t with Some e => _ | None => _ end) as [[ts b]|] eqn:Hts; [|done].
  assert (taken_ok ts) by (destruct (ot_explicit_arg t);
    [by eapply consume_explicit_ok|by eapply consume_plain_ok]).
  destruct (take_actions ts st) as [st1|] eqn:Ht; cbn [result_bind]; [|done].
  assert (ns_inv st1) by (by eapply take_actions_inv).
  destruct b; [destruct rest as [|r rest']; [by intros [= <-]|]|].
  - apply Forall_cons in Hall as [_ Hall]. apply (IH (length rest')); simpl; auto with lia.
  - apply (IH (length rest)); auto with lia.
Qed.

Lemma initial_ns_inv : ns_inv initial_state.
Proof.
  split; [reflexivity|]. split_and!; eexists; (split; [reflexivity|]);
    first [left; by eexists | right; split; [done|set_solver]].
Qed.

(** A successful parse: the command line classified and consumed with no
    argument left over and every required option seen. *)
Lemma parse_args_Ok argv ns :
  parse_args argv = Ok ns ->
  exists cls st, classify argv = Ok cls /\ consume (zip argv cls) initial_state = Ok st /\
    ns = ps_ns st /\ ps_extras st = [] /\
    forall a, a ∈ parser_actions -> a_required a = true -> action_name a ∈ ps_seen st.
Proof.
  unfold parse_args, parse_known_args.
  destruct (classify argv) as [cls|] eqn:Hc; cbn [result_bind]; [|done].
  destruct (consume _ _) as [st|] eqn:Hs; cbn [result_bind]; [|done].
  destruct (filter _ _) as [|] eqn:Hf; [|done].
  destruct (ps_extras st) eqn:He; [|done]. intros [= <-].
  exists cls, st. split_and!; [done..|]. intros a Ha Hr.
  destruct (decide (action_name a ∈ ps_seen st)) as [|Hn]; [done|].
  by destruct (filter_nil_not_elem_of _ _ _ Hf (conj Hr Hn) Ha).
Qed.

Lemma parse_args_inv argv ns :
  parse_args argv = Ok ns ->
  exists st, ns = ps_ns st /\ ns_inv st /\
    forall a, a ∈ parser_actions -> a_required a = true -> action_name a ∈ ps_seen st.
Proof.
  intros (cls & st & Hc & Hs & -> & _ & Hreq)%parse_args_Ok. exists st. split_and!; [done| |done].
  apply classify_in in Hc as [Hall Hlen].
  eapply consume_inv; [|apply initial_ns_inv|done].
  apply Forall_fmap. rewrite snd_zip by lia. done.
Qed.

Lemma slot_ok_seen a d st : action_name a ∈ ps_seen st -> slot_ok a d st ->
  exists v, dict_get d (ps_ns st) = Some v /\ allowed a v.
Proof. intros Hs (v & Hg & [Hv|[_ Hn]]); [by exists v|done]. Qed.

Lemma required_slot a d st :
  a_choices a = None -> action_name a ∈ ps_seen st -> slot_ok a d st ->
  exists v, dict_get d (ps_ns st) = Some v /\ (v = PList [] \/ exists s, v = PStr s).
Proof.
  intros Hc Hs (v & Hg & [[->|(s & -> & _)]|[_ Hn]]); [eauto|eauto|done].
Qed.

Lemma format_slot_value v :
  allowed format_action v \/ v = a_default format_action ->
  v ∈ [PStr "LANDSCAPE"; PStr "PORTRAIT"; PList []].
Proof.
  intros [[->|(s & -> & Hs)]| ->]; [set_solver| |set_solver].
  cbn in Hs. repeat (apply elem_of_cons in Hs as [->|Hs]); [set_solver..|by apply not_elem_of_nil in Hs].
Qed.


(** *** Parsing the command lines of the theorems *)

(** No option string holds [=]. *)
Lemma option_strings_no_eq : Forall (fun k => str_has "=" k = false) (dict_keys option_string_actions).
Proof. decide_by_eval. Qed.

Lemma dict_get_opts_eq s : str_has "=" s = true -> dict_get s option_string_actions = None.
Proof.
  intros H. destruct (dict_get s _) as [a|] eqn:Hg; [|done].
  assert (Hk : s ∈ dict_keys option_string_actions) by (apply elem_of_dict_keys; by rewrite Hg).
  pose proof option_strings_no_eq as Hno. rewrite Forall_forall in Hno. by rewrite Hno in H.
Qed.

(** [--option=value] names the option with [value] as explicit argument. *)
Lemma parse_optional_explicit o a e :
  dict_get o option_string_actions = Some a -> str_has "=" o = false ->
  parse_optional (o ++ String "=" e) =
  Ok (Some {| ot_action := Some a; ot_option_string := o; ot_explicit_arg := Some e |}).
Proof.
  intros Hg Hno. destruct o as [|c o']; [by vm_compute in Hg|].
  assert (Hc : Ascii.eqb c "-" = true).
  { apply dict_get_Some in Hg. unfold option_string_actions in Hg. vm_compute in Hg.
    repeat (apply elem_of_cons in Hg as [Hg|Hg]; [by inversion Hg|]). by apply not_elem_of_nil in Hg. }
  rewrite str_app_cons. unfold parse_optional. rewrite Hc. cbn [negb].
  rewrite <- str_app_cons, dict_get_opts_eq by apply str_has_app_here.
  rewrite str_app_cons. cbn [String.length]. rewrite str_length_app. cbn [String.length].
  destruct (_ =? 1)%nat eqn:Hl; [apply Nat.eqb_eq in Hl; lia|].
  rewrite <- str_app_cons, split_once_app, Hg by done. reflexivity.
Qed.

Lemma classify_cons a rest t :
  String.eqb a "--" = false -> parse_optional a = Ok t ->
  classify (a :: rest) =
  (cs <- classify rest ;;; Ok ((match t with Some t => ClsO t | None => ClsA end) :: cs)).
Proof. intros H1 H2. cbn [classify]. by rewrite H1, H2. Qed.

Lemma eqb_dashdash_has_eq s : str_has "=" s = true -> String.eqb s "--" = false.
Proof. intros H. destruct (String.eqb_spec s "--") as [->|]; [done|done]. Qed.

Lemma plain_arg_spec v : plain_arg v = true -> String.eqb v "--" = false /\ parse_optional v = Ok None /\ v <> "--".
Proof.
  unfold plain_arg. destruct (String.eqb_spec v "--"); [done|]. cbn [negb andb].
  destruct (parse_optional v) as [[]|]; done.
Qed.

(** An argument that does not start with [-] is a value. *)
Lemma plain_arg_no_dash v : match v with String c _ => c <> "-"%char | EmptyString => True end -> plain_arg v = true.
Proof.
  destruct v as [|c s]; [done|]. intros Hc. unfold plain_arg, parse_optional.
  destruct (Ascii.eqb_spec c "-"); [done|]. destruct (String.eqb_spec (String c s) "--") as [Heq|]; [by injection Heq|]. done.
Qed.

Lemma consume_explicit_store a d o e next :
  a_kind a = StoreAction d -> consume_explicit a o e next = Ok ([(a, [e])], false).
Proof. intros Hk. destruct e; cbn [consume_explicit]; by rewrite Hk. Qed.

Lemma take_action_store a d v st :
  a_kind a = StoreAction d -> v <> "--" -> check_value a v = Ok tt ->
  take_action a [v] st = Ok (store a d (PStr v) st).
Proof.
  intros Hk Hv Hc. unfold take_action, get_values. cbn [remove_first].
  destruct (String.eqb_spec "--" v); [congruence|]. rewrite Hc. cbn [result_bind]. by rewrite Hk.
Qed.

Lemma take_action_err a v st e :
  v <> "--" -> check_value a v = Err e -> take_action a [v] st = Err e.
Proof.
  intros Hv Hc. unfold take_action, get_values. cbn [remove_first].
  destruct (String.eqb_spec "--" v); [congruence|]. by rewrite Hc.
Qed.

Lemma consume_explicit_cons s a d o e rest st :
  a_kind a = StoreAction d -> e <> "--" -> check_value a e = Ok tt ->
  consume ((s, ClsO {| ot_action := Some a; ot_option_string := o; ot_explicit_arg := Some e |}) :: rest) st
  = consume rest (store a d (PStr e) st).
Proof.
  intros Hk He Hc. cbn [consume ot_action ot_explicit_arg ot_option_string].
  rewrite (consume_explicit_store _ d) by done. cbn [take_actions].
  by rewrite (take_action_store _ d).
Qed.

Lemma consume_plain_cons s a d o v rest st :
  a_kind a = StoreAction d -> v <> "--" -> check_value a v = Ok tt ->
  consume ((s, ClsO {| ot_action := Some a; ot_option_string := o; ot_explicit_arg := None |})
             :: (v, ClsA) :: rest) st
  = consume rest (store a d (PStr v) st).
Proof.
  intros Hk Hv Hc. cbn [consume ot_action ot_explicit_arg head]. unfold consume_plain. rewrite Hk.
  cbn [take_actions]. by rewrite (take_action_store _ d).
Qed.

Lemma consume_plain_cons_err s a d o v rest st e :
  a_kind a = StoreAction d -> v <> "--" -> check_value a v = Err e ->
  consume ((s, ClsO {| ot_action := Some a; ot_option_string := o; ot_explicit_arg := None |})
             :: (v, ClsA) :: rest) st = Err e.
Proof.
  intros Hk Hv Hc. cbn [consume ot_action ot_explicit_arg head]. unfold consume_plain. rewrite Hk.
  cbn [take_actions]. by rewrite (take_action_err _ _ _ e).
Qed.

Lemma consume_explicit_cons_err s a d o v rest st e :
  a_kind a = StoreAction d -> v <> "--" -> check_value a v = Err e ->
  consume ((s, ClsO {| ot_action := Some a; ot_option_string := o; ot_explicit_arg := Some v |}) :: rest) st
  = Err e.
Proof.
  intros Hk Hv Hc. cbn [consume ot_action ot_explicit_arg ot_option_string].
  rewrite (consume_explicit_store _ d) by done. cbn [take_actions]. by rewrite (take_action_err _ _ _ e).
Qed.

(** [-h]: the help is printed and the parse ends, whatever follows. *)
Lemma consume_help h rest st :
  consume ((h, ClsO {| ot_action := Some help_action; ot_option_string := h; ot_explicit_arg := None |})
             :: rest) st = Err ExitHelp.
Proof. reflexivity. Qed.

Lemma check_value_format_invalid f : f ∉ ["LANDSCAPE"; "PORTRAIT"] ->
  check_value format_action f
  = Err (ExitError ("argument -f/--format: invalid choice: " ++ py_repr f ++
                    " (choose from 'LANDSCAPE', 'PORTRAIT')")).
Proof. intros Hf. unfold check_value. cbn [a_choices format_action]. rewrite bool_decide_false by done. reflexivity. Qed.


End Theory.

(** Classify the next argument of a concrete command line, and consume
    an option with its value. *)
Ltac classify_step :=
  first [ rewrite (classify_cons _ _ None) by done
        | rewrite (classify_cons _ _ (Some _)) by reflexivity ].
Ltac consume_step :=
  first [ rewrite (consume_plain_cons _ _ "template") by first [reflexivity|done]
        | rewrite (consume_plain_cons _ _ "output") by first [reflexivity|done]
        | rewrite (consume_plain_cons _ _ "format") by first [reflexivity|done]
        | rewrite (consume_plain_cons _ _ "logo") by first [reflexivity|done] ].

(** The short options, with [-f] or without. *)
Lemma parse_args_short_roundtrip t o l fmt :
  plain_arg t = true -> plain_arg o = true -> plain_arg l = true ->
  (forall f, fmt = Some f -> f ∈ ["LANDSCAPE"; "PORTRAIT"]) ->
  parse_args (["-t"; t; "-o"; o] ++ format_args fmt ++ ["-l"; l])
  = Ok [("template", PStr t); ("output", PStr o); ("format", PStr (default "PORTRAIT" fmt)); ("logo", PStr l)].
Proof.
  intros (Ht1 & Ht2 & Ht3)%plain_arg_spec (Ho1 & Ho2 & Ho3)%plain_arg_spec (Hl1 & Hl2 & Hl3)%plain_arg_spec Hf.
  unfold parse_args, parse_known_args.
  destruct fmt as [f|]; cbn [format_args app].
  - assert (Hf' : f = "LANDSCAPE" \/ f = "PORTRAIT") by (specialize (Hf f eq_refl); set_solver).
    destruct Hf' as [-> | ->]; repeat classify_step; cbn [classify result_bind zip];
      repeat consume_step; reflexivity.
  - repeat classify_step; cbn [classify result_bind zip]; repeat consume_step; reflexivity.
Qed.

(** C19: whatever the command line, a parse that succeeds yields the
    namespace [create_report] is called with: the four attributes in the
    order the options were added; [template], [output] and [logo] each a
    [str] or the empty list; [format] "LANDSCAPE", "PORTRAIT" or the empty
    list.  [orientation.upper()] never sees a lower-case [str]. *)
Theorem parse_args_namespace argv ns :
  parse_args argv = Ok ns ->
  dict_keys ns = ["template"; "output"; "format"; "logo"] /\
  (forall d, d ∈ ["template"; "output"; "logo"] ->
     exists v, dict_get d ns = Some v /\ (v = PList [] \/ exists s, v = PStr s)) /\
  exists f, dict_get "format" ns = Some f /\ f ∈ [PStr "LANDSCAPE"; PStr "PORTRAIT"; PList []].
Proof.
  intros (st & -> & (Hkeys & Ht & Ho & Hf & Hl) & Hreq)%parse_args_inv.
  split; [done|split].
  - intros d Hd. repeat (apply elem_of_cons in Hd as [->|Hd]); [..|by apply not_elem_of_nil in Hd].
    all: first [ apply (required_slot template_action); [done| |exact Ht]
               | apply (required_slot output_action); [done| |exact Ho]
               | apply (required_slot logo_action); [done| |exact Hl] ];
         apply Hreq; [set_solver|done].
  - destruct Hf as (v & Hg & [Hv|[Hv _]]); exists v; (split; [done|]); apply format_slot_value; auto.
Qed.

(** C20: round trip of the command line: the long options with [=] and
    any values (a value is only not [--]), with a valid format, parse back
    to exactly these values. *)
Theorem parse_args_long_roundtrip t o f l :
  f ∈ ["LANDSCAPE"; "PORTRAIT"] -> t <> "--" -> o <> "--" -> l <> "--" ->
  parse_args ["--template=" ++ t; "--output=" ++ o; "--format=" ++ f; "--logo=" ++ l]
  = Ok [("template", PStr t); ("output", PStr o); ("format", PStr f); ("logo", PStr l)].
Proof.
  intros Hf Ht Ho Hl.
  assert (Hf' : f = "LANDSCAPE" \/ f = "PORTRAIT") by set_solver.
  change ("--template=" ++ t) with ("--template" ++ String "=" t).
  change ("--output=" ++ o) with ("--output" ++ String "=" o).
  change ("--format=" ++ f) with ("--format" ++ String "=" f).
  change ("--logo=" ++ l) with ("--logo" ++ String "=" l).
  unfold parse_args, parse_known_args.
  rewrite !(classify_cons _ _ (Some _)) by
    first [apply eqb_dashdash_has_eq, str_has_app_here | apply parse_optional_explicit; reflexivity].
  cbn [classify result_bind zip].
  rewrite (consume_explicit_cons _ _ "template"), (consume_explicit_cons _ _ "output"),
    (consume_explicit_cons _ _ "format"), (consume_explicit_cons _ _ "logo") by
    first [reflexivity | done | by destruct Hf' as [->| ->]].
  reflexivity.
Qed.

(** C21: [main] refines [create_report]: on [-t T -o O [-f F] -l L]
    with values argparse reads as values, the run is [create_report] with
    these strings, the orientation being PORTRAIT when [-f] is absent. *)
Theorem main_cli t o l fmt w :
  plain_arg t = true -> plain_arg o = true -> plain_arg l = true ->
  (forall f, fmt = Some f -> f ∈ ["LANDSCAPE"; "PORTRAIT"]) ->
  main (["-t"; t; "-o"; o] ++ format_args fmt ++ ["-l"; l]) w
  = create_report (PStr t) o (default "PORTRAIT" fmt) l w.
Proof. intros. unfold main. by rewrite parse_args_short_roundtrip. Qed.

(** C22: [-f--] passes argparse: [_get_values] strips the [--] and
    stores an empty list, never checked against the choices; with the
    database reachable the run then fails at [orientation.upper()] with an
    [AttributeError] (exit status 1) instead of a usage error, and
    changes nothing. *)
Theorem format_dashdash_crash t o l w db :
  plain_arg t = true -> plain_arg o = true -> plain_arg l = true -> w_db w = Some db ->
  main ["-t"; t; "-o"; o; "-l"; l; "-f--"] w = (Err (AttributeError "list" "upper"), w).
Proof.
  intros (Ht1 & Ht2 & Ht3)%plain_arg_spec (Ho1 & Ho2 & Ho3)%plain_arg_spec (Hl1 & Hl2 & Hl3)%plain_arg_spec Hdb.
  assert (Hp : parse_args ["-t"; t; "-o"; o; "-l"; l; "-f--"]
               = Ok [("template", PStr t); ("output", PStr o); ("format", PList []); ("logo", PStr l)]).
  { unfold parse_args, parse_known_args.
    repeat classify_step; cbn [classify result_bind zip]. repeat consume_step.
    cbn [consume ot_action ot_explicit_arg ot_option_string].
    rewrite (consume_explicit_store _ "format") by reflexivity. reflexivity. }
  unfold main. rewrite Hp. unfold create_report_py, ns_attr. simpl.
  unfold se_bind, fetch_data_m, Loader.fetch_result. rewrite Hdb. reflexivity.
Qed.




(** ** Witnesses *)

Lemma parse_args_namespace_witness :
  parse_args ["-t"; "a"; "-o"; "b"; "-l"; "c"; "-f--"]
  = Ok [("template", PStr "a"); ("output", PStr "b"); ("format", PList []); ("logo", PStr "c")] /\
  dict_keys [("template", PStr "a"); ("output", PStr "b"); ("format", PList []); ("logo", PStr "c")]
  = ["template"; "output"; "format"; "logo"].
Proof.
  assert (H : parse_args ["-t"; "a"; "-o"; "b"; "-l"; "c"; "-f--"]
              = Ok [("template", PStr "a"); ("output", PStr "b"); ("format", PList []); ("logo", PStr "c")])
    by (vm_compute; reflexivity).
  split; [exact H|]. exact (proj1 (parse_args_namespace _ _ H)).
Defined.

Lemma parse_args_long_roundtrip_witness :
  parse_args ["--template=" ++ "t.docx"; "--output=" ++ "report.docx"; "--format=" ++ "LANDSCAPE";
              "--logo=" ++ "-logo.png"]
  = Ok [("template", PStr "t.docx"); ("output", PStr "report.docx"); ("format", PStr "LANDSCAPE");
        ("logo", PStr "-logo.png")].
Proof. apply parse_args_long_roundtrip; [set_solver|discriminate..]. Defined.

Lemma main_cli_witness :
  main (["-t"; "t.docx"; "-o"; "report.docx"] ++ format_args None ++ ["-l"; "logo.png"])
       (scenario_world (Some (wheat_db None)) {["logo.png"]})
  = create_report (PStr "t.docx") "report.docx" "PORTRAIT" "logo.png"
       (scenario_world (Some (wheat_db None)) {["logo.png"]}).
Proof. apply main_cli; [vm_compute; reflexivity..|discriminate]. Defined.

Lemma format_dashdash_crash_witness :
  main ["-t"; "t.docx"; "-o"; "report.docx"; "-l"; "logo.png"; "-f--"]
       (scenario_world (Some (wheat_db None)) {["logo.png"]})
  = (Err (AttributeError "list" "upper"), scenario_world (Some (wheat_db None)) {["logo.png"]}).
Proof. eapply format_dashdash_crash; [vm_compute; reflexivity..|reflexivity]. Defined.



(** ** Agreement with CPython

    The parse of command lines covering each path of the model (abbreviated
    and attached values, [=] values, negative numbers, [--], repeated
    options, [-h] combined with other letters, ambiguous prefixes), as
    CPython 3.11's argparse parses them with this parser. *)
Example parse_args_cpython :
  parse_args <$>
    [["-t"; "a"; "-o"; "b"; "-l"; "c"];
     ["-t"; "a"; "-o"; "b"; "-l"; "c"; "-f"; "landscape"];
     ["-ta"; "-ob"; "-lc"];
     ["-t=a"; "-o=b"; "-l=c"];
     ["--temp"; "a"; "--out=b"; "--lo"; "c"; "--form"; "LANDSCAPE"];
     ["-t"; "a"; "-o"; "b"];
     ["-t"; "a"; "-o"; "-x"; "-l"; "c"];
     ["-t"; "a"; "-o"; "-5"; "-l"; "c"];
     ["-t"; "a"; "-o"; "b"; "-l"; "c"; "extra"];
     ["-t"; "a"; "-o"; "b"; "-l"; "c"; "--"];
     ["-t"; "--"; "a"; "-o"; "b"; "-l"; "c"];
     ["-t"; "a"; "-o"; "b"; "-l"; "c"; "-t"; "z"];
     ["-t"; "a"; "-o"; "b"; "-l"; "c"; "-f--"];
     ["-ht"];
     ["-ht"; "x"];
     ["-hx"];
     ["--help=x"];
     ["-t"; "a"; "-o"; "b"; "-l"; "c"; "--=x"];
     ["extra"; "-h"];
     ["-tfoo=bar"; "-o"; "b"; "-l"; "c"]]
  = [Ok [("template", PStr "a"); ("output", PStr "b"); ("format", PStr "PORTRAIT"); ("logo", PStr "c")];
     Err (ExitError "argument -f/--format: invalid choice: 'landscape' (choose from 'LANDSCAPE', 'PORTRAIT')");
     Ok [("template", PStr "a"); ("output", PStr "b"); ("format", PStr "PORTRAIT"); ("logo", PStr "c")];
     Ok [("template", PStr "a"); ("output", PStr "b"); ("format", PStr "PORTRAIT"); ("logo", PStr "c")];
     Ok [("template", PStr "a"); ("output", PStr "b"); ("format", PStr "LANDSCAPE"); ("logo", PStr "c")];
     Err (ExitError "the following arguments are required: -l/--logo");
     Err (ExitError "argument -o/--output: expected one argument");
     Ok [("template", PStr "a"); ("output", PStr "-5"); ("format", PStr "PORTRAIT"); ("logo", PStr "c")];
     Err (ExitError "unrecognized arguments: extra");
     Err (ExitError "unrecognized arguments: --");
     Err (ExitError "argument -t/--template: expected one argument");
     Ok [("template", PStr "z"); ("output", PStr "b"); ("format", PStr "PORTRAIT"); ("logo", PStr "c")];
     Ok [("template", PStr "a"); ("output", PStr "b"); ("format", PList []); ("logo", PStr "c")];
     Err (ExitError "argument -t/--template: expected one argument");
     Err ExitHelp;
     Err (ExitError "argument -h/--help: ignored explicit argument 'x'");
     Err (ExitError "argument -h/--help: ignored explicit argument 'x'");
     Err (ExitError "ambiguous option: --=x could match --help, --template, --output, --format, --logo");
     Err ExitHelp;
     Ok [("template", PStr "foo=bar"); ("output", PStr "b"); ("format", PStr "PORTRAIT"); ("logo", PStr "c")]].
Proof. vm_compute. reflexivity. Qed.

End CLI.
