(* ===== verification/CLISpell.v ===== *)
(** * How an option of the command line can be written

    The ways CPython 3.11's argparse reads an option of the parser of
    src/gen_report.py (lines 142-146) with its value, as [parse_optional]
    and [get_option_tuples] of CLI.v classify them: the value joined by
    [=] ([--template=T], [-t=T]), separate ([--template T], [-t T]), or
    attached to a short option ([-tT]); a long option may be abbreviated
    to any prefix of at least three characters ([--temp=T], [--out O]),
    as the first letters of the four long options differ.  [opt_arg]
    describes one such option argument and [opt_args] writes it;
    [opt_ok_parse] shows that [parse_optional] finds the option and the
    value in every spelling, and [classify_opt] and [consume_opt] that
    the loop of [_parse_known_args] takes it as [store] of the value. *)

From S2P Require Import Prelude PyStr CLI.
From Stdlib Require Import Ascii.

#[local] Open Scope string_scope.

Module CLISpell.
Import PyStr CLI ResultNotations.
#[local] Open Scope py_scope.

(** The option strings of the four options that store a value. *)
Definition opt_strings : list string :=
  ["-t"; "--template"; "-o"; "--output"; "-f"; "--format"; "-l"; "--logo"].

Definition is_long (o : string) : bool := String.prefix "--" o.

Inductive spelling := Joined | Separate | Attached.

(** An option argument: the option string, how many of its characters
    are written (a long option may be abbreviated), the spelling and the
    value. *)
Record opt_arg := OptArg { oa_opt : string; oa_len : nat; oa_spell : spelling; oa_val : string }.

(** The option as written. *)
Definition written (x : opt_arg) : string :=
  if is_long (oa_opt x) then String.substring 0 (oa_len x) (oa_opt x) else oa_opt x.

(** The command-line arguments of an option argument. *)
Definition opt_args (x : opt_arg) : list string :=
  match oa_spell x with
  | Joined => [written x ++ String "=" (oa_val x)]
  | Separate => [written x; oa_val x]
  | Attached => [oa_opt x ++ oa_val x]
  end.

(** A value attached to a short option: not empty, not starting with [=]
    (which would make it the [-t=T] spelling). *)
Definition attachable (v : string) : bool :=
  match v with String c _ => negb (Ascii.eqb c "=") | "" => false end.

(** An option argument argparse reads as the option with its value: a
    long option abbreviated to at least three characters, a value other
    than [--] (which [_get_values] would drop), a separate value that does
    not look like an option. *)
Definition opt_form (x : opt_arg) : Prop :=
  oa_opt x ∈ opt_strings /\ oa_val x <> "--" /\
  (is_long (oa_opt x) = true -> 3 <= oa_len x <= String.length (oa_opt x)) /\
  match oa_spell x with
  | Joined => True
  | Separate => plain_arg (oa_val x) = true
  | Attached => is_long (oa_opt x) = false /\ attachable (oa_val x) = true
  end.

(** ... and whose value passes [_check_value]: a format among the choices. *)
Definition opt_ok (x : opt_arg) : Prop :=
  opt_form x /\ (oa_opt x ∈ ["-f"; "--format"] -> oa_val x ∈ ["LANDSCAPE"; "PORTRAIT"]).

#[export] Instance opt_form_dec x : Decision (opt_form x).
Proof. unfold opt_form. destruct (oa_spell x); apply _. Defined.

#[export] Instance opt_ok_dec x : Decision (opt_ok x).
Proof. unfold opt_ok. apply _. Defined.

(** The option tuple [parse_optional] finds, with the explicit argument [e]. *)
Definition opt_tuple_of (x : opt_arg) (e : option string) : opt_tuple :=
  {| ot_action := dict_get (oa_opt x) option_string_actions; ot_option_string := oa_opt x;
     ot_explicit_arg := e |}.

(** The classes of its arguments. *)
Definition opt_classes (x : opt_arg) : list arg_class :=
  match oa_spell x with
  | Separate => [ClsO (opt_tuple_of x None); ClsA]
  | _ => [ClsO (opt_tuple_of x (Some (oa_val x)))]
  end.

(** What taking the option does to the parse state. *)
Definition opt_store (st : pstate) (x : opt_arg) : pstate :=
  match dict_get (oa_opt x) option_string_actions with
  | Some a => match a_kind a with StoreAction d => store a d (PStr (oa_val x)) st | HelpAction => st end
  | None => st
  end.

(** The [dest] an option string stores to. *)
Definition opt_dest (o : string) : string :=
  match dict_get o option_string_actions with
  | Some a => match a_kind a with StoreAction d => d | HelpAction => "" end
  | None => ""
  end.

#[export] Instance action_kind_eq_dec : EqDecision action_kind.
Proof. solve_decision. Defined.

(** The action that stores to [d]. *)
Definition dest_action (d : string) : option action :=
  head (filter (fun a => a_kind a = StoreAction d) parser_actions).

Section Theory.

(** [-xV]: the short option [-x] with the explicit argument [V]. *)
Lemma parse_optional_attached x c v a :
  dict_get (String "-" (String x "")) option_string_actions = Some a ->
  Ascii.eqb c "=" = false -> Ascii.eqb x "=" = false ->
  (forall p, dict_get (String "-" (String x (String c p))) option_string_actions = None) ->
  get_option_tuples (String "-" (String x (String c v)))
  = [{| ot_action := Some a; ot_option_string := String "-" (String x ""); ot_explicit_arg := Some (String c v) |}] ->
  parse_optional (String "-" (String x (String c v)))
  = Ok (Some {| ot_action := Some a; ot_option_string := String "-" (String x "");
                ot_explicit_arg := Some (String c v) |}).
Proof.
  intros Hg Hc Hx Hno Ht. unfold parse_optional. rewrite Hno.
  change (negb (Ascii.eqb "-" "-")) with false. cbn iota.
  change (String.length (String "-" (String x (String c v))) =? 1)%nat with false. cbn iota.
  cbn [split_once]. rewrite (Ascii.eqb_sym "=" c), (Ascii.eqb_sym "=" x), Hc, Hx.
  change (Ascii.eqb "=" "-") with false. cbn iota.
  destruct (split_once "=" v) as [[p e]|]; cbn iota; [rewrite Hno; cbn iota|]; by rewrite Ht.
Qed.

(** [--abbrev=V]: the one long option [--abbrev] is a prefix of, with the
    explicit argument [V]. *)
Lemma parse_optional_abbrev r v o a :
  dict_get (String "-" (String "-" r)) option_string_actions = None ->
  str_has "=" r = false ->
  filter (fun '(o', _) => startswith o' (String "-" (String "-" r)) = true) option_string_actions = [(o, a)] ->
  parse_optional (String "-" (String "-" r) ++ String "=" v)
  = Ok (Some {| ot_action := Some a; ot_option_string := o; ot_explicit_arg := Some v |}).
Proof.
  intros Hg Hno Hf.
  assert (Hno' : str_has "=" (String "-" (String "-" r)) = false) by (cbn [str_has]; by rewrite Hno).
  rewrite !str_app_cons. unfold parse_optional. change (negb (Ascii.eqb "-" "-")) with false. cbn iota.
  rewrite <- !str_app_cons, dict_get_opts_eq by apply str_has_app_here.
  rewrite str_length_app. cbn [String.length].
  replace (S (S (String.length r)) + 1 =? 1)%nat with false by (symmetry; apply Nat.eqb_neq; lia).
  rewrite split_once_app, Hg by done. unfold get_option_tuples.
  rewrite !str_app_cons. change (negb (Ascii.eqb "-" "-")) with false. change (Ascii.eqb "-" "-") with true.
  cbn iota. rewrite <- !str_app_cons, split_once_app, Hf by done. reflexivity.
Qed.

End Theory.

(** Enumerate the lengths [3 <= n <= length o] of an abbreviation,
    closing each case with [tac]. *)
Ltac enum_len n tac :=
  lazymatch goal with _ : (3 <= n <= _)%nat |- _ => idtac end;
  repeat (first [ lia | destruct n as [|n]; [first [lia | tac] |] ]).

Section Parse.

(** Every spelling of an option argument is read as the option with its
    value. *)
Lemma opt_ok_parse x :
  opt_form x ->
  exists a, dict_get (oa_opt x) option_string_actions = Some a /\
  match oa_spell x with
  | Joined => parse_optional (written x ++ String "=" (oa_val x))
              = Ok (Some {| ot_action := Some a; ot_option_string := oa_opt x;
                            ot_explicit_arg := Some (oa_val x) |})
  | Separate => parse_optional (written x)
                = Ok (Some {| ot_action := Some a; ot_option_string := oa_opt x; ot_explicit_arg := None |}) /\
                String.eqb (written x) "--" = false
  | Attached => parse_optional (oa_opt x ++ oa_val x)
                = Ok (Some {| ot_action := Some a; ot_option_string := oa_opt x;
                              ot_explicit_arg := Some (oa_val x) |}) /\
                String.eqb (oa_opt x ++ oa_val x) "--" = false
  end.
Proof.
  destruct x as [o n sp v]. unfold written.
  intros (Ho & _ & Hn & Hsp). cbn [oa_opt oa_len oa_spell oa_val] in *. unfold opt_strings in Ho.
  repeat (apply elem_of_cons in Ho as [->|Ho]); [..|by apply not_elem_of_nil in Ho];
    eexists; (split; [reflexivity|]); cbn [is_long String.prefix] in Hn, Hsp |- *;
    try (specialize (Hn eq_refl); cbn [String.length] in Hn).
  all: destruct sp.
  (* the joined spelling *)
  all: try (enum_len n ltac:(first [ apply parse_optional_explicit; reflexivity
                                    | apply parse_optional_abbrev; reflexivity ]); fail).
  all: try (apply parse_optional_explicit; reflexivity).
  (* the separate spelling *)
  all: try (enum_len n ltac:(split; reflexivity); fail).
  all: try (split; reflexivity).
  (* the attached spelling *)
  all: destruct Hsp as [Hl Ha]; try discriminate Hl.
  all: destruct v as [|c v]; [discriminate Ha|]; apply negb_true_iff in Ha.
  all: split; [apply parse_optional_attached; first [done | reflexivity] | reflexivity].
Qed.


(** The option stores its value under its [dest], one of the four. *)
Lemma opt_ok_store x :
  opt_ok x ->
  exists a, dict_get (oa_opt x) option_string_actions = Some a /\
    a_kind a = StoreAction (opt_dest (oa_opt x)) /\ dest_action (opt_dest (oa_opt x)) = Some a /\
    check_value a (oa_val x) = Ok tt /\ opt_dest (oa_opt x) ∈ ["template"; "output"; "format"; "logo"].
Proof.
  destruct x as [o n sp v]. intros ((Ho & _) & Hf). cbn [oa_opt oa_val] in *. unfold opt_strings in Ho.
  repeat (apply elem_of_cons in Ho as [->|Ho]); [..|by apply not_elem_of_nil in Ho];
    eexists; split_and!;
    first [ reflexivity | set_solver
          | unfold check_value; cbn [a_choices format_action];
            rewrite bool_decide_true by (apply Hf; set_solver); done ].
Qed.

Lemma opt_store_eq st x a :
  dict_get (oa_opt x) option_string_actions = Some a -> a_kind a = StoreAction (opt_dest (oa_opt x)) ->
  opt_store st x = store a (opt_dest (oa_opt x)) (PStr (oa_val x)) st.
Proof. intros Hg Hk. unfold opt_store. by rewrite Hg, Hk. Qed.

(** Classifying an option argument, then the rest. *)
Lemma classify_opt x rest :
  opt_form x -> classify (opt_args x ++ rest)%list = (cs <- classify rest ;;; Ok (opt_classes x ++ cs)%list).
Proof.
  intros Hx. destruct (opt_ok_parse x Hx) as (a & Hg & Hp). destruct Hx as (_ & _ & _ & Hsp).
  unfold opt_args, opt_classes, opt_tuple_of. rewrite Hg. destruct (oa_spell x); cbn [app].
  - rewrite (classify_cons _ _ _ (eqb_dashdash_has_eq _ (str_has_app_here _ _ _)) Hp).
    by destruct (classify rest).
  - destruct Hp as [Hp He]. destruct (plain_arg_spec _ Hsp) as (Hv1 & Hv2 & _).
    rewrite (classify_cons _ _ _ He Hp), (classify_cons _ _ _ Hv1 Hv2). by destruct (classify rest).
  - destruct Hp as [Hp He]. rewrite (classify_cons _ _ _ He Hp). by destruct (classify rest).
Qed.

(** Consuming an option argument: [store] of its value. *)
Lemma consume_opt x rest cs st :
  opt_ok x ->
  consume (zip (opt_args x ++ rest)%list (opt_classes x ++ cs)%list) st = consume (zip rest cs) (opt_store st x).
Proof.
  intros Hx. destruct (opt_ok_store x Hx) as (a & Hg & Hk & _ & Hc & _).
  rewrite (opt_store_eq _ _ a) by done. destruct Hx as ((_ & Hv & _ & Hsp) & _).
  unfold opt_args, opt_classes, opt_tuple_of. rewrite Hg. destruct (oa_spell x); cbn [app zip].
  - by rewrite (consume_explicit_cons _ _ (opt_dest (oa_opt x))).
  - by rewrite (consume_plain_cons _ _ (opt_dest (oa_opt x))).
  - by rewrite (consume_explicit_cons _ _ (opt_dest (oa_opt x))).
Qed.

(** Consuming a [-f] argument whose value is not a choice: the parse
    ends with argparse's [invalid choice] error. *)
Lemma consume_opt_invalid x rest cs st :
  opt_form x -> oa_opt x ∈ ["-f"; "--format"] -> oa_val x ∉ ["LANDSCAPE"; "PORTRAIT"] ->
  consume (zip (opt_args x ++ rest)%list (opt_classes x ++ cs)%list) st
  = Err (ExitError ("argument -f/--format: invalid choice: " ++ py_repr (oa_val x) ++
                    " (choose from 'LANDSCAPE', 'PORTRAIT')")).
Proof.
  intros Hx Hf Hc. pose proof (check_value_format_invalid _ Hc) as Hcv.
  assert (Hg : dict_get (oa_opt x) option_string_actions = Some format_action)
    by (repeat (apply elem_of_cons in Hf as [->|Hf]); [reflexivity..|by apply not_elem_of_nil in Hf]).
  destruct Hx as (_ & Hv & _ & Hsp).
  unfold opt_args, opt_classes, opt_tuple_of. rewrite Hg. destruct (oa_spell x); cbn [app zip].
  - by apply (consume_explicit_cons_err _ _ "format").
  - by apply (consume_plain_cons_err _ _ "format").
  - by apply (consume_explicit_cons_err _ _ "format").
Qed.

End Parse.
End CLISpell.
