(* ===== verification/CLILaws.v ===== *)
(** * Laws of the command line: order, repetition and spelling of options

    Properties of the parser of CLI.v ([parse_args], CPython 3.11's
    argparse on the options of src/gen_report.py lines 142-146) over whole
    families of command lines.  A command line here is a list of items:
    option arguments of CLISpell.v (an option of the parser with its
    value, in any of the spellings argparse accepts: [-tT], [-t T],
    [-t=T], [--template T], [--temp=T], ...) and arguments the parser,
    having no positionals, leaves over: plain arguments and unknown
    options ([extra_arg]).  An option is consumed as [store] of its value
    ([consume_opt]) and any other item goes to the extras, so the parse
    of such a command line is a fold over its
    items ([parse_args_items]): the namespace holds, at each [dest], the
    last value given for it; the required options are checked against the
    options given, then the extras are refused.  So the parse depends only
    on the last value of each [dest] and on the plain arguments
    ([parse_args_items_equiv], [parse_args_items_last]).  A [-h] after
    such items prints the help and ends the run, whatever follows and
    whichever required option is missing ([main_help]).  Composed with the run of
    Report.v, [main] on such a command line giving the required options
    and no extras saves the report built from the last values given
    ([main_items_report]). *)

From S2P Require Import Prelude PyStr Report CLI CLISpell.
From Stdlib Require Import Ascii.

#[local] Open Scope string_scope.

Module CLILaws.
Import PyStr Report CLI CLISpell ResultNotations SENotations.
#[local] Open Scope py_scope.

(** An argument [_parse_known_args] puts in the extras: a plain
    argument ([parse_optional] gives [None]) or an unknown option ([--bogus],
    [-x], [--bogus=1]: an option tuple with no action), never [--]. *)
Definition extra_arg (s : string) : bool :=
  negb (String.eqb s "--") &&
  match parse_optional s with
  | Ok None => true
  | Ok (Some t) => match ot_action t with None => true | Some _ => false end
  | Err _ => false
  end.

(** An item of the command line: an option argument or an argument left
    over to the extras. *)
Definition item : Type := opt_arg + string.

Definition item_args (i : item) : list string :=
  match i with inl x => opt_args x | inr s => [s] end.

Definition item_ok (i : item) : Prop :=
  match i with inl x => opt_ok x | inr s => extra_arg s = true end.

#[export] Instance item_ok_dec i : Decision (item_ok i).
Proof. destruct i; cbn; apply _. Defined.

Definition item_classes (i : item) : list arg_class :=
  match i with
  | inl x => opt_classes x
  | inr s => match parse_optional s with Ok (Some t) => [ClsO t] | _ => [ClsA] end
  end.

(** What taking the item does to the parse state. *)
Definition item_store (st : pstate) (i : item) : pstate :=
  match i with inl x => opt_store st x | inr s => add_extra s st end.

(** The options of a command line keyed by their [dest], and its plain
    arguments, in order. *)
Definition dest_pairs (items : list item) : list (string * string) :=
  items ≫= fun i => match i with inl x => [(opt_dest (oa_opt x), oa_val x)] | inr _ => [] end.

Definition plain_args (items : list item) : list string :=
  items ≫= fun i => match i with inl _ => [] | inr s => [s] end.

#[export] Instance action_eq_dec : EqDecision action.
Proof. solve_decision. Defined.

(** The required options a command line of items does not give, in the
    order they were added to the parser. *)
Definition missing_required (items : list item) : list action :=
  filter (fun a => a_required a = true /\
                   Forall (fun d => dest_action d <> Some a) (dict_keys (dest_pairs items))) parser_actions.

Section Theory.

Lemma extra_arg_spec s :
  extra_arg s = true -> String.eqb s "--" = false /\
  exists r, parse_optional s = Ok r /\ match r with Some t => ot_action t = None | None => True end.
Proof.
  unfold extra_arg. destruct (String.eqb s "--"); [done|]. cbn [negb andb].
  destruct (parse_optional s) as [[t|]|]; [|intros _; split; [done|by exists None]|done].
  destruct (ot_action t) eqn:?; [done|]. intros _. split; [done|by exists (Some t)].
Qed.

Lemma classify_item i rest :
  item_ok i -> classify (item_args i ++ rest)%list = (cs <- classify rest ;;; Ok (item_classes i ++ cs)%list).
Proof.
  destruct i as [x|s]; cbn [item_ok item_args item_classes]; [intros [Hx _]; by apply classify_opt|].
  intros [Hs1 Hs2]%extra_arg_spec. destruct Hs2 as [r [Hs2 _]]. cbn [app].
  rewrite (classify_cons _ _ _ Hs1 Hs2), Hs2. by destruct (classify rest), r.
Qed.

Lemma classify_items_app items rest :
  Forall item_ok items ->
  classify ((items ≫= item_args) ++ rest)%list = (cs <- classify rest ;;; Ok ((items ≫= item_classes) ++ cs)%list).
Proof.
  induction items as [|i items IH]; intros Hall; [cbn; by destruct (classify rest)|].
  apply Forall_cons in Hall as [Hi Hall].
  rewrite !bind_cons, <- app_assoc, classify_item, IH by done.
  destruct (classify rest); [|done]. cbn [result_bind]. by rewrite app_assoc.
Qed.

Lemma consume_item i rest cs st :
  item_ok i ->
  consume (zip (item_args i ++ rest)%list (item_classes i ++ cs)%list) st = consume (zip rest cs) (item_store st i).
Proof.
  destruct i as [x|s]; [apply consume_opt|]. intros [_ (r & Hp & Hn)]%extra_arg_spec.
  cbn [item_args item_classes]. rewrite Hp. destruct r as [t|]; [cbn; by rewrite Hn|done].
Qed.

Lemma consume_items_app items rest cs st :
  Forall item_ok items ->
  consume (zip ((items ≫= item_args) ++ rest)%list ((items ≫= item_classes) ++ cs)%list) st
  = consume (zip rest cs) (foldl item_store st items).
Proof.
  revert st. induction items as [|i items IH]; intros st Hall; [done|].
  apply Forall_cons in Hall as [Hi Hall].
  rewrite !bind_cons, <- !app_assoc, consume_item by done. by apply IH.
Qed.

Lemma foldl_items_extras items st :
  ps_extras (foldl item_store st items) = (ps_extras st ++ plain_args items)%list.
Proof.
  revert st. induction items as [|[x|s] items IH]; intros st; cbn [foldl]; unfold plain_args;
    rewrite ?bind_cons; try fold (plain_args items); cbn [mbind list_bind app].
  - by rewrite app_nil_r.
  - rewrite IH. unfold item_store, opt_store. by repeat case_match.
  - rewrite IH. cbn [item_store add_extra ps_extras]. by rewrite <- app_assoc.
Qed.

Lemma item_store_get k st i :
  item_ok i ->
  dict_get k (ps_ns (item_store st i))
  = match dict_get k (reverse (dest_pairs [i])) with Some v => Some (PStr v) | None => dict_get k (ps_ns st) end.
Proof.
  destruct i as [x|s]; cbn [item_ok item_store]; [|done]. intros Hx.
  destruct (opt_ok_store x Hx) as (a & Hg & Hk & _).
  rewrite (opt_store_eq _ _ a) by done. cbn [store ps_ns]. rewrite dict_get_set.
  cbn. by destruct (decide (opt_dest (oa_opt x) = k)), (decide (k = opt_dest (oa_opt x))); subst.
Qed.

(** The namespace after the items: at each [dest], the last value given
    for it, if any. *)
Lemma foldl_items_get k st items :
  Forall item_ok items ->
  dict_get k (ps_ns (foldl item_store st items))
  = match dict_get k (reverse (dest_pairs items)) with Some v => Some (PStr v) | None => dict_get k (ps_ns st) end.
Proof.
  induction items as [|i items IH] using rev_ind; intros Hall; [done|].
  rewrite Forall_app, Forall_singleton in Hall. destruct Hall as [Hall Hi].
  rewrite foldl_app. cbn [foldl]. rewrite item_store_get by done.
  unfold dest_pairs. rewrite bind_app, reverse_app. fold (dest_pairs [i]) (dest_pairs items).
  destruct i as [x|s]; cbn [dest_pairs mbind list_bind app reverse rev_append dict_get]; [|by apply IH].
  case_decide; [done|]. by apply IH.
Qed.

(** The items never add a key: each [dest] is there from the start. *)
Lemma foldl_items_keys st items :
  Forall item_ok items -> dict_keys (ps_ns st) = ["template"; "output"; "format"; "logo"] ->
  dict_keys (ps_ns (foldl item_store st items)) = ["template"; "output"; "format"; "logo"].
Proof.
  revert st. induction items as [|[x|s] items IH]; intros st Hall Hk; [done| |];
    apply Forall_cons in Hall as [Hi Hall]; cbn [foldl]; apply IH; try done.
  destruct (opt_ok_store x Hi) as (a & Hg & Hkd & _ & _ & Hin).
  cbn [item_store]. rewrite (opt_store_eq _ _ a) by done. cbn [store ps_ns].
  rewrite dict_keys_set, decide_True by (by rewrite Hk). done.
Qed.

(** The actions seen: those of the [dest]s given. *)
Lemma foldl_items_seen n st items :
  Forall item_ok items ->
  n ∈ ps_seen (foldl item_store st items) <->
  n ∈ ps_seen st \/ exists d a, d ∈ dict_keys (dest_pairs items) /\ dest_action d = Some a /\ action_name a = n.
Proof.
  revert st. induction items as [|[x|s] items IH]; intros st Hall; cbn [foldl].
  - split; [by left|]. intros [|(? & ? & Hin & _)]; [done|]. by apply not_elem_of_nil in Hin.
  - apply Forall_cons in Hall as [Hx Hall]. rewrite IH by done.
    destruct (opt_ok_store x Hx) as (a & Hg & Hk & Hda & _).
    cbn [item_store]. rewrite (opt_store_eq _ _ a) by done. cbn [store ps_seen].
    change (dict_keys (dest_pairs (inl x :: items)))
      with (opt_dest (oa_opt x) :: dict_keys (dest_pairs items)).
    setoid_rewrite elem_of_cons. naive_solver.
  - apply Forall_cons in Hall as [_ Hall]. by rewrite IH.
Qed.

Lemma keys_given {V} d (l : list (string * V)) : d ∈ dict_keys l <-> is_Some (dict_get d (reverse l)).
Proof. rewrite <- elem_of_dict_keys. unfold dict_keys. by rewrite fmap_reverse, elem_of_reverse. Qed.

(** A command line of items: the namespace after them, or the error for
    the required options not given, or for the plain arguments left over. *)
Lemma parse_args_items items :
  Forall item_ok items ->
  parse_args (items ≫= item_args) =
  let st := foldl item_store initial_state items in
  match filter (fun a => a_required a = true /\ action_name a ∉ ps_seen st) parser_actions with
  | [] => match plain_args items with
          | [] => Ok (ps_ns st)
          | extras => Err (ExitError ("unrecognized arguments: " ++ str_join " " extras))
          end
  | missing => Err (ExitError ("the following arguments are required: " ++
                               str_join ", " (action_name <$> missing)))
  end.
Proof.
  intros Hall. unfold parse_args, parse_known_args.
  pose proof (classify_items_app items [] Hall) as Hc. cbn [classify result_bind] in Hc.
  rewrite !app_nil_r in Hc. rewrite Hc. cbn [result_bind].
  pose proof (consume_items_app items [] [] initial_state Hall) as Hs. rewrite !app_nil_r in Hs. rewrite Hs.
  cbn [zip consume result_bind]. cbn zeta. rewrite foldl_items_extras. cbn [initial_state ps_extras app].
  destruct (filter _ _); [by destruct (plain_args items)|done].
Qed.

(** C31: two command lines of options, each in any spelling argparse
    accepts ([-tT], [-t T], [-t=T], [--template T], [--temp=T], ...), and
    arguments left to the extras (plain arguments, unknown options), that
    give every [dest] the same last value (or both none) and have the
    same extras in the same order parse
    alike: the same namespace, the same missing-options error or the same
    unrecognized-arguments error.  Options can come in any order and
    spelling, and an earlier value of a repeated option is overridden. *)
Theorem parse_args_items_equiv items items' :
  Forall item_ok items -> Forall item_ok items' ->
  (forall d, dict_get d (reverse (dest_pairs items)) = dict_get d (reverse (dest_pairs items'))) ->
  plain_args items = plain_args items' ->
  parse_args (items ≫= item_args) = parse_args (items' ≫= item_args).
Proof.
  intros H1 H2 Heq Hx. rewrite !parse_args_items by done. cbn zeta. rewrite Hx.
  assert (Hk : forall its, Forall item_ok its ->
            dict_keys (ps_ns (foldl item_store initial_state its)) = ["template"; "output"; "format"; "logo"])
    by (intros; by apply foldl_items_keys).
  assert (Hns : ps_ns (foldl item_store initial_state items) = ps_ns (foldl item_store initial_state items')).
  { apply dict_eq_ext; [unfold dict_wf; rewrite Hk by done; decide_by_eval|by rewrite !Hk|].
    intros k. rewrite !foldl_items_get by done. by rewrite Heq. }
  rewrite Hns, (list_filter_iff _ (fun a => a_required a = true /\
                                   action_name a ∉ ps_seen (foldl item_store initial_state items'))); [done|].
  intros a. rewrite !foldl_items_seen by done. setoid_rewrite keys_given. setoid_rewrite Heq. done.
Qed.

(** C32: after a successful parse of a command line of items, the
    attribute of an option given once or several times, in any
    spellings, holds the last value given ([store] overwrites). *)
Theorem parse_args_items_last items ns d v :
  Forall item_ok items -> parse_args (items ≫= item_args) = Ok ns ->
  dict_get d (reverse (dest_pairs items)) = Some v -> dict_get d ns = Some (PStr v).
Proof.
  intros Hall. rewrite parse_args_items by done. cbn zeta.
  destruct (filter _ _); [|done]. destruct (plain_args items); [|done].
  intros [= <-] Hv. by rewrite foldl_items_get, Hv.
Qed.

(** C34: [-h] or [--help] after items ends [main] with the help: the
    help text is written to standard output and the run exits with status
    0 before any other effect (no database access, no file written),
    whatever arguments follow (as long as argparse can classify them) and
    even when a required option is missing. *)
Theorem main_help items h rest cs w :
  Forall item_ok items -> h ∈ ["-h"; "--help"] -> classify rest = Ok cs ->
  main ((items ≫= item_args) ++ h :: rest)%list w
  = (Err HelpExit, set_stdout (w_stdout w ++ [w_help w]) w).
Proof.
  intros Hall Hh Hcs. unfold main, parse_args, parse_known_args.
  rewrite classify_items_app by done.
  assert (Hp : parse_optional h = Ok (Some {| ot_action := Some help_action; ot_option_string := h;
                                              ot_explicit_arg := None |}) /\ String.eqb h "--" = false)
    by (repeat (apply elem_of_cons in Hh as [->|Hh]); [split; reflexivity..|by apply not_elem_of_nil in Hh]).
  destruct Hp as [Hp He]. rewrite (classify_cons _ _ _ He Hp), Hcs. cbn [result_bind].
  rewrite consume_items_app by done. cbn [zip]. rewrite consume_help. reflexivity.
Qed.

(** The required options are all seen once each of them has a value. *)
Lemma required_given items :
  Forall item_ok items ->
  (forall d, d ∈ ["template"; "output"; "logo"] -> is_Some (dict_get d (reverse (dest_pairs items)))) ->
  filter (fun a => a_required a = true /\ action_name a ∉ ps_seen (foldl item_store initial_state items))
    parser_actions = [].
Proof.
  intros Hall Hd. destruct (filter _ _) as [|a ?] eqn:E; [done|exfalso].
  match type of E with ?lhs = _ => assert (Ha : a ∈ lhs) by (rewrite E; left) end.
  apply list_elem_of_filter in Ha as [[Hr Hn] Ha]. apply Hn.
  apply foldl_items_seen; [done|]. right.
  unfold parser_actions in Ha. repeat (apply elem_of_cons in Ha as [->|Ha]);
    try (by apply not_elem_of_nil in Ha); try discriminate Hr;
    [exists "template"|exists "output"|exists "logo"]; eexists;
    (split; [apply keys_given, Hd; set_solver|split; reflexivity]).
Qed.

(** C18: the whole program on a command line of items ([main] composed
    of [parse_args], [create_report_py] and [create_report]): when the
    items give a template, an output path and a logo, leave no extras, and
    the database is reachable, the logo readable and the output writable,
    [main] writes at the last output path given the report of the query
    result in the last format given (["PORTRAIT"] by default) with the
    last logo given, and prints the confirmation. *)
Theorem main_items_report items t o l w db :
  Forall item_ok items -> plain_args items = [] ->
  dict_get "template" (reverse (dest_pairs items)) = Some t ->
  dict_get "output" (reverse (dest_pairs items)) = Some o ->
  dict_get "logo" (reverse (dest_pairs items)) = Some l ->
  w_db w = Some db -> l ∈ w_images w -> o ∉ w_unwritable w ->
  main (items ≫= item_args) w =
  (Ok tt, set_stdout (w_stdout w ++ ["✔️ Report saved to " ++ o])
            (set_files (<[o := expected_document db (w_collate w)
                                 (default "PORTRAIT" (dict_get "format" (reverse (dest_pairs items))))
                                 l (w_clock w)]> (w_files w)) w)).
Proof.
  intros Hall Hx Ht Ho Hl Hdb Hlogo Hout. unfold main. rewrite parse_args_items by done. cbn zeta.
  rewrite required_given, Hx by (done || (intros d Hd; repeat (apply elem_of_cons in Hd as [->|Hd]);
    [by rewrite Ht|by rewrite Ho|by rewrite Hl|by apply not_elem_of_nil in Hd])).
  unfold ns_attr. rewrite !foldl_items_get, Ht, Ho, Hl by done.
  destruct (dict_get "format" _) as [f|]; apply create_report_success; done.
Qed.

Lemma dest_action_elem d a : dest_action d = Some a -> a ∈ parser_actions.
Proof.
  unfold dest_action. intros H. destruct (filter _ _) as [|b l] eqn:E; [done|]. cbn in H. simplify_eq.
  assert (Ha : a ∈ filter (fun a' => a_kind a' = StoreAction d) parser_actions) by (rewrite E; left).
  by apply list_elem_of_filter in Ha as [_ Ha].
Qed.

(** No two actions of the parser share a name. *)
Lemma action_name_inj a a' :
  a ∈ parser_actions -> a' ∈ parser_actions -> action_name a = action_name a' -> a = a'.
Proof.
  unfold parser_actions. intros Ha Ha' H.
  repeat (apply elem_of_cons in Ha as [->|Ha]); [..|by apply not_elem_of_nil in Ha];
    repeat (apply elem_of_cons in Ha' as [->|Ha']); try (by apply not_elem_of_nil in Ha');
    try done; vm_compute in H; discriminate.
Qed.

(** The required check of [parse_args] reads the [dest]s given. *)
Lemma missing_required_seen items :
  Forall item_ok items ->
  filter (fun a => a_required a = true /\ action_name a ∉ ps_seen (foldl item_store initial_state items))
    parser_actions = missing_required items.
Proof.
  intros Hall. apply filter_iff_elem. intros a Ha. apply and_iff_compat_l.
  rewrite Forall_forall, foldl_items_seen by done. cbn [initial_state ps_seen].
  split.
  - intros Hn d Hd Hda. apply Hn. right. by exists d, a.
  - intros Hf [Hin|(d & a' & Hd & Hda & Hn)]; [by apply not_elem_of_nil in Hin|].
    apply (Hf d Hd). rewrite Hda. f_equal. apply action_name_inj; [|done|done].
    by apply dest_action_elem in Hda.
Qed.

(** C33: the usage errors of a command line of items, whatever the
    order and spelling of its options: when required options are not
    given, [main] exits with argparse's message listing them all, in the
    order they were added to the parser; when all are given but
    arguments are left over (plain ones or unknown options), it exits
    with the message listing those, in order.  Either way the exit comes
    before any effect: the world is unchanged. *)
Theorem main_items_usage_error items w :
  Forall item_ok items ->
  (missing_required items <> [] ->
   main (items ≫= item_args) w
   = (Err (UsageError ("the following arguments are required: " ++
                       str_join ", " (action_name <$> missing_required items))), w)) /\
  (missing_required items = [] -> plain_args items <> [] ->
   main (items ≫= item_args) w
   = (Err (UsageError ("unrecognized arguments: " ++ str_join " " (plain_args items))), w)).
Proof.
  intros Hall. unfold main. rewrite parse_args_items by done. cbn zeta.
  rewrite missing_required_seen by done. split.
  - by destruct (missing_required items).
  - intros -> Hx. by destruct (plain_args items).
Qed.

(** C12: a [-f] argument whose value is not one of the choices, in any
    spelling ([-fV], [-f V], [-f=V], [--format V], [--form=V], ...),
    ends [main] with argparse's [invalid choice] usage error and the world
    unchanged, wherever it comes: after any options and left-over
    arguments, before anything argparse can classify, and even when a
    required option is missing or a later [-f] would be valid. *)
Theorem main_invalid_format items x rest cs w :
  Forall item_ok items -> opt_form x -> oa_opt x ∈ ["-f"; "--format"] ->
  oa_val x ∉ ["LANDSCAPE"; "PORTRAIT"] -> classify rest = Ok cs ->
  main ((items ≫= item_args) ++ opt_args x ++ rest)%list w
  = (Err (UsageError ("argument -f/--format: invalid choice: " ++ py_repr (oa_val x) ++
                      " (choose from 'LANDSCAPE', 'PORTRAIT')")), w).
Proof.
  intros Hall Hx Hf Hc Hcs. unfold main, parse_args, parse_known_args.
  rewrite classify_items_app, classify_opt, Hcs by done. cbn [result_bind].
  rewrite consume_items_app by done. by rewrite consume_opt_invalid.
Qed.

End Theory.

(** ** Witnesses *)

(** [-tt.docx --out=r.docx -l l.png] *)
Definition witness_items : list item :=
  [inl (OptArg "-t" 2 Attached "t.docx"); inl (OptArg "--output" 5 Joined "r.docx");
   inl (OptArg "-l" 2 Separate "l.png")].

(** [--logo old.png -o=r.docx --lo=l.png --template t.docx] *)
Definition witness_items' : list item :=
  [inl (OptArg "--logo" 6 Separate "old.png"); inl (OptArg "-o" 2 Joined "r.docx");
   inl (OptArg "--logo" 4 Joined "l.png"); inl (OptArg "--template" 10 Separate "t.docx")].

Lemma parse_args_items_equiv_witness :
  Forall item_ok witness_items /\ Forall item_ok witness_items' /\
  (forall d, dict_get d (reverse (dest_pairs witness_items))
             = dict_get d (reverse (dest_pairs witness_items'))) /\
  plain_args witness_items = plain_args witness_items' /\
  parse_args (witness_items ≫= item_args) = parse_args (witness_items' ≫= item_args).
Proof.
  assert (H1 : Forall item_ok witness_items) by decide_by_eval.
  assert (H2 : Forall item_ok witness_items') by decide_by_eval.
  assert (Heq : forall d, dict_get d (reverse (dest_pairs witness_items))
                          = dict_get d (reverse (dest_pairs witness_items'))).
  { intros d.
    change (reverse (dest_pairs witness_items)) with
      (reverse [("template", "t.docx"); ("output", "r.docx"); ("logo", "l.png")]).
    change (reverse (dest_pairs witness_items')) with
      (reverse [("logo", "old.png"); ("output", "r.docx"); ("logo", "l.png"); ("template", "t.docx")]).
    unfold reverse. cbn [rev_append dict_get]. repeat case_decide; congruence. }
  assert (Hx : plain_args witness_items = plain_args witness_items') by reflexivity.
  split_and!; [exact H1|exact H2|exact Heq|exact Hx|]. exact (parse_args_items_equiv _ _ H1 H2 Heq Hx).
Defined.

Lemma parse_args_items_last_witness :
  Forall item_ok witness_items' /\
  parse_args (witness_items' ≫= item_args)
  = Ok [("template", PStr "t.docx"); ("output", PStr "r.docx"); ("format", PStr "PORTRAIT");
        ("logo", PStr "l.png")] /\
  dict_get "logo" (reverse (dest_pairs witness_items')) = Some "l.png" /\
  dict_get "logo" [("template", PStr "t.docx"); ("output", PStr "r.docx"); ("format", PStr "PORTRAIT");
                   ("logo", PStr "l.png")] = Some (PStr "l.png").
Proof.
  assert (H1 : Forall item_ok witness_items') by decide_by_eval.
  assert (H2 : parse_args (witness_items' ≫= item_args)
               = Ok [("template", PStr "t.docx"); ("output", PStr "r.docx"); ("format", PStr "PORTRAIT");
                     ("logo", PStr "l.png")]) by (vm_compute; reflexivity).
  assert (H3 : dict_get "logo" (reverse (dest_pairs witness_items')) = Some "l.png") by reflexivity.
  split_and!; [exact H1|exact H2|exact H3|]. exact (parse_args_items_last _ _ _ _ H1 H2 H3).
Defined.

(** [--logo old.png -o=r.docx --lo=l.png --template t.docx] against a
    reachable database, with [l.png] readable. *)
Definition witness_world : world := scenario_world (Some (wheat_db (Some (dec1 30)))) {["l.png"]}.

Lemma main_items_report_witness :
  Forall item_ok witness_items' /\ plain_args witness_items' = [] /\
  dict_get "template" (reverse (dest_pairs witness_items')) = Some "t.docx" /\
  dict_get "output" (reverse (dest_pairs witness_items')) = Some "r.docx" /\
  dict_get "logo" (reverse (dest_pairs witness_items')) = Some "l.png" /\
  w_db witness_world = Some (wheat_db (Some (dec1 30))) /\
  "l.png" ∈ w_images witness_world /\ ("r.docx" ∉ w_unwritable witness_world) /\
  main (witness_items' ≫= item_args) witness_world =
  (Ok tt, set_stdout (w_stdout witness_world ++ ["✔️ Report saved to " ++ "r.docx"])
            (set_files (<["r.docx" := expected_document (wheat_db (Some (dec1 30))) (w_collate witness_world)
                                        "PORTRAIT" "l.png" (w_clock witness_world)]>
                          (w_files witness_world)) witness_world)).
Proof.
  assert (H1 : Forall item_ok witness_items') by decide_by_eval.
  assert (H2 : plain_args witness_items' = []) by reflexivity.
  assert (H3 : dict_get "template" (reverse (dest_pairs witness_items')) = Some "t.docx") by reflexivity.
  assert (H4 : dict_get "output" (reverse (dest_pairs witness_items')) = Some "r.docx") by reflexivity.
  assert (H5 : dict_get "logo" (reverse (dest_pairs witness_items')) = Some "l.png") by reflexivity.
  assert (H6 : w_db witness_world = Some (wheat_db (Some (dec1 30)))) by reflexivity.
  assert (H7 : "l.png" ∈ w_images witness_world) by (cbn; set_solver).
  assert (H8 : "r.docx" ∉ w_unwritable witness_world) by (cbn; set_solver).
  split_and!; try assumption.
  exact (main_items_report _ "t.docx" _ _ _ _ H1 H2 H3 H4 H5 H6 H7 H8).
Defined.

(** [--out=r.docx --bogus -h x.png], with [--template] and [--logo] missing. *)
Lemma main_help_witness :
  Forall item_ok [inl (OptArg "--output" 5 Joined "r.docx"); inr "--bogus"] /\ "-h" ∈ ["-h"; "--help"] /\
  classify ["x.png"] = Ok [ClsA] /\
  main (([inl (OptArg "--output" 5 Joined "r.docx"); inr "--bogus"] ≫= item_args) ++ ["-h"; "x.png"])%list
       (scenario_world None ∅)
  = (Err HelpExit, set_stdout [w_help (scenario_world None ∅)] (scenario_world None ∅)).
Proof.
  assert (H1 : Forall item_ok [inl (OptArg "--output" 5 Joined "r.docx"); inr "--bogus"]) by decide_by_eval.
  assert (H2 : "-h" ∈ ["-h"; "--help"]) by left.
  assert (H3 : classify ["x.png"] = Ok [ClsA]) by reflexivity.
  split_and!; [exact H1|exact H2|exact H3|]. exact (main_help _ "-h" ["x.png"] _ _ H1 H2 H3).
Defined.

(** [-tt.docx --bogus]: [--output] and [--logo] missing. *)
Lemma main_items_usage_error_witness :
  Forall item_ok [inl (OptArg "-t" 2 Attached "t.docx"); inr "--bogus"] /\
  main ([inl (OptArg "-t" 2 Attached "t.docx"); inr "--bogus"] ≫= item_args) (scenario_world None ∅)
  = (Err (UsageError "the following arguments are required: -o/--output, -l/--logo"), scenario_world None ∅).
Proof.
  assert (H1 : Forall item_ok [inl (OptArg "-t" 2 Attached "t.docx"); inr "--bogus"]) by decide_by_eval.
  split; [exact H1|].
  rewrite (proj1 (main_items_usage_error _ (scenario_world None ∅) H1)) by (vm_compute; discriminate).
  vm_compute. reflexivity.
Defined.

(** [-tt.docx --out=r.docx -l l.png --format=landscape] *)
Lemma main_invalid_format_witness :
  Forall item_ok witness_items /\ opt_form (OptArg "--format" 8 Joined "landscape") /\
  oa_opt (OptArg "--format" 8 Joined "landscape") ∈ ["-f"; "--format"] /\
  oa_val (OptArg "--format" 8 Joined "landscape") ∉ ["LANDSCAPE"; "PORTRAIT"] /\ classify [] = Ok [] /\
  main ((witness_items ≫= item_args) ++ opt_args (OptArg "--format" 8 Joined "landscape") ++ [])%list
    (scenario_world None ∅)
  = (Err (UsageError ("argument -f/--format: invalid choice: " ++ py_repr "landscape" ++
                      " (choose from 'LANDSCAPE', 'PORTRAIT')")), scenario_world None ∅).
Proof.
  assert (H1 : Forall item_ok witness_items) by decide_by_eval.
  assert (H2 : opt_form (OptArg "--format" 8 Joined "landscape")) by decide_by_eval.
  assert (H3 : oa_opt (OptArg "--format" 8 Joined "landscape") ∈ ["-f"; "--format"]) by decide_by_eval.
  assert (H4 : oa_val (OptArg "--format" 8 Joined "landscape") ∉ ["LANDSCAPE"; "PORTRAIT"]) by decide_by_eval.
  assert (H5 : classify [] = Ok []) by reflexivity.
  split_and!; try assumption. exact (main_invalid_format _ _ _ _ _ H1 H2 H3 H4 H5).
Defined.

End CLILaws.
